(** * research-master: the MCP server core

  A shallow embedding of the TypeScript sources of the MCP server
  (message protocol, generation broker, workflow manager, request
  handler) together with the properties established about them.

  Conventions used throughout:
  - [Date.now()] and [new Date()] are read from an explicit clock value
    that the caller passes in (milliseconds or seconds as [Z]);
  - exceptions are values of a sum type ([Thrown]/[Returned]);
  - every [await] of a collaborator (Redis, the inference backend, a
    sibling HTTP service) is a point where the collaborator's answer
    enters the model as an argument or as an event. *)
From Stdlib Require Import ZArith List Bool Lia.
From stdpp Require Import base option list gmap strings pretty fin_maps.
Import ListNotations.
Local Set Warnings "-register-all".
Local Open Scope string_scope.
Local Open Scope list_scope.
Local Open Scope Z_scope.

(** * Part I: the embedding *)

(** ** JavaScript values, as far as the sources inspect them *)

Module Js.

(** [any]-typed data: the JSON-like values that reach the server. Numbers
    are the integers the sources compare against, plus [NaN]. *)
Inductive Value : Type :=
| Undefined
| Null
| Bool (b : bool)
| Number (z : Z)
| NaN
| Str (s : string)
| Array (items : list Value)
| Object (fields : gmap string Value).

(** ToBoolean: what [!v] and [if (v)] look at. *)
Definition truthy (v : Value) : bool :=
  match v with
  | Undefined | Null | NaN => false
  | Bool b => b
  | Number z => negb (z =? 0)
  | Str s => negb (String.eqb s "")
  | Array _ | Object _ => true
  end.

(** The [typeof] operator. *)
Definition typeof (v : Value) : string :=
  match v with
  | Undefined => "undefined"
  | Null => "object"
  | Bool _ => "boolean"
  | Number _ | NaN => "number"
  | Str _ => "string"
  | Array _ | Object _ => "object"
  end.

(** Property read [v.name] for the names the sources use on messages
    ([id], [type], [method], [failed]): own fields of an object, and
    [undefined] on anything else that is not [null]/[undefined]. *)
Definition get (v : Value) (name : string) : Value :=
  match v with
  | Object fields => default Undefined (fields !! name)
  | _ => Undefined
  end.

(** Strict equality with a string literal. *)
Definition is_string (v : Value) (lit : string) : bool :=
  match v with
  | Str s => String.eqb s lit
  | _ => false
  end.

(** [lits.includes(v)] for an array literal of strings. *)
Definition includes (lits : list string) (v : Value) : bool :=
  existsb (is_string v) lits.

(** [n.toString()] for an integer-valued number. *)
Definition number_to_string (z : Z) : string := pretty z.

(** The one-character strings of a string, in order. *)
Fixpoint characters (s : string) : list Value :=
  match s with
  | EmptyString => []
  | String c rest => Str (String c EmptyString) :: characters rest
  end.

(** Items under their indices, as the properties of an array are. *)
Definition indexed (items : list Value) : gmap string Value :=
  list_to_map (imap (fun i item => (number_to_string (Z.of_nat i), item)) items).

(** The own enumerable properties that an object spread [{...v}] copies:
    the fields of an object, the elements of an array and the characters
    of a string under their indices, and nothing of any other value. *)
Definition spread (v : Value) : gmap string Value :=
  match v with
  | Object fields => fields
  | Array items => indexed items
  | Str s => indexed (characters s)
  | _ => ∅
  end.

(** How a call ends: it returns a value or throws; an [async] function's
    promise is fulfilled or rejected accordingly. [message] is the
    [message] of the thrown [Error]. *)
Inductive Outcome (A : Type) : Type :=
| Returned (value : A)
| Thrown (message : string).

Global Arguments Returned {A} value.

Global Arguments Thrown {A} message.

End Js.

(** ** protocols/mcp.ts *)

Module MCPProtocol.
Import Js.

(** [enum MCPErrorCode] *)
Inductive MCPErrorCode : Type :=
| PARSE_ERROR | INVALID_REQUEST | METHOD_NOT_FOUND
| INVALID_PARAMS | INTERNAL_ERROR | SERVER_ERROR.

Definition code_value (c : MCPErrorCode) : Z :=
  match c with
  | PARSE_ERROR => -32700
  | INVALID_REQUEST => -32600
  | METHOD_NOT_FOUND => -32601
  | INVALID_PARAMS => -32602
  | INTERNAL_ERROR => -32603
  | SERVER_ERROR => -32000
  end.

(** The factories build object literals; [now] is [Date.now()]. An
    optional argument that is left out arrives as [Undefined]. *)
Definition createRequest (now : Z) (method : string) (params : Value) : Value :=
  Object (list_to_map
    [ ("id", Str (number_to_string now));
      ("type", Str "request");
      ("method", Str method);
      ("params", params);
      ("timestamp", Number now) ]).

Definition createResponse (now : Z) (requestId : string) (result : Value) : Value :=
  Object (list_to_map
    [ ("id", Str requestId);
      ("type", Str "response");
      ("method", Str "");
      ("result", result);
      ("timestamp", Number now) ]).

Definition createError (now : Z) (requestId : string) (code : Z)
    (message : string) (data : Value) : Value :=
  Object (list_to_map
    [ ("id", Str requestId);
      ("type", Str "response");
      ("method", Str "");
      ("error", Object (list_to_map
          [ ("code", Number code); ("message", Str message); ("data", data) ]));
      ("timestamp", Number now) ]).

Definition createNotification (now : Z) (method : string) (params : Value) : Value :=
  Object (list_to_map
    [ ("id", Str (number_to_string now));
      ("type", Str "notification");
      ("method", Str method);
      ("params", params);
      ("timestamp", Number now) ]).

(** [static validate(message: any): boolean] *)
Definition validate (message : Value) : bool :=
  if negb (truthy message) || negb (String.eqb (typeof message) "object") then false
  else if negb (truthy (get message "id"))
       || negb (truthy (get message "type"))
       || negb (truthy (get message "method")) then false
  else if negb (includes ["request"; "response"; "notification"] (get message "type"))
    then false
  else true.

End MCPProtocol.

(** ** services/ollama.ts *)

Module OllamaService.
Import Js.

(** The fields of [OllamaConfig] that the broker logic reads. *)
Record OllamaConfig : Type := mkConfig {
  model : string;
  cacheEnabled : bool;
  maxRetries : option Z
}.

(** What one [await this.client.post("/api/chat", ...)] gives back: axios
    throws (network error, timeout, non-2xx status), or it returns a
    response whose [data] may be absent. *)
Inductive PostReply (Response : Type) : Type :=
| PostThrows (message : string)
| PostReturns (data : option Response).

Global Arguments PostThrows {Response} message.

Global Arguments PostReturns {Response} data.

(** Events passed to [this.emit]. *)
Inductive Emitted : Type :=
| CacheHit (cacheKey : string)
| CacheSet (cacheKey : string)
| GenerationSuccess
| GenerationError (message : string)
| CacheCleared (count : nat).

(** Where a settled [generate] call took its result from: the cache, its
    request to the backend, or the Redis command that was rejected (the
    cache lookup, or the store of the response of request [p]). *)
Inductive Source : Type :=
| FromCache
| FromRequest (p : nat)
| CacheReadFailed
| CacheWriteFailed (p : nat).

(** What the service is built over: [Request] stands for the pair
    (messages, options) and [Response] for [OllamaResponse]; [getCacheKey]
    is the SHA-256 fingerprint of a request and the configured model;
    [JSON_stringify] and [JSON_parse] are the built-ins applied to
    responses ([None]: [JSON.parse] throws); [config] is the service's
    configuration. *)
Class Service : Type := {
  Request : Type;
  Response : Type;
  getCacheKey : Request -> string;
  JSON_stringify : Response -> string;
  JSON_parse : string -> option Response;
  config : OllamaConfig
}.

Section Generation.
Context `{service : Service}.

(** *** performGeneration *)

(** [this.config.maxRetries || 3] *)
Definition effectiveMaxRetries : Z :=
  match maxRetries config with
  | Some n => if n =? 0 then 3 else n
  | None => 3
  end.

(** [Math.pow(2, attempt) * 1000], in milliseconds *)
Definition backoff (attempt : Z) : Z := 2 ^ attempt * 1000.

(** Reading [response.data.total_duration] on an absent body. *)
Definition absent_body_message : string :=
  "Cannot read properties of undefined (reading 'total_duration')".

(** The body of the [try] block for one attempt. *)
Definition attemptOnce (reply : PostReply Response) : Outcome Response :=
  match reply with
  | PostThrows message => Thrown message
  | PostReturns None => Thrown absent_body_message
  | PostReturns (Some data) => Returned data
  end.

(** The [for] loop: [remaining] iterations are left, [post attempt] is
    the backend's answer to attempt number [attempt], [delays] collects
    the arguments of [this.delay] so far. *)
Fixpoint attemptLoop (post : Z -> PostReply Response) (remaining : nat)
    (attempt : Z) (lastError : string) (delays : list Z)
    : Outcome Response * list Z :=
  match remaining with
  | O =>
      (Thrown ("Generation failed after " +:+ pretty effectiveMaxRetries
               +:+ " attempts: " +:+ lastError), delays)
  | S remaining' =>
      match attemptOnce (post attempt) with
      | Returned data => (Returned data, delays)
      | Thrown message =>
          attemptLoop post remaining' (attempt + 1) message
            (if attempt <? effectiveMaxRetries - 1
             then delays ++ [backoff attempt] else delays)
      end
  end.

Definition performGeneration (post : Z -> PostReply Response)
    : Outcome Response * list Z :=
  attemptLoop post (Z.to_nat effectiveMaxRetries) 0 "No attempts made" [].

(** *** generate, on the event loop *)

(** A [generate] call is suspended at one of its three [await]s, or it
    has settled, or it has returned the promise of an earlier request. A
    [clearCache] call is suspended at [redis.keys] or at [redis.del] (with
    the keys it was given), or it has settled: with the count it emitted,
    or with the rejection of one of the two commands. A [streamGenerate]
    call posts to the backend on its own: it is streaming, or it has
    settled with the text or an error. *)
Inductive CallState : Type :=
| AwaitCacheGet (req : Request) (useCache : bool)
| AwaitRequest (req : Request) (useCache : bool) (p : nat)
| AwaitCacheSet (req : Request) (p : nat) (response : Response)
| Settled (via : Source) (result : Outcome Response)
| Forwarded (p : nat)
| AwaitKeys
| AwaitDel (keys : list string)
| Cleared (result : Outcome nat)
| Streaming (req : Request)
| Streamed (result : Outcome string).

(** The service and its collaborators between two turns of the event
    loop. [redis] holds the keys under ["ollama:cache:"], each with its
    value and the instant it expires; [requests] lists the promises
    returned by [performGeneration], each with its fingerprint and, once
    settled, its outcome; [calls] lists the invocations of [generate],
    [clearCache] and [streamGenerate]. The clock counts seconds. *)
Record State : Type := mkState {
  clock : Z;
  redis : gmap string (string * Z);
  activeRequests : gmap string nat;
  requests : list (string * option (Outcome Response));
  calls : list CallState;
  emitted : list Emitted
}.

Definition init : State := mkState 0 ∅ ∅ [] [] [].

(** The turns of the event loop: time passes; one of the three public
    methods is called; Redis serves the command a call is waiting for, or
    rejects it with [failure]; the retries of a backend request come to an
    end; a call resumes after its request; a stream ends. A command takes
    effect on Redis when its reply is handled, and a rejected command has
    none. *)
Inductive Event : Type :=
| Tick (seconds : Z)
| Generate (req : Request) (useCache : bool)
| RedisGetReply (c : nat) (failure : option string)
| BackendReply (p : nat) (post : Z -> PostReply Response)
| RequestAwaited (c : nat)
| RedisSetReply (c : nat) (failure : option string)
| ClearCache
| RedisKeysReply (c : nat) (failure : option string)
| RedisDelReply (c : nat) (failure : option string)
| StreamGenerate (req : Request)
| StreamSettled (c : nat) (result : Outcome string).

(** [redis.get(key)]: the value, unless the key is absent or expired. *)
Definition redis_get (st : State) (key : string) : option string :=
  match redis st !! key with
  | Some (value, expiry) => if clock st <? expiry then Some value else None
  | None => None
  end.

Definition push_call (st : State) (cs : CallState) : State :=
  mkState (clock st) (redis st) (activeRequests st) (requests st)
          (calls st ++ [cs]) (emitted st).

Definition set_call (st : State) (c : nat) (cs : CallState) : State :=
  mkState (clock st) (redis st) (activeRequests st) (requests st)
          (<[c := cs]> (calls st)) (emitted st).

Definition emit (st : State) (e : Emitted) : State :=
  mkState (clock st) (redis st) (activeRequests st) (requests st)
          (calls st) (emitted st ++ [e]).

(** Lines 142-151: look the fingerprint up in [activeRequests]; return
    the promise found there, or start [performGeneration] and register
    its promise. *)
Definition deduplicate (st : State) (req : Request) (useCache : bool)
    : State * CallState :=
  let requestKey := getCacheKey req in
  match activeRequests st !! requestKey with
  | Some p => (st, Forwarded p)
  | None =>
      let p := length (requests st) in
      (mkState (clock st) (redis st) (<[requestKey := p]> (activeRequests st))
               (requests st ++ [(requestKey, None)]) (calls st) (emitted st),
       AwaitRequest req useCache p)
  end.

(** The [finally] block, and the call settling. *)
Definition finish (st : State) (c : nat) (req : Request) (via : Source)
    (result : Outcome Response) : State :=
  mkState (clock st) (redis st) (delete (getCacheKey req) (activeRequests st))
          (requests st) (<[c := Settled via result]> (calls st))
          (emitted st).

(** [redis.keys("ollama:cache:*")]: the keys that have not expired. *)
Definition liveKeys (st : State) : list string :=
  fst <$> List.filter (fun entry => clock st <? entry.2.2) (map_to_list (redis st)).

Definition step (st : State) (e : Event) : option State :=
  match e with
  | Tick seconds =>
      if 0 <=? seconds
      then Some (mkState (clock st + seconds) (redis st) (activeRequests st)
                         (requests st) (calls st) (emitted st))
      else None
  | Generate req useCache =>
      if cacheEnabled config && useCache
      then Some (push_call st (AwaitCacheGet req useCache))
      else let '(st', cs) := deduplicate st req useCache in
           Some (push_call st' cs)
  | RedisGetReply c failure =>
      match calls st !! c with
      | Some (AwaitCacheGet req useCache) =>
          let cacheKey := getCacheKey req in
          let miss := let '(st', cs) := deduplicate st req useCache in
                      Some (set_call st' c cs) in
          match failure with
          | Some message => Some (set_call st c (Settled CacheReadFailed (Thrown message)))
          | None =>
              match redis_get st cacheKey with
              | Some cached =>
                  if negb (String.eqb cached "")
                  then Some (set_call (emit st (CacheHit cacheKey)) c
                               (Settled FromCache
                                  match JSON_parse cached with
                                  | Some response => Returned response
                                  | None => Thrown "Unexpected token in JSON"
                                  end))
                  else miss
              | None => miss
              end
          end
      | _ => None
      end
  | BackendReply p post =>
      match requests st !! p with
      | Some (key, None) =>
          let result := fst (performGeneration post) in
          Some (mkState (clock st) (redis st) (activeRequests st)
                  (<[p := (key, Some result)]> (requests st)) (calls st)
                  (emitted st ++
                     [match result with
                      | Returned _ => GenerationSuccess
                      | Thrown message => GenerationError message
                      end]))
      | _ => None
      end
  | RequestAwaited c =>
      match calls st !! c with
      | Some (AwaitRequest req useCache p) =>
          match requests st !! p with
          | Some (_, Some (Returned response)) =>
              if cacheEnabled config && useCache
              then Some (set_call st c (AwaitCacheSet req p response))
              else Some (finish st c req (FromRequest p) (Returned response))
          | Some (_, Some (Thrown message)) =>
              Some (finish st c req (FromRequest p) (Thrown message))
          | _ => None
          end
      | _ => None
      end
  | RedisSetReply c failure =>
      match calls st !! c with
      | Some (AwaitCacheSet req p response) =>
          match failure with
          | Some message => Some (finish st c req (CacheWriteFailed p) (Thrown message))
          | None =>
              let cacheKey := getCacheKey req in
              let st' :=
                mkState (clock st)
                        (<[cacheKey := (JSON_stringify response, clock st + 3600)]>
                           (redis st))
                        (activeRequests st) (requests st) (calls st)
                        (emitted st ++ [CacheSet cacheKey]) in
              Some (finish st' c req (FromRequest p) (Returned response))
          end
      | _ => None
      end
  | ClearCache => Some (push_call st AwaitKeys)
  | RedisKeysReply c failure =>
      match calls st !! c with
      | Some AwaitKeys =>
          match failure with
          | Some message => Some (set_call st c (Cleared (Thrown message)))
          | None =>
              match liveKeys st with
              | [] => Some (set_call (emit st (CacheCleared 0)) c (Cleared (Returned 0%nat)))
              | keys => Some (set_call st c (AwaitDel keys))
              end
          end
      | _ => None
      end
  | RedisDelReply c failure =>
      match calls st !! c with
      | Some (AwaitDel keys) =>
          match failure with
          | Some message => Some (set_call st c (Cleared (Thrown message)))
          | None =>
              Some (mkState (clock st) (foldr delete (redis st) keys) (activeRequests st)
                            (requests st)
                            (<[c := Cleared (Returned (length keys))]> (calls st))
                            (emitted st ++ [CacheCleared (length keys)]))
          end
      | _ => None
      end
  | StreamGenerate req => Some (push_call st (Streaming req))
  | StreamSettled c result =>
      match calls st !! c with
      | Some (Streaming _) => Some (set_call st c (Streamed result))
      | _ => None
      end
  end.

Fixpoint run (st : State) (trace : list Event) : option State :=
  match trace with
  | [] => Some st
  | e :: trace' =>
      match step st e with
      | Some st' => run st' trace'
      | None => None
      end
  end.

(** What the caller of call [c] has received, if anything yet. *)
Definition result (st : State) (c : nat) : option (Outcome Response) :=
  match calls st !! c with
  | Some (Settled _ r) => Some r
  | Some (Forwarded p) =>
      match requests st !! p with
      | Some (_, settled) => settled
      | None => None
      end
  | _ => None
  end.

(** The request a call started and has not yet cleaned up after. *)
Definition owned (cs : CallState) : option (string * nat) :=
  match cs with
  | AwaitRequest req _ p => Some (getCacheKey req, p)
  | AwaitCacheSet req p _ => Some (getCacheKey req, p)
  | _ => None
  end.

(** The event carries out the [redis.del] of a [clearCache] call. *)
Definition deletion (e : Event) : bool :=
  match e with
  | RedisDelReply _ None => true
  | _ => false
  end.

(** A backend request for [key] is in flight. *)
Definition inFlight (st : State) (key : string) (p : nat) : Prop :=
  requests st !! p = Some (key, None).


(** *** Invariants of the event loop *)

(** The fingerprint under which a call is going to write the cache. *)
Definition willCache (cs : CallState) : option string :=
  match cs with
  | AwaitRequest req useCache _ =>
      if cacheEnabled config && useCache then Some (getCacheKey req) else None
  | AwaitCacheSet req _ _ => Some (getCacheKey req)
  | _ => None
  end.

(** What holds of the service between any two turns of the event loop. *)
Record Consistent (st : State) : Prop := {
  pending_active : forall p key,
    requests st !! p = Some (key, None) -> activeRequests st !! key = Some p;
  owner_active : forall c cs key p,
    calls st !! c = Some cs -> owned cs = Some (key, p) ->
    activeRequests st !! key = Some p /\ exists o, requests st !! p = Some (key, o);
  owner_unique : forall c c' cs cs' key p p',
    calls st !! c = Some cs -> calls st !! c' = Some cs' ->
    owned cs = Some (key, p) -> owned cs' = Some (key, p') -> c = c';
  stored_settled : forall c req p response,
    calls st !! c = Some (AwaitCacheSet req p response) ->
    exists key, requests st !! p = Some (key, Some (Returned response));
  settled_source : forall c p o,
    calls st !! c = Some (Settled (FromRequest p) o) ->
    exists key, requests st !! p = Some (key, Some o);
  unstored_source : forall c p o,
    calls st !! c = Some (Settled (CacheWriteFailed p) o) ->
    exists key response message,
      requests st !! p = Some (key, Some (Returned response)) /\ o = Thrown message;
  live_entry_unowned : forall c cs key value expiry,
    calls st !! c = Some cs -> willCache cs = Some key ->
    redis st !! key = Some (value, expiry) -> value <> "" -> ~ clock st < expiry
}.

(** Call states that hold no request. *)
Definition idle (cs : CallState) : Prop :=
  match cs with
  | AwaitRequest _ _ _ | AwaitCacheSet _ _ _ | Settled (FromRequest _) _
  | Settled (CacheWriteFailed _) _ => False
  | _ => True
  end.

End Generation.

(** *** A concrete service, for the examples

    Requests are prompts and responses are texts; the fingerprint of a
    prompt is the prompt behind the key prefix, and a response is stored
    behind one quote character. *)

Definition prompt_key (prompt : string) : string := "ollama:cache:" +:+ prompt.

Definition store_text (text : string) : string := String (Ascii.ascii_of_nat 34) text.

Definition load_text (stored : string) : option string :=
  match stored with
  | String quote text => if Ascii.eqb quote (Ascii.ascii_of_nat 34) then Some text else None
  | EmptyString => None
  end.

Definition caching_config : OllamaConfig := mkConfig "mixtral" true None.

Definition example_service : Service :=
  Build_Service string string prompt_key store_text load_text caching_config.

Local Existing Instance example_service.

Definition answers (text : string) : Z -> PostReply string :=
  fun _ => PostReturns (Some text).


Definition refuses : Z -> PostReply string :=
  fun attempt => PostThrows ("refused " +:+ pretty attempt).

Definition example_run (trace : list (@Event example_service)) : @State example_service :=
  default init (run init trace).

(** Two calls for one prompt, the second made while the first request is in
    flight, either in flight still or both settled. *)
Definition shared_trace : list (@Event example_service) :=
  [ Generate "topic" false; Generate "topic" false;
    BackendReply 0%nat (answers "text"); RequestAwaited 0%nat ].

(** Two calls for one prompt on a caching service, the second handed the
    promise of the first one's request; the request returns "text" and the
    first call's store of it is rejected. *)
Definition unstorable_trace : list (@Event example_service) :=
  [ Generate "topic" true; RedisGetReply 0%nat None;
    Generate "topic" false;
    BackendReply 0%nat (answers "text"); RequestAwaited 0%nat;
    RedisSetReply 0%nat (Some "READONLY") ].

(** The cache holds "old" for the prompt (events 0-4). Call 1 is made with
    [useCache = false] and starts request 1 (event 5); call 2 is made with
    [useCache = true] while request 1 is in flight (event 6) and is served
    from the cache (event 7); request 1 then returns "new" (events 8-9). *)
Definition stale_trace : list (@Event example_service) :=
  [ Generate "topic" true; RedisGetReply 0%nat None; BackendReply 0%nat (answers "old");
    RequestAwaited 0%nat; RedisSetReply 0%nat None;
    Generate "topic" false;
    Generate "topic" true; RedisGetReply 2%nat None;
    BackendReply 1%nat (answers "new"); RequestAwaited 1%nat ].

(** The service after call 0 has received its response and is about to
    store it, and after another half hour in which the prompt is requested
    again twice: without the cache (call 1, in flight) and with it
    (call 2). *)
Definition storing_trace : list (@Event example_service) :=
  [ Generate "topic" true; RedisGetReply 0%nat None; BackendReply 0%nat (answers "text");
    RequestAwaited 0%nat ].

Definition later_trace : list (@Event example_service) :=
  [ Tick 1800; Generate "topic" false; Generate "topic" true ].

(** Call 0 is made with [useCache = false] and starts request 0; call 1 is
    made with [useCache = true], misses the cache and is handed the promise
    of request 0 (events 1-2); the request returns and call 0 cleans up
    without writing the cache (events 3-4). Call 2, with [useCache = true]
    and no time having passed, is answered by the cache lookup (events
    5-6). *)
Definition unstored_trace : list (@Event example_service) :=
  [ Generate "topic" false;
    Generate "topic" true; RedisGetReply 1%nat None;
    BackendReply 0%nat (answers "text"); RequestAwaited 0%nat;
    Generate "topic" true; RedisGetReply 2%nat None ].

(** Call 0 stores its response (events 0-4); [clearCache] is called, is
    given the one key and deletes it (events 5-7); call 2, with
    [useCache = true] and no time having passed, is answered by the cache
    lookup (events 8-9). *)
Definition cleared_trace : list (@Event example_service) :=
  [ Generate "topic" true; RedisGetReply 0%nat None; BackendReply 0%nat (answers "text");
    RequestAwaited 0%nat; RedisSetReply 0%nat None;
    ClearCache; RedisKeysReply 1%nat None; RedisDelReply 1%nat None;
    Generate "topic" true; RedisGetReply 2%nat None ].

End OllamaService.

(** ** JavaScript strings, as far as the sources take them apart

    A [string] stands for a JavaScript string whose UTF-16 code units are
    all below 256, one character per code unit. *)

Module JsString.

Definition code (c : Ascii.ascii) : N := Ascii.N_of_ascii c.

Definition underscore : Ascii.ascii := Ascii.ascii_of_nat 95.

Definition space : Ascii.ascii := Ascii.ascii_of_nat 32.

Definition between (lo hi : N) (c : Ascii.ascii) : bool :=
  ((lo <=? code c) && (code c <=? hi))%N.

(** The character classes of the regular expressions: [[a-z]], [[A-Z]],
    [[0-9]], [\w] and [\s]. *)
Definition is_lower (c : Ascii.ascii) : bool := between 97 122 c.

Definition is_upper (c : Ascii.ascii) : bool := between 65 90 c.

Definition is_digit (c : Ascii.ascii) : bool := between 48 57 c.

Definition is_underscore (c : Ascii.ascii) : bool := (code c =? 95)%N.

Definition is_word (c : Ascii.ascii) : bool :=
  is_lower c || is_upper c || is_digit c || is_underscore c.

Definition is_space (c : Ascii.ascii) : bool :=
  between 9 13 c || (code c =? 32)%N || (code c =? 160)%N.

(** [toLowerCase] of one code unit: the letters A-Z, and the Latin-1
    capitals from U+00C0 to U+00DE but for the multiplication sign. *)
Definition lower (c : Ascii.ascii) : Ascii.ascii :=
  if is_upper c || (between 192 222 c && negb (code c =? 215)%N)
  then Ascii.ascii_of_N (code c + 32)
  else c.

Fixpoint smap (f : Ascii.ascii -> Ascii.ascii) (s : string) : string :=
  match s with
  | EmptyString => EmptyString
  | String c rest => String (f c) (smap f rest)
  end.

Fixpoint sfilter (p : Ascii.ascii -> bool) (s : string) : string :=
  match s with
  | EmptyString => EmptyString
  | String c rest => if p c then String c (sfilter p rest) else sfilter p rest
  end.

Fixpoint sall (p : Ascii.ascii -> bool) (s : string) : bool :=
  match s with
  | EmptyString => true
  | String c rest => p c && sall p rest
  end.

(** [s.toLowerCase()] *)
Definition toLowerCase (s : string) : string := smap lower s.

(** [s.substring(0, n)] *)
Fixpoint stake (n : nat) (s : string) : string :=
  match n, s with
  | S n', String c rest => String c (stake n' rest)
  | _, _ => EmptyString
  end.

(** [s.startsWith(p)] *)
Fixpoint startsWith (s p : string) : bool :=
  match p, s with
  | EmptyString, _ => true
  | String a p', String b s' => Ascii.eqb a b && startsWith s' p'
  | String _ _, EmptyString => false
  end.

(** [s.includes(needle)] *)
Fixpoint includes (s needle : string) : bool :=
  startsWith s needle
  || match s with
     | EmptyString => false
     | String _ rest => includes rest needle
     end.

(** Whether the first character of [s] is in the class [p]. *)
Definition starts (p : Ascii.ascii -> bool) (s : string) : bool :=
  match s with
  | EmptyString => false
  | String c _ => p c
  end.

(** [s.replace(/C+/g, r)] for a class [C] and a character [r] of the
    class: every run of characters of the class becomes one [r]. *)
Fixpoint squeeze (p : Ascii.ascii -> bool) (r : Ascii.ascii) (s : string) : string :=
  match s with
  | EmptyString => EmptyString
  | String c rest =>
      if p c then (if starts p rest then squeeze p r rest else String r (squeeze p r rest))
      else String c (squeeze p r rest)
  end.

(** No two characters of the class follow each other in [s]. *)
Fixpoint spaced (p : Ascii.ascii -> bool) (s : string) : bool :=
  match s with
  | EmptyString => true
  | String c rest => negb (p c && starts p rest) && spaced p rest
  end.

(** [s.trim()] *)
Fixpoint trimStart (s : string) : string :=
  match s with
  | EmptyString => EmptyString
  | String c rest => if is_space c then trimStart rest else s
  end.

Fixpoint trimEnd (s : string) : string :=
  match s with
  | EmptyString => EmptyString
  | String c rest =>
      match trimEnd rest with
      | EmptyString => if is_space c then EmptyString else String c EmptyString
      | kept => String c kept
      end
  end.

Definition trim (s : string) : string := trimEnd (trimStart s).

(** [s.split(/\s+/)]: the pieces between the runs of white space, the
    empty piece before a leading run and after a trailing one included.
    [word] is the piece being read and [skipping] tells that the last
    character was white space. *)
Fixpoint splitSpaces (s : string) (word : string) (skipping : bool) : list string :=
  match s with
  | EmptyString => [word]
  | String c rest =>
      if is_space c
      then (if skipping then splitSpaces rest EmptyString true
            else word :: splitSpaces rest EmptyString true)
      else splitSpaces rest (word +:+ String c EmptyString) false
  end.

Definition split (s : string) : list string := splitSpaces s EmptyString false.

(** [words.join(separator)] *)
Fixpoint join (separator : string) (words : list string) : string :=
  match words with
  | [] => EmptyString
  | [word] => word
  | word :: rest => word +:+ separator +:+ join separator rest
  end.

(** [[...new Set(items)]]: the items in the order of their first
    occurrence; [seen] holds the items met so far. *)
Fixpoint firsts (seen items : list string) : list string :=
  match items with
  | [] => []
  | item :: rest =>
      if bool_decide (item ∈ seen) then firsts seen rest
      else item :: firsts (item :: seen) rest
  end.

End JsString.

(** ** managers/workflow.ts *)

Module WorkflowManager.
Import Js JsString.

(** [enum ResearchStage], in declaration order *)
Inductive ResearchStage : Type :=
| INITIAL | CLARIFICATION | RESEARCH | DEVELOPMENT | TESTING | DOCUMENTATION | COMPLETED.

Global Instance ResearchStage_eq_dec : EqDecision ResearchStage.
Proof. solve_decision. Defined.

Definition stage_value (s : ResearchStage) : string :=
  match s with
  | INITIAL => "initial"
  | CLARIFICATION => "clarification"
  | RESEARCH => "research"
  | DEVELOPMENT => "development"
  | TESTING => "testing"
  | DOCUMENTATION => "documentation"
  | COMPLETED => "completed"
  end.

(** Position of a stage in the enumeration. *)
Definition stage_index (s : ResearchStage) : nat :=
  match s with
  | INITIAL => 0
  | CLARIFICATION => 1
  | RESEARCH => 2
  | DEVELOPMENT => 3
  | TESTING => 4
  | DOCUMENTATION => 5
  | COMPLETED => 6
  end.

(** [StageProgress["status"]] *)
Inductive Status : Type := pending | in_progress | completed | failed.

Global Instance Status_eq_dec : EqDecision Status.
Proof. solve_decision. Defined.

Record StageProgress : Type := mkStageProgress {
  stage : ResearchStage;
  status : Status;
  startTime : option Z;
  endTime : option Z;
  progress : Z;
  details : gmap string Value
}.

Record WorkflowError : Type := mkWorkflowError {
  errorStage : ResearchStage;
  error : string;
  timestamp : Z;
  retryCount : Z
}.

(** The fields of the free-form [metadata] that the manager writes.
    [clarifications] holds what the caller's array held when the workflow
    was created: the manager never reads or writes it, and the array
    remains the caller's, whose later pushes the model does not follow. *)
Record Metadata : Type := mkMetadata {
  topic : string;
  clarifications : list string;
  projectId : Value
}.

Record WorkflowState : Type := mkWorkflowState {
  sessionId : string;
  currentStage : ResearchStage;
  stages : list StageProgress;
  workflowStartTime : Z;
  lastUpdateTime : Z;
  errors : list WorkflowError;
  metadata : Metadata
}.

(** One [redis.set(key, value, "EX", seconds)] issued by the manager. *)
Inductive Stored : Type :=
| StoredWorkflow (workflow : WorkflowState)
| StoredJson (value : Value).

Record RedisSet : Type := mkRedisSet {
  setKey : string;
  setValue : Stored;
  setExpiry : Z
}.

(** The payload of a ["workflow:progress"] event. *)
Record ProgressEvent : Type := mkProgressEvent {
  eventSession : string;
  eventStage : ResearchStage;
  eventStatus : Status;
  eventProgress : Z
}.

(** An assignment [workflow.currentStage = after] made to the workflow of
    a session, with the stage it replaced. *)
Record StageAssignment : Type := mkStageAssignment {
  assignedSession : string;
  before : ResearchStage;
  after : ResearchStage
}.

(** The manager between two turns of the event loop: its [workflows] map,
    the writes it has sent to Redis, the events it has emitted, the
    sessions for which it has registered a ["crawl:progress"] listener on
    the orchestrator, and the assignments it has made to [currentStage].
    The clock counts milliseconds. The operations below run one at a
    time: none is resumed while another is suspended at an [await]. *)
Record Manager : Type := mkManager {
  clock : Z;
  workflows : gmap string WorkflowState;
  redisSets : list RedisSet;
  emitted : list ProgressEvent;
  crawlListeners : list string;
  stageLog : list StageAssignment
}.

Definition empty : Manager := mkManager 0 ∅ [] [] [] [].

(** What an awaited collaborator gives back, and how long it took. A
    [Thrown] outcome stands for every exception raised between the [await]
    and the next statement of the model. *)
Record Reply (A : Type) : Type := mkReply {
  elapsed : Z;
  outcome : Outcome A
}.

Global Arguments mkReply {A} elapsed outcome.

Global Arguments elapsed {A} r.

Global Arguments outcome {A} r.

Definition set_workflows (m : Manager) (w : gmap string WorkflowState) : Manager :=
  mkManager (clock m) w (redisSets m) (emitted m) (crawlListeners m) (stageLog m).

Definition advance (m : Manager) (ms : Z) : Manager :=
  mkManager (clock m + ms) (workflows m) (redisSets m) (emitted m) (crawlListeners m)
            (stageLog m).

Definition await {A : Type} (m : Manager) (r : Reply A) : Manager * Outcome A :=
  (advance m (elapsed r), outcome r).

(** Assignment to a field of the workflow object held in the map. *)
Definition modify (m : Manager) (sessionId : string)
    (f : WorkflowState -> WorkflowState) : Manager :=
  set_workflows m (alter f sessionId (workflows m)).

Definition set_currentStage (s : ResearchStage) (w : WorkflowState) : WorkflowState :=
  mkWorkflowState (sessionId w) s (stages w) (workflowStartTime w) (lastUpdateTime w)
                  (errors w) (metadata w).

Definition set_stages (l : list StageProgress) (now : Z) (w : WorkflowState)
    : WorkflowState :=
  mkWorkflowState (sessionId w) (currentStage w) l (workflowStartTime w) now
                  (errors w) (metadata w).

Definition set_errors (l : list WorkflowError) (w : WorkflowState) : WorkflowState :=
  mkWorkflowState (sessionId w) (currentStage w) (stages w) (workflowStartTime w)
                  (lastUpdateTime w) l (metadata w).

Definition set_projectId (v : Value) (w : WorkflowState) : WorkflowState :=
  mkWorkflowState (sessionId w) (currentStage w) (stages w) (workflowStartTime w)
                  (lastUpdateTime w) (errors w)
                  (mkMetadata (topic (metadata w)) (clarifications (metadata w)) v).

(** [workflow.currentStage = s] on the workflow of the session. *)
Definition enter (m : Manager) (sessionId : string) (s : ResearchStage) : Manager :=
  match workflows m !! sessionId with
  | None => m
  | Some w =>
      mkManager (clock m) (alter (set_currentStage s) sessionId (workflows m))
                (redisSets m) (emitted m) (crawlListeners m)
                (stageLog m ++ [mkStageAssignment sessionId (currentStage w) s])
  end.

(** [l.find(p)] followed by assignments to the element found. *)
Fixpoint update_first {A : Type} (p : A -> bool) (f : A -> A) (l : list A) : list A :=
  match l with
  | [] => []
  | x :: l' => if p x then f x :: l' else x :: update_first p f l'
  end.

Definition is_stage (s : ResearchStage) (sp : StageProgress) : bool :=
  bool_decide (stage sp = s).

Definition is_error_of (s : ResearchStage) (e : WorkflowError) : bool :=
  bool_decide (errorStage e = s).

(** [initializeStages] *)
Definition initializeStages : list StageProgress :=
  (fun s => mkStageProgress s pending None None 0 ∅)
    <$> [INITIAL; CLARIFICATION; RESEARCH; DEVELOPMENT; TESTING; DOCUMENTATION; COMPLETED].

(** [saveWorkflowState] up to its [await]: the workflow is serialized and
    the write is sent when the call is made. [updateStageProgress] and
    [recordError] drop the promise, so that Redis rejecting the write goes
    unnoticed there; the callers that await it pass Redis's answer to
    [await]. *)
Definition saveWorkflowState (m : Manager) (w : WorkflowState) : Manager :=
  mkManager (clock m) (workflows m)
            (redisSets m ++ [mkRedisSet ("workflow:" +:+ sessionId w) (StoredWorkflow w)
                                        (86400 * 7)])
            (emitted m) (crawlListeners m) (stageLog m).

Definition emit (m : Manager) (e : ProgressEvent) : Manager :=
  mkManager (clock m) (workflows m) (redisSets m) (emitted m ++ [e]) (crawlListeners m)
            (stageLog m).

(** The assignments of [updateStageProgress] to the record it found. *)
Definition touch (now : Z) (st : Status) (p : Z) (d : option (gmap string Value))
    (sp : StageProgress) : StageProgress :=
  mkStageProgress (stage sp) st
    (if bool_decide (st = in_progress)
     then match startTime sp with Some t => Some t | None => Some now end
     else startTime sp)
    (if bool_decide (st = completed \/ st = failed) then Some now else endTime sp)
    p
    (match d with Some d' => d' ∪ details sp | None => details sp end).

(** [updateStageProgress] *)
Definition updateStageProgress (m : Manager) (sessionId : string) (s : ResearchStage)
    (st : Status) (p : Z) (d : option (gmap string Value)) : Manager :=
  match workflows m !! sessionId with
  | None => m
  | Some w =>
      let w' := set_stages (update_first (is_stage s) (touch (clock m) st p d) (stages w))
                           (clock m) w in
      emit (saveWorkflowState (set_workflows m (<[sessionId := w']> (workflows m))) w')
           (mkProgressEvent sessionId s st p)
  end.

(** [getStageProgress]: [stageProgress?.progress || 0] *)
Definition getStageProgress (m : Manager) (sessionId : string) (s : ResearchStage) : Z :=
  match workflows m !! sessionId with
  | None => 0
  | Some w =>
      match find (is_stage s) (stages w) with
      | Some sp => progress sp
      | None => 0
      end
  end.

(** The assignments of [recordError] to the errors list. *)
Definition noteError (now : Z) (s : ResearchStage) (message : string)
    (l : list WorkflowError) : list WorkflowError :=
  match find (is_error_of s) l with
  | Some _ =>
      update_first (is_error_of s)
        (fun e => mkWorkflowError (errorStage e) message now (retryCount e + 1)) l
  | None => l ++ [mkWorkflowError s message now 0]
  end.

(** [recordError] *)
Definition recordError (m : Manager) (sessionId : string) (s : ResearchStage)
    (message : string) : Manager :=
  match workflows m !! sessionId with
  | None => m
  | Some w =>
      let m1 := modify m sessionId (set_errors (noteError (clock m) s message (errors w))) in
      let m2 := updateStageProgress m1 sessionId s failed 0 None in
      match workflows m2 !! sessionId with
      | Some w2 => saveWorkflowState m2 w2
      | None => m2
      end
  end.

(** Reading a property [v.name]: a [TypeError] when [v] is [null] or
    [undefined]. *)
Definition read (v : Value) (name : string) : Outcome Value :=
  match v with
  | Undefined =>
      Thrown ("Cannot read properties of undefined (reading '" +:+ name +:+ "')")
  | Null => Thrown ("Cannot read properties of null (reading '" +:+ name +:+ "')")
  | _ => Returned (get v name)
  end.

(** [v === 0] *)
Definition is_zero (v : Value) : bool :=
  match v with
  | Number z => z =? 0
  | _ => false
  end.

(** [generateClarificationQuestions] and [generateFollowUpQuestions] build
    a prompt and return what the JSON-mode generation answers. *)
Definition generateClarificationQuestions (m : Manager) (topic : string)
    (questions : Reply Value) : Manager * Outcome Value :=
  await m questions.

Definition generateFollowUpQuestions (m : Manager) (topic : string)
    (previousAnswers : list string) (questions : Reply Value) : Manager * Outcome Value :=
  await m questions.

(** [createResearchPlan]; [saved] is Redis's answer to the write of the
    new workflow and [plan] the orchestrator's answer. *)
Definition createResearchPlan (m : Manager) (topic : string)
    (clarifications : list string) (saved : Reply unit) (plan : Reply Value)
    : Manager * Outcome Value :=
  let sessionId := "session_" +:+ number_to_string (clock m) in
  let w := mkWorkflowState sessionId RESEARCH initializeStages (clock m) (clock m) []
                           (mkMetadata topic clarifications Undefined) in
  let '(m1, stored) :=
    await (saveWorkflowState (set_workflows m (<[sessionId := w]> (workflows m))) w) saved in
  match stored with
  | Thrown message => (m1, Thrown message)
  | Returned _ =>
      let m2 := updateStageProgress m1 sessionId RESEARCH in_progress 10 None in
      let '(m3, answer) := await m2 plan in
      match answer with
      | Thrown message => (m3, Thrown message)
      | Returned p =>
          (updateStageProgress m3 sessionId RESEARCH in_progress 30 None, Returned p)
      end
  end.

(** The listener that [executeResearch] registers for [sessionId]. *)
Definition onCrawlProgress (m : Manager) (sessionId : string) : Manager :=
  updateStageProgress m sessionId RESEARCH in_progress
    (Z.min (getStageProgress m sessionId RESEARCH + 10) 90) None.

(** One ["crawl:progress"] event reaches every listener registered so far. *)
Definition crawlProgress (m : Manager) : Manager :=
  foldl onCrawlProgress m (crawlListeners m).

(** [executeResearch] up to the call of the orchestrator. *)
Definition executeResearch_begin (m : Manager) (sessionId : string) : option Manager :=
  match workflows m !! sessionId with
  | None => None
  | Some _ =>
      Some (mkManager (clock m) (workflows m) (redisSets m) (emitted m)
                      (crawlListeners m ++ [sessionId]) (stageLog m))
  end.

(** [executeResearch] from the orchestrator's answer on. *)
Definition executeResearch_end (m : Manager) (sessionId : string)
    (results : Reply Value) : Manager * Outcome Value :=
  let '(m1, answer) := await m results in
  match answer with
  | Returned r => (updateStageProgress m1 sessionId RESEARCH completed 100 None, Returned r)
  | Thrown message => (recordError m1 sessionId RESEARCH message, Thrown message)
  end.

(** [executeResearch]; the orchestrator emits [crawls] progress events and
    then answers with [results]. *)
Definition executeResearch (m : Manager) (sessionId : string) (crawls : nat)
    (results : Reply Value) : Manager * Outcome Value :=
  match executeResearch_begin m sessionId with
  | None => (m, Thrown "Workflow not found")
  | Some m1 => executeResearch_end (Nat.iter crawls crawlProgress m1) sessionId results
  end.

(** [refineResearch] *)
Definition refineResearch (m : Manager) (sessionId : string)
    (refined : Reply unit) : Manager * Outcome unit :=
  match workflows m !! sessionId with
  | None => (m, Thrown "Workflow not found")
  | Some _ =>
      let m1 := updateStageProgress m sessionId RESEARCH in_progress 50 None in
      let '(m2, answer) := await m1 refined in
      match answer with
      | Returned _ =>
          (updateStageProgress m2 sessionId RESEARCH completed 100 None, Returned tt)
      | Thrown message => (recordError m2 sessionId RESEARCH message, Thrown message)
      end
  end.

(** [runTestsWithRetry]: [tests attempt] is the answer of the test service
    to attempt number [attempt]; [lastError] is [None] while undefined. *)
Fixpoint testLoop (m : Manager) (tests : Z -> Reply Value) (maxRetries : Z)
    (remaining : nat) (attempt : Z) (lastError : option string)
    : Manager * Outcome Value :=
  match remaining with
  | O => (m, Thrown (default "Tests failed after retries" lastError))
  | S remaining' =>
      let '(m1, answer) := await m (tests attempt) in
      let pause := if attempt <? maxRetries - 1 then advance m1 5000 else m1 in
      match answer with
      | Returned testResults =>
          match read testResults "failed" with
          | Returned f =>
              if is_zero f then (m1, Returned testResults)
              else testLoop pause tests maxRetries remaining' (attempt + 1) lastError
          | Thrown message =>
              testLoop pause tests maxRetries remaining' (attempt + 1) (Some message)
          end
      | Thrown message =>
          testLoop pause tests maxRetries remaining' (attempt + 1) (Some message)
      end
  end.

Definition runTestsWithRetry (m : Manager) (tests : Z -> Reply Value)
    : Manager * Outcome Value :=
  testLoop m tests 3 3 0 None.

(** [sanitizeProjectName] *)
Definition sanitizeProjectName (topic : string) : string :=
  stake 50
    (squeeze is_underscore underscore
       (smap (fun c => if is_lower c || is_digit c then c else underscore)
             (toLowerCase topic))).

(** [JSON.stringify(research.technicalDetails).toLowerCase()]; [json] is
    what [JSON.stringify] returns, [None] when it returns [undefined], as
    it does when [technicalDetails] is missing. *)
Definition lowered (json : option string) : Outcome string :=
  match json with
  | Some text => Returned (toLowerCase text)
  | None => Thrown "Cannot read properties of undefined (reading 'toLowerCase')"
  end.

(** [detectLanguage] *)
Definition detectLanguage (json : option string) : Outcome string :=
  match lowered json with
  | Thrown message => Thrown message
  | Returned content =>
      Returned
        (if includes content "python" || includes content "numpy"
            || includes content "pandas" then "python"
         else if includes content "javascript" || includes content "node"
                 || includes content "react" then "javascript"
         else if includes content "typescript" then "typescript"
         else if includes content "java" && negb (includes content "javascript")
           then "java"
         else if includes content "c++" || includes content "cpp" then "cpp"
         else "python")
  end.

(** [detectFramework]; [None] is [undefined]. *)
Definition detectFramework (json : option string) : Outcome (option string) :=
  match lowered json with
  | Thrown message => Thrown message
  | Returned content =>
      Returned
        (if includes content "tensorflow" || includes content "keras" then Some "tensorflow"
         else if includes content "pytorch" then Some "pytorch"
         else if includes content "react" then Some "react"
         else if includes content "vue" then Some "vue"
         else if includes content "django" then Some "django"
         else if includes content "flask" then Some "flask"
         else if includes content "express" then Some "express"
         else None)
  end.

(** [sanitizeProjectName(research.topic)]: for a topic that is not a
    string, [topic.toLowerCase()] throws a [TypeError]. *)
Definition sanitizedTopic (topic : Value) : Outcome string :=
  match topic with
  | Str text => Returned (sanitizeProjectName text)
  | Undefined => Thrown "Cannot read properties of undefined (reading 'toLowerCase')"
  | Null => Thrown "Cannot read properties of null (reading 'toLowerCase')"
  | _ => Thrown "topic.toLowerCase is not a function"
  end.

(** The body of the project creation request. *)
Record ProjectPayload : Type := mkProjectPayload {
  payloadName : string;
  payloadLanguage : string;
  payloadFramework : option string
}.

(** [JSON.stringify(v)] for a value that was parsed from JSON: a text,
    given by [stringify], unless [v] is [undefined]. *)
Definition stringified (stringify : Value -> string) (v : Value) : option string :=
  match v with
  | Undefined => None
  | _ => Some (stringify v)
  end.

(** The payload is built before the request is sent:
    [sanitizeProjectName(research.topic)], [detectLanguage(research)] and
    [detectFramework(research)], in this order. *)
Definition projectPayload (research : Value) (stringify : Value -> string)
    : Outcome ProjectPayload :=
  match read research "topic" with
  | Thrown message => Thrown message
  | Returned topic =>
      match sanitizedTopic topic with
      | Thrown message => Thrown message
      | Returned name =>
          let json := stringified stringify (get research "technicalDetails") in
          match detectLanguage json with
          | Thrown message => Thrown message
          | Returned language =>
              match detectFramework json with
              | Thrown message => Thrown message
              | Returned framework => Returned (mkProjectPayload name language framework)
              end
          end
      end
  end.

(** The collaborators' answers during [startDevelopment]: the stored
    research results, parsed ([None]: no such key, or an empty value;
    [Thrown] also when the text does not parse); the created project; the
    code generation; the test runs; and Redis's answer to the final write
    of the workflow. [stringify] is [JSON.stringify] on values that have a text. *)
Record DevelopmentEnv : Type := mkDevelopmentEnv {
  researchData : Reply (option Value);
  stringify : Value -> string;
  projectCreated : Reply Value;
  codeGenerated : Reply unit;
  testRuns : Z -> Reply Value;
  developmentSaved : Reply unit
}.

(** The [try] block of [startDevelopment]. *)
Definition develop (m : Manager) (sessionId : string) (env : DevelopmentEnv)
    : Manager * Outcome unit :=
  let '(m1, data) := await m (researchData env) in
  match data with
  | Thrown message => (m1, Thrown message)
  | Returned None => (m1, Thrown "Research results not found")
  | Returned (Some research) =>
      match projectPayload research (stringify env) with
      | Thrown message => (m1, Thrown message)
      | Returned _ =>
          let '(m2, created) := await m1 (projectCreated env) in
          match created with
          | Thrown message => (m2, Thrown message)
          | Returned project =>
              match read project "id" with
              | Thrown message => (m2, Thrown message)
              | Returned id =>
                  let m3 := modify m2 sessionId (set_projectId id) in
                  let m4 := updateStageProgress m3 sessionId DEVELOPMENT in_progress 20
                              None in
                  let '(m5, generated) := await m4 (codeGenerated env) in
                  match generated with
                  | Thrown message => (m5, Thrown message)
                  | Returned _ =>
                      let m6 := updateStageProgress m5 sessionId DEVELOPMENT in_progress 60
                                  None in
                      let '(m7, tested) := runTestsWithRetry m6 (testRuns env) in
                      match tested with
                      | Thrown message => (m7, Thrown message)
                      | Returned _ =>
                          let m8 := updateStageProgress m7 sessionId DEVELOPMENT completed
                                      100 None in
                          let m9 := enter m8 sessionId TESTING in
                          match workflows m9 !! sessionId with
                          | Some w => await (saveWorkflowState m9 w) (developmentSaved env)
                          | None => (m9, Returned tt)
                          end
                      end
                  end
              end
          end
      end
  end.

(** [startDevelopment] *)
Definition startDevelopment (m : Manager) (sessionId : string) (env : DevelopmentEnv)
    : Manager * Outcome unit :=
  match workflows m !! sessionId with
  | None => (m, Thrown "Workflow not found")
  | Some _ =>
      let m1 := enter m sessionId DEVELOPMENT in
      let m2 := updateStageProgress m1 sessionId DEVELOPMENT in_progress 10 None in
      let '(m3, done) := develop m2 sessionId env in
      match done with
      | Returned _ => (m3, Returned tt)
      | Thrown message => (recordError m3 sessionId DEVELOPMENT message, Thrown message)
      end
  end.

(** The [try] block of [runTests]; [resultsSaved] is Redis's answer to the
    write of the test results. *)
Definition test (m : Manager) (sessionId : string) (tested : Reply Value)
    (resultsSaved : Reply unit) : Manager * Outcome Value :=
  let '(m1, answer) := await m tested in
  match answer with
  | Thrown message => (m1, Thrown message)
  | Returned testResults =>
      let m2 := mkManager (clock m1) (workflows m1)
                  (redisSets m1 ++ [mkRedisSet ("test:results:" +:+ sessionId)
                                               (StoredJson testResults) 86400])
                  (emitted m1) (crawlListeners m1) (stageLog m1) in
      let '(m3, stored) := await m2 resultsSaved in
      match stored with
      | Thrown message => (m3, Thrown message)
      | Returned _ =>
          match read testResults "failed" with
          | Thrown message => (m3, Thrown message)
          | Returned f =>
              (updateStageProgress m3 sessionId TESTING completed
                 (if is_zero f then 100 else 80) None,
               Returned testResults)
          end
      end
  end.

(** [runTests] *)
Definition runTests (m : Manager) (sessionId : string) (tested : Reply Value)
    (resultsSaved : Reply unit) : Manager * Outcome Value :=
  match workflows m !! sessionId with
  | None => (m, Thrown "Workflow not found")
  | Some w =>
      if negb (truthy (projectId (metadata w))) then (m, Thrown "Project ID not found")
      else
        let m1 := updateStageProgress m sessionId TESTING in_progress 10 None in
        let '(m2, done) := test m1 sessionId tested resultsSaved in
        match done with
        | Returned testResults => (m2, Returned testResults)
        | Thrown message => (recordError m2 sessionId TESTING message, Thrown message)
        end
  end.

(** [options.format] as the branches of [generateDocuments] see it: a
    falsy value, one of the three formats, or anything else. *)
Inductive Format : Type := NoFormat | Pdf | Latex | Pptx | OtherFormat.

(** The answers of the document generators, and Redis's answer to the
    final write of the workflow. *)
Record DocumentEnv : Type := mkDocumentEnv {
  report : Reply Value;
  paper : Reply Value;
  presentation : Reply Value;
  documentsSaved : Reply unit
}.

(** [{ type, format, ...data }]: the properties spread from [data] come
    last, so that its own ["type"] and ["format"] replace the tags. *)
Definition document (type format : string) (data : Value) : Value :=
  Object (spread data ∪ list_to_map [("type", Str type); ("format", Str format)]).

(** What [generateDocuments] returns. *)
Record DocumentsResult : Type := mkDocumentsResult {
  documents : list Value;
  resultSessionId : string;
  completedAt : Z
}.

(** One of the three branches: when [wanted], call the generator, add the
    document and report progress. *)
Definition documentStep (wanted : bool) (generated : Reply Value) (type format : string)
    (p : Z) (sessionId : string) (state : Manager * Outcome (list Value))
    : Manager * Outcome (list Value) :=
  match state with
  | (m, Thrown message) => (m, Thrown message)
  | (m, Returned documents) =>
      if wanted then
        let '(m1, answer) := await m generated in
        match answer with
        | Thrown message => (m1, Thrown message)
        | Returned data =>
            (updateStageProgress m1 sessionId DOCUMENTATION in_progress p None,
             Returned (documents ++ [document type format data]))
        end
      else (m, Returned documents)
  end.

Definition wants (chosen : Format) (f : Format) : bool :=
  match chosen, f with
  | NoFormat, _ => true
  | Pdf, Pdf | Latex, Latex | Pptx, Pptx => true
  | _, _ => false
  end.

(** [generateDocuments] *)
Definition generateDocuments (m : Manager) (sessionId : string) (format : Format)
    (env : DocumentEnv) : Manager * Outcome DocumentsResult :=
  match workflows m !! sessionId with
  | None => (m, Thrown "Workflow not found")
  | Some _ =>
      let m1 := enter m sessionId DOCUMENTATION in
      let m2 := updateStageProgress m1 sessionId DOCUMENTATION in_progress 10 None in
      let s1 := documentStep (wants format Pdf) (report env) "report" "pdf" 30 sessionId
                  (m2, Returned []) in
      let s2 := documentStep (wants format Latex) (paper env) "paper" "latex" 60 sessionId
                  s1 in
      let s3 := documentStep (wants format Pptx) (presentation env) "presentation" "pptx"
                  90 sessionId s2 in
      match s3 with
      | (m3, Thrown message) =>
          (recordError m3 sessionId DOCUMENTATION message, Thrown message)
      | (m3, Returned generated) =>
          let m4 := updateStageProgress m3 sessionId DOCUMENTATION completed 100 None in
          let m5 := enter m4 sessionId COMPLETED in
          let '(m6, stored) :=
            match workflows m5 !! sessionId with
            | Some w => await (saveWorkflowState m5 w) (documentsSaved env)
            | None => (m5, Returned tt)
            end in
          match stored with
          | Thrown message =>
              (recordError m6 sessionId DOCUMENTATION message, Thrown message)
          | Returned _ => (m6, Returned (mkDocumentsResult generated sessionId (clock m6)))
          end
      end
  end.

(** [getWorkflowStatus]; [saved] is what Redis holds under the workflow's
    key, already parsed. *)
Definition getWorkflowStatus (m : Manager) (sessionId : string)
    (saved : Reply (option WorkflowState)) : Manager * Outcome WorkflowState :=
  match workflows m !! sessionId with
  | Some w => (m, Returned w)
  | None =>
      let '(m1, answer) := await m saved in
      match answer with
      | Thrown message => (m1, Thrown message)
      | Returned None => (m1, Thrown "Workflow not found")
      | Returned (Some w) =>
          (set_workflows m1 (<[sessionId := w]> (workflows m1)), Returned w)
      end
  end.

(** The operations of the manager that change its state, each with the
    answers of the collaborators it awaits. *)
Inductive Operation : Type :=
| CreateResearchPlan (topic : string) (clarifications : list string) (saved : Reply unit)
                     (plan : Reply Value)
| ExecuteResearch (sessionId : string) (crawls : nat) (results : Reply Value)
| RefineResearch (sessionId : string) (refined : Reply unit)
| StartDevelopment (sessionId : string) (env : DevelopmentEnv)
| RunTests (sessionId : string) (tested : Reply Value) (resultsSaved : Reply unit)
| GenerateDocuments (sessionId : string) (format : Format) (env : DocumentEnv)
| GetWorkflowStatus (sessionId : string) (saved : Reply (option WorkflowState)).

Definition perform (m : Manager) (op : Operation) : Manager :=
  match op with
  | CreateResearchPlan topic clarifications saved plan =>
      (createResearchPlan m topic clarifications saved plan).1
  | ExecuteResearch sessionId crawls results =>
      (executeResearch m sessionId crawls results).1
  | RefineResearch sessionId refined => (refineResearch m sessionId refined).1
  | StartDevelopment sessionId env => (startDevelopment m sessionId env).1
  | RunTests sessionId tested resultsSaved =>
      (runTests m sessionId tested resultsSaved).1
  | GenerateDocuments sessionId format env =>
      (generateDocuments m sessionId format env).1
  | GetWorkflowStatus sessionId saved => (getWorkflowStatus m sessionId saved).1
  end.

(** Operations run one after the other, each to completion: the calls do
    not overlap. *)
Definition performAll (m : Manager) (ops : list Operation) : Manager :=
  foldl perform m ops.

Inductive Mutation : Type :=
| Touch (s : ResearchStage) (now : Z) (st : Status) (p : Z) (d : option (gmap string Value))
| Note (s : ResearchStage) (now : Z) (message : string)
| Enter (s : ResearchStage)
| Project (id : Value).

Definition mutate (w : WorkflowState) (mu : Mutation) : WorkflowState :=
  match mu with
  | Touch s now st p d =>
      set_stages (update_first (is_stage s) (touch now st p d) (stages w)) now w
  | Note s now message => set_errors (noteError now s message (errors w)) w
  | Enter s => set_currentStage s w
  | Project id => set_projectId id w
  end.

(** The stages whose record an operation writes, and the values it assigns
    to [currentStage]. *)
Definition touched (op : Operation) : list ResearchStage :=
  match op with
  | CreateResearchPlan _ _ _ _ | ExecuteResearch _ _ _ | RefineResearch _ _ => [RESEARCH]
  | StartDevelopment _ _ => [DEVELOPMENT]
  | RunTests _ _ _ => [TESTING]
  | GenerateDocuments _ _ _ => [DOCUMENTATION]
  | GetWorkflowStatus _ _ => []
  end.

Definition entered (op : Operation) : list ResearchStage :=
  match op with
  | StartDevelopment _ _ => [DEVELOPMENT; TESTING]
  | GenerateDocuments _ _ _ => [DOCUMENTATION; COMPLETED]
  | _ => []
  end.

Definition permitted (op : Operation) (mu : Mutation) : Prop :=
  match mu with
  | Touch s _ _ _ _ | Note s _ _ => s ∈ touched op
  | Enter s => s ∈ entered op
  | Project _ => True
  end.

(** The identifier [createResearchPlan] gives the workflow it creates. *)
Definition newSessionId (m : Manager) : string :=
  "session_" +:+ number_to_string (clock m).

(** The sessions whose workflow an operation may write: the one it is
    called for, and for [executeResearch] also every session that has
    registered a crawl listener, to which crawl progress is relayed. *)
Definition addressed (m : Manager) (op : Operation) (sessionId : string) : Prop :=
  match op with
  | CreateResearchPlan _ _ _ _ => sessionId = newSessionId m
  | ExecuteResearch sessionId' _ _ => sessionId = sessionId' \/ sessionId ∈ crawlListeners m
  | RefineResearch sessionId' _ | StartDevelopment sessionId' _ | RunTests sessionId' _ _
  | GenerateDocuments sessionId' _ _ => sessionId = sessionId'
  | GetWorkflowStatus _ _ => False
  end.

(** [createResearchPlan] stores its workflow under a new key. *)
Definition fresh (m : Manager) (op : Operation) : Prop :=
  match op with
  | CreateResearchPlan _ _ _ _ => workflows m !! newSessionId m = None
  | _ => True
  end.

(** No operation of the sequence writes the record of stage [s] of the
    session: each is addressed to another session or writes other stages. *)
Fixpoint spares (m : Manager) (ops : list Operation) (sessionId : string)
    (s : ResearchStage) : Prop :=
  match ops with
  | [] => True
  | op :: ops' =>
      fresh m op /\ (addressed m op sessionId -> s ∉ touched op)
      /\ spares (perform m op) ops' sessionId s
  end.

(** The workflows of [m'] are those of [m], each changed by mutations
    in [P]. *)
Definition Log (P : string -> Mutation -> Prop) (m m' : Manager) : Prop :=
  forall sessionId,
    exists mus, workflows m' !! sessionId
                = (fun w => foldl mutate w mus) <$> workflows m !! sessionId
                /\ Forall (P sessionId) mus.

(** The workflows map once the operation has stored the workflow it
    creates or loads, if any. *)
Definition prepared (m : Manager) (op : Operation) : gmap string WorkflowState :=
  match op with
  | CreateResearchPlan topic clarifications _ _ =>
      <[newSessionId m :=
          mkWorkflowState (newSessionId m) RESEARCH initializeStages (clock m) (clock m) []
                          (mkMetadata topic clarifications Undefined)]> (workflows m)
  | GetWorkflowStatus sessionId saved =>
      match workflows m !! sessionId, outcome saved with
      | None, Returned (Some w) => <[sessionId := w]> (workflows m)
      | _, _ => workflows m
      end
  | _ => workflows m
  end.

(** An operation is in order when it is called no later than the stage it
    moves the workflow to (and [createResearchPlan] creates a new key). *)
Definition in_order (m : Manager) (op : Operation) : Prop :=
  fresh m op
  /\ match op with
     | StartDevelopment sessionId _ =>
         forall w, workflows m !! sessionId = Some w ->
                   (stage_index (currentStage w) <= stage_index DEVELOPMENT)%nat
     | GenerateDocuments sessionId _ _ =>
         forall w, workflows m !! sessionId = Some w ->
                   (stage_index (currentStage w) <= stage_index DOCUMENTATION)%nat
     | _ => True
     end.

Fixpoint all_in_order (m : Manager) (ops : list Operation) : Prop :=
  match ops with
  | [] => True
  | op :: ops' => in_order m op /\ all_in_order (perform m op) ops'
  end.

(** *** Assignments to currentStage *)

Definition stageOf (m : Manager) (sessionId : string) : option ResearchStage :=
  currentStage <$> workflows m !! sessionId.

(** The assignment does not move the workflow to an earlier stage. *)
Definition forward (a : StageAssignment) : Prop :=
  (stage_index (before a) <= stage_index (after a))%nat.

(** Between [m] and [m'] nothing is assigned to the [currentStage] of a
    workflow. *)
Definition Quiet (m m' : Manager) : Prop :=
  stageLog m' = stageLog m /\ forall sessionId, stageOf m' sessionId = stageOf m sessionId.

(** *** Error entries *)

Definition distinct (w : WorkflowState) : Prop := NoDup (errorStage <$> errors w).

(** What Redis returns for a workflow key was written by this manager. *)
Definition loads_distinct (op : Operation) : Prop :=
  match op with
  | GetWorkflowStatus _ saved => forall w, outcome saved = Returned (Some w) -> distinct w
  | _ => True
  end.

Definition all_distinct (m : Manager) : Prop :=
  forall sessionId w, workflows m !! sessionId = Some w -> distinct w.

(** *** A session, for the examples *)

Definition answer {A : Type} (ms : Z) (a : A) : Reply A := mkReply ms (Returned a).

Definition failure {A : Type} (ms : Z) (message : string) : Reply A :=
  mkReply ms (Thrown message).

Definition plan_op : Operation :=
  CreateResearchPlan "edge caching for CDNs" ["latency"; "hit ratio"] (answer 0 tt)
                     (answer 5 (Object ∅)).

(** [JSON.stringify] of a string without characters to escape. *)
Definition quoted (text : string) : string :=
  String (Ascii.ascii_of_nat 34) (text +:+ String (Ascii.ascii_of_nat 34) EmptyString).

(** Research results as the orchestrator stores them, as far as
    [startDevelopment] reads them. *)
Definition research_results : Value :=
  Object {[ "topic" := Str "edge caching for CDNs";
            "technicalDetails" := Str "Python, Flask" ]}.

Definition stringify_example (v : Value) : string :=
  match v with
  | Str text => quoted text
  | _ => "null"
  end.

Definition research_op : Operation := ExecuteResearch "session_0" 2 (answer 7 (Object ∅)).

Definition research_fails_op : Operation :=
  ExecuteResearch "session_0" 1 (failure 7 "crawler unreachable").

Definition refine_fails_op : Operation :=
  RefineResearch "session_0" (failure 3 "crawler unreachable").

Definition develop_op : Operation :=
  StartDevelopment "session_0"
    (mkDevelopmentEnv (answer 1 (Some research_results)) stringify_example
                      (answer 1 (Object {[ "id" := Str "project-1" ]}))
                      (answer 1 tt)
                      (fun _ => answer 1 (Object {[ "failed" := Number 0 ]}))
                      (answer 1 tt)).

Definition develop_again_op : Operation :=
  StartDevelopment "session_0"
    (mkDevelopmentEnv (answer 1 None) stringify_example (answer 1 Null) (answer 1 tt)
                      (fun _ => answer 1 Null) (answer 1 tt)).

(** A second session, and a refinement of its research that fails. *)
Definition plan_again_op : Operation :=
  CreateResearchPlan "request routing" ["cost"; "latency"] (answer 1 tt)
                     (answer 5 (Object ∅)).

Definition refine_other_op : Operation :=
  RefineResearch "session_14" (failure 3 "crawler unreachable").

Definition documents_op : Operation :=
  GenerateDocuments "session_0" Pdf
    (mkDocumentEnv (answer 1 (Object ∅)) (answer 1 (Object ∅)) (answer 1 (Object ∅))
                   (answer 1 tt)).

(** Status, progress and end time of a stage's record. *)
Definition recordOf (m : Manager) (sessionId : string) (s : ResearchStage)
    : option (Status * Z * option Z) :=
  w ← workflows m !! sessionId;
  sp ← find (is_stage s) (stages w);
  Some (status sp, progress sp, endTime sp).

End WorkflowManager.

(** ** index.ts *)

Module MCPHandler.
Import Js.

Record ResearchSession : Type := mkResearchSession {
  id : string;
  topic : string;
  stage : WorkflowManager.ResearchStage;
  clarifications : list string;
  history : list Value;
  createdAt : Z;
  updatedAt : Z
}.

(** A [research.clarify] request: the method name and the two parameters
    the handler destructures. *)
Record ClarifyRequest : Type := mkClarifyRequest {
  method : string;
  sessionId : string;
  answers : list string
}.

(** The handler with the workflow manager it calls and the events it has
    sent to session rooms. *)
Record Handler : Type := mkHandler {
  sessions : gmap string ResearchSession;
  manager : WorkflowManager.Manager;
  broadcasts : list (string * string * Value)
}.

Definition set_clarifications (l : list string) (s : ResearchSession) : ResearchSession :=
  mkResearchSession (id s) (topic s) (stage s) l (history s) (createdAt s) (updatedAt s).

Definition set_stage (st : WorkflowManager.ResearchStage) (s : ResearchSession)
    : ResearchSession :=
  mkResearchSession (id s) (topic s) st (clarifications s) (history s) (createdAt s)
                    (updatedAt s).

Definition strings (l : list string) : Value := Array (Str <$> l).

(** The envelope the handlers return; [responseId] is the fresh UUID. *)
Definition response (responseId : string) (method : string) (result : Value) (now : Z)
    : Value :=
  Object (list_to_map
    [ ("id", Str responseId);
      ("type", Str "response");
      ("method", Str method);
      ("result", result);
      ("timestamp", Number now) ]).

(** [handleClarification]; [followUp] is the answer to the follow-up
    question generation; [saved] is Redis's answer to the write of the new
    workflow and [plan] the orchestrator's answer to the plan creation,
    whichever the handler awaits. *)
Definition handleClarification (h : Handler) (message : ClarifyRequest)
    (responseId : string) (followUp : WorkflowManager.Reply Value)
    (saved : WorkflowManager.Reply unit) (plan : WorkflowManager.Reply Value)
    : Handler * Outcome Value :=
  match sessions h !! sessionId message with
  | None => (h, Thrown "Session not found")
  | Some session =>
      let session1 :=
        set_clarifications (clarifications session ++ answers message) session in
      if (length (clarifications session1) <? 2)%nat then
        let '(m1, questions) :=
          WorkflowManager.generateFollowUpQuestions (manager h) (topic session1)
            (clarifications session1) followUp in
        let h1 := mkHandler (<[sessionId message := session1]> (sessions h)) m1
                            (broadcasts h) in
        match questions with
        | Thrown e => (h1, Thrown e)
        | Returned additionalQuestions =>
            (h1, Returned (response responseId (method message)
                             (Object (list_to_map
                                [ ("sessionId", Str (sessionId message));
                                  ("questions", additionalQuestions);
                                  ("needsMoreClarification", Bool true) ]))
                             (WorkflowManager.clock m1)))
        end
      else
        let session2 := set_stage WorkflowManager.RESEARCH session1 in
        let '(m1, created) :=
          WorkflowManager.createResearchPlan (manager h) (topic session2)
            (clarifications session2) saved plan in
        let stored := <[sessionId message := session2]> (sessions h) in
        match created with
        | Thrown e => (mkHandler stored m1 (broadcasts h), Thrown e)
        | Returned researchPlan =>
            (* executeResearch is started and not awaited *)
            let m2 := default m1 (WorkflowManager.executeResearch_begin m1
                                    (sessionId message)) in
            (mkHandler stored m2 (broadcasts h),
             Returned (response responseId (method message)
                         (Object (list_to_map
                            [ ("sessionId", Str (sessionId message));
                              ("researchPlan", researchPlan);
                              ("stage", Str (WorkflowManager.stage_value
                                               WorkflowManager.RESEARCH)) ]))
                         (WorkflowManager.clock m2)))
        end
  end.

(** A handler holding one session that has been asked its first
    questions, and the two requests that answer them. *)
Definition asked : Handler :=
  mkHandler {[ "s-1" := mkResearchSession "s-1" "edge caching for CDNs"
                                           WorkflowManager.CLARIFICATION [] [] 0 0 ]}
            WorkflowManager.empty [].

Definition first_answer : ClarifyRequest :=
  mkClarifyRequest "research.clarify" "s-1" ["latency matters most"].

Definition second_answer : ClarifyRequest :=
  mkClarifyRequest "research.clarify" "s-1" ["hit ratio above 90%"].

Definition questions_reply : WorkflowManager.Reply Value :=
  WorkflowManager.mkReply 3 (Returned (strings ["Which metric?"])).

Definition saved_reply : WorkflowManager.Reply unit :=
  WorkflowManager.mkReply 2 (Returned tt).

Definition plan_reply : WorkflowManager.Reply Value :=
  WorkflowManager.mkReply 9 (Returned (Object {[ "topic" := Str "edge caching for CDNs" ]})).

(** *** GET /sessions *)

(** [Promise.all]: the values in order, or a rejection when one of the
    promises rejects (here the first in list order). *)
Fixpoint all {A : Type} (l : list (Outcome A)) : Outcome (list A) :=
  match l with
  | [] => Returned []
  | Thrown e :: _ => Thrown e
  | Returned a :: l' =>
      match all l' with
      | Returned rest => Returned (a :: rest)
      | Thrown e => Thrown e
      end
  end.







End MCPHandler.

(** ** managers/workflow.ts: reading the operations' results *)

Module WorkflowRuns.
Import Js WorkflowManager.

(** What one answer of the test service means to [runTestsWithRetry]: the
    run passes when the answer has [failed === 0]; it leaves an error
    behind when the request threw, or when reading [failed] did. *)
Definition attemptPasses (r : Reply Value) : bool :=
  match outcome r with
  | Returned testResults =>
      match read testResults "failed" with
      | Returned f => is_zero f
      | Thrown _ => false
      end
  | Thrown _ => false
  end.

Definition attemptError (r : Reply Value) : option string :=
  match outcome r with
  | Returned testResults =>
      match read testResults "failed" with
      | Returned _ => None
      | Thrown message => Some message
      end
  | Thrown message => Some message
  end.

(** The error of the latest attempt below [n] that left one. *)
Fixpoint latestError (tests : Z -> Reply Value) (n : nat) : option string :=
  match n with
  | O => None
  | S n' =>
      match attemptError (tests (Z.of_nat n')) with
      | Some message => Some message
      | None => latestError tests n'
      end
  end.

(** Time spent waiting for the answers to the first [n] attempts. *)
Fixpoint waited (tests : Z -> Reply Value) (n : nat) : Z :=
  match n with
  | O => 0
  | S n' => waited tests n' + elapsed (tests (Z.of_nat n'))
  end.

(** The generators that [generateDocuments] calls for a format, in the
    order of the calls: the [type] and [format] tags of the document and
    the generator's answer. *)
Definition requested (format : Format) (env : DocumentEnv)
    : list (string * string * Reply Value) :=
  (if wants format Pdf then [("report", "pdf", report env)] else [])
  ++ (if wants format Latex then [("paper", "latex", paper env)] else [])
  ++ (if wants format Pptx then [("presentation", "pptx", presentation env)] else []).

(** The document made of a generator's answer: the answer's own
    properties (the characters of a string, the items of an array, by
    index) and, where the answer has none of that name, the tags. *)
Definition documented (d : Value) (request : string * string * Reply Value) : Prop :=
  exists data, outcome request.2 = Returned data
               /\ d = document request.1.1 request.1.2 data.

(** [createResearchPlan] never reuses the key of a workflow it holds, all
    along a sequence of operations. *)
Fixpoint all_fresh (m : Manager) (ops : list Operation) : Prop :=
  match ops with
  | [] => True
  | op :: ops' => fresh m op /\ all_fresh (perform m op) ops'
  end.

(** How many ["crawl:progress"] listeners have been registered for a
    session. *)
Definition listening (m : Manager) (sessionId : string) : nat :=
  length (List.filter (String.eqb sessionId) (crawlListeners m)).

(** *** Collaborators for the examples *)

(** The manager once a plan has been made: it holds one workflow, under
    ["session_0"]. *)
Definition planned : Manager := perform empty plan_op.

(** Redis has no research results for the session. *)
Definition no_research : DevelopmentEnv :=
  mkDevelopmentEnv (answer 1 None) stringify_example (answer 1 Null) (answer 1 tt)
                   (fun _ => answer 1 Null) (answer 1 tt).

(** Every service answers; the tests pass at the second attempt. *)
Definition second_run_passes : DevelopmentEnv :=
  mkDevelopmentEnv (answer 1 (Some research_results)) stringify_example
                   (answer 2 (Object {[ "id" := Str "project-1" ]}))
                   (answer 3 tt)
                   (fun attempt =>
                      answer 4 (Object {[ "failed" := Number (if attempt =? 0 then 2 else 0) ]}))
                   (answer 6 tt).

(** The same, but Redis rejects the last write of the workflow. *)
Definition last_write_fails : DevelopmentEnv :=
  mkDevelopmentEnv (researchData second_run_passes) stringify_example
                   (projectCreated second_run_passes) (codeGenerated second_run_passes)
                   (testRuns second_run_passes) (failure 6 "READONLY").

(** The stored research results have no topic. *)
Definition no_topic : DevelopmentEnv :=
  mkDevelopmentEnv (answer 1 (Some (Object ∅))) stringify_example
                   (projectCreated second_run_passes) (codeGenerated second_run_passes)
                   (testRuns second_run_passes) (answer 6 tt).

(** The report generator answers and the paper generator is down. *)
Definition paper_fails : DocumentEnv :=
  mkDocumentEnv (answer 1 (Object {[ "path" := Str "/out/report.pdf" ]}))
                (failure 2 "doc generator unreachable")
                (answer 3 (Object ∅))
                (answer 4 tt).

Definition all_generated : DocumentEnv :=
  mkDocumentEnv (answer 1 (Object {[ "path" := Str "/out/report.pdf" ]}))
                (answer 2 (Object {[ "path" := Str "/out/paper.tex" ]}))
                (answer 3 (Object {[ "path" := Str "/out/slides.pptx" ]}))
                (answer 4 tt).

(** The generators answer with an object that has a type of its own, with
    a string and with nothing; Redis rejects the last write. *)
Definition odd_answers : DocumentEnv :=
  mkDocumentEnv (answer 1 (Object {[ "type" := Str "summary" ]}))
                (answer 2 (Str "ok"))
                (answer 3 Null)
                (answer 4 tt).

Definition documents_unsaved : DocumentEnv :=
  mkDocumentEnv (report all_generated) (paper all_generated) (presentation all_generated)
                (failure 4 "READONLY").

End WorkflowRuns.

(** ** services/ollama.ts: what the broker's maps hold *)

Module OllamaBroker.
Import Js OllamaService.

Section Broker.
Context `{service : Service}.

(** Every entry of [activeRequests] belongs to a [generate] call that has
    started the request and has not run its [finally] block yet. *)
Definition Registered (st : State) : Prop :=
  forall key p,
    activeRequests st !! key = Some p ->
    exists c cs, calls st !! c = Some cs /\ owned cs = Some (key, p).

(** Every cache entry is the serialized response that a backend request
    for that very fingerprint returned, and it expires within the hour. *)
Definition CacheSound (st : State) : Prop :=
  forall key value expiry,
    redis st !! key = Some (value, expiry) ->
    expiry <= clock st + 3600
    /\ exists p response,
         requests st !! p = Some (key, Some (Returned response))
         /\ value = JSON_stringify response.

End Broker.

(** [batchGenerate]. Each request comes with what its [generate] call
    settles to if it is issued; [batches] bounds the iterations of the
    loop, [results] is the array being filled and [issued] counts the
    [generate] calls made so far. *)
Fixpoint batchLoop {Request Response : Type} (batches : nat)
    (pending : list (Request * Outcome Response)) (results : list Response) (issued : nat)
    : nat * Outcome (list Response) :=
  match batches, pending with
  | S batches', _ :: _ =>
      let batch := take 4 pending in
      match MCPHandler.all (snd <$> batch) with
      | Returned batchResults =>
          batchLoop batches' (drop 4 pending) (results ++ batchResults)
                    (issued + length batch)%nat
      | Thrown e => ((issued + length batch)%nat, Thrown e)
      end
  | _, _ => (issued, Returned results)
  end.

Definition batchGenerate {Request Response : Type}
    (requests : list (Request * Outcome Response)) : nat * Outcome (list Response) :=
  batchLoop (length requests) requests [] 0.

(** Services configured with [maxRetries: -1] and with [maxRetries: 0],
    for the examples. *)
Definition no_attempt_service : Service :=
  Build_Service string string prompt_key store_text load_text
                (mkConfig "mixtral" true (Some (-1))).

Definition zero_retries_service : Service :=
  Build_Service string string prompt_key store_text load_text
                (mkConfig "mixtral" true (Some 0)).

(** Nine prompts, the sixth of which cannot be answered. *)
Definition nine_prompts : list (string * Outcome string) :=
  [ ("a", Returned "1"); ("b", Returned "2"); ("c", Returned "3"); ("d", Returned "4");
    ("e", Returned "5"); ("f", Thrown "model not loaded"); ("g", Returned "7");
    ("h", Returned "8"); ("i", Returned "9") ].

End OllamaBroker.

(** ** managers/workflow.ts: the project's status, and the words for its
    name and language *)

Module WorkflowProject.
Import Js JsString WorkflowManager.

(** The characters a project name is made of. *)
Definition is_name_char (c : Ascii.ascii) : bool :=
  is_lower c || is_digit c || is_underscore c.

(** Whether a text mentions one of the words, whatever the case. *)
Definition mentions (text : string) (words : list string) : bool :=
  existsb (includes (toLowerCase text)) words.








End WorkflowProject.

(** ** orchestrators/research.ts *)

Module ResearchOrchestrator.
Import Js JsString.

(** [ScrapedPaper]; an absent [fullText] is [None], and the [year] is an
    integer. *)
Record ScrapedPaper : Type := mkScrapedPaper {
  title : string;
  authors : list string;
  abstract : string;
  url : string;
  source : string;
  year : Z;
  fullText : option string
}.

(** The title as [getPaperKey] normalizes it. *)
Definition normalizedTitle (title : string) : string :=
  trim (squeeze is_space space
          (sfilter (fun c => is_word c || is_space c) (toLowerCase title))).

(** The characters a normalized title is made of. *)
Definition is_title_char (c : Ascii.ascii) : bool :=
  is_lower c || is_digit c || is_underscore c || Ascii.eqb c space.

(** [getPaperKey] *)
Definition getPaperKey (paper : ScrapedPaper) : string :=
  normalizedTitle (title paper) +:+ "_"
  +:+ match authors paper with
      | first :: _ => toLowerCase first
      | [] => ""
      end
  +:+ "_" +:+ number_to_string (year paper).

(** [paper.fullText] as a condition *)
Definition hasFullText (paper : ScrapedPaper) : bool :=
  match fullText paper with
  | Some text => negb (String.eqb text "")
  | None => false
  end.

(** One iteration of the [forEach] of [deduplicatePapers] on the [seen]
    map, whose entries are kept in insertion order. *)
Fixpoint see (key : string) (paper : ScrapedPaper) (seen : list (string * ScrapedPaper))
    : list (string * ScrapedPaper) :=
  match seen with
  | [] => [(key, paper)]
  | (k, existing) :: rest =>
      if String.eqb k key
      then (k, if hasFullText paper && negb (hasFullText existing) then paper
               else existing) :: rest
      else (k, existing) :: see key paper rest
  end.

(** [deduplicatePapers] *)
Definition deduplicatePapers (papers : list ScrapedPaper) : list ScrapedPaper :=
  snd <$> foldl (fun seen paper => see (getPaperKey paper) paper seen) [] papers.

(** What the [seen] map holds once the papers in [processed] have gone
    through the loop. *)
Definition Represents (seen : list (string * ScrapedPaper)) (processed : list ScrapedPaper)
    : Prop :=
  NoDup seen.*1
  /\ (forall k q, (k, q) ∈ seen -> getPaperKey q = k /\ q ∈ processed)
  /\ (forall p, p ∈ processed ->
        exists q, (getPaperKey p, q) ∈ seen
                  /\ (hasFullText p = true -> hasFullText q = true)).

(** [extractKeywords] *)
Definition stopWords : list string :=
  [ "the"; "is"; "at"; "which"; "on"; "and"; "a"; "an"; "as"; "are"; "been"; "be"; "have";
    "has"; "had"; "were"; "was"; "will"; "with"; "can"; "could"; "what"; "when"; "where";
    "who"; "why"; "how" ].

Definition is_keyword (word : string) : bool :=
  (3 <? String.length word)%nat
  && negb (bool_decide (word ∈ stopWords))
  && (negb (String.eqb word "") && sall is_lower word).

Definition extractKeywords (text : string) : list string :=
  List.filter is_keyword (split (toLowerCase text)).

(** The part of [ResearchPlan] that [createSearchQueries] reads;
    [keyPapers] holds the titles. *)
Record SearchPlan : Type := mkSearchPlan {
  planTopic : string;
  researchQuestions : list string;
  keyPapers : list string
}.

Definition quoted (title : string) : string :=
  String (Ascii.ascii_of_nat 34) title +:+ String (Ascii.ascii_of_nat 34) EmptyString.

(** The query made of a research question, if it has more than two
    keywords. *)
Definition questionQuery (question : string) : list string :=
  let keywords := extractKeywords question in
  if (2 <? length keywords)%nat then [join " " keywords] else [].

(** [createSearchQueries] *)
Definition createSearchQueries (plan : SearchPlan) : list string :=
  firsts [] ([planTopic plan]
             ++ (researchQuestions plan ≫= questionQuery)
             ++ (quoted <$> keyPapers plan)).

End ResearchOrchestrator.

(** ** index.ts: starting and approving the research *)

Module MCPResearch.
Import Js.

(** A [research.start] request: the method name and the two parameters
    the handler destructures. *)
Record StartRequest : Type := mkStartRequest {
  startMethod : string;
  startSessionId : string;
  startTopic : string
}.

(** A [research.approve] request. *)
Record ApproveRequest : Type := mkApproveRequest {
  approveMethod : string;
  approveSessionId : string;
  approved : Value;
  feedback : Value
}.

Definition set_manager (m : WorkflowManager.Manager) (h : MCPHandler.Handler)
    : MCPHandler.Handler :=
  MCPHandler.mkHandler (MCPHandler.sessions h) m (MCPHandler.broadcasts h).

Definition set_updatedAt (now : Z) (s : MCPHandler.ResearchSession)
    : MCPHandler.ResearchSession :=
  MCPHandler.mkResearchSession (MCPHandler.id s) (MCPHandler.topic s) (MCPHandler.stage s)
    (MCPHandler.clarifications s) (MCPHandler.history s) (MCPHandler.createdAt s) now.

(** [startResearch]; [questions] is the answer to the generation of the
    clarification questions. *)
Definition startResearch (h : MCPHandler.Handler) (message : StartRequest)
    (responseId : string) (questions : WorkflowManager.Reply Value)
    : MCPHandler.Handler * Outcome Value :=
  match MCPHandler.sessions h !! startSessionId message with
  | None => (h, Thrown "Session not found")
  | Some session =>
      let '(m1, generated) :=
        WorkflowManager.generateClarificationQuestions (MCPHandler.manager h)
          (startTopic message) questions in
      match generated with
      | Thrown e => (set_manager m1 h, Thrown e)
      | Returned qs =>
          let session1 :=
            set_updatedAt (WorkflowManager.clock m1)
              (MCPHandler.set_stage WorkflowManager.CLARIFICATION session) in
          (MCPHandler.mkHandler
             (<[startSessionId message := session1]> (MCPHandler.sessions h)) m1
             (MCPHandler.broadcasts h
              ++ [(startSessionId message, "research:progress",
                   Object (list_to_map
                     [ ("stage", Str (WorkflowManager.stage_value
                                        WorkflowManager.CLARIFICATION));
                       ("questions", qs) ]))]),
           Returned (MCPHandler.response responseId (startMethod message)
                       (Object (list_to_map
                          [ ("sessionId", Str (startSessionId message));
                            ("questions", qs);
                            ("stage", Str (WorkflowManager.stage_value
                                             WorkflowManager.CLARIFICATION)) ]))
                       (WorkflowManager.clock m1)))
      end
  end.

(** [approveResearch]; [refined] is the orchestrator's answer to the
    refinement and [env] the collaborators of the development, whichever
    of the two the handler awaits. *)
Definition approveResearch (h : MCPHandler.Handler) (message : ApproveRequest)
    (responseId : string) (refined : WorkflowManager.Reply unit)
    (env : WorkflowManager.DevelopmentEnv) : MCPHandler.Handler * Outcome Value :=
  match MCPHandler.sessions h !! approveSessionId message with
  | None => (h, Thrown "Session not found")
  | Some session =>
      if negb (truthy (approved message)) && truthy (feedback message) then
        let '(m1, done) :=
          WorkflowManager.refineResearch (MCPHandler.manager h) (approveSessionId message)
            refined in
        match done with
        | Thrown e => (set_manager m1 h, Thrown e)
        | Returned _ =>
            (set_manager m1 h,
             Returned (MCPHandler.response responseId (approveMethod message)
                         (Object (list_to_map
                            [ ("sessionId", Str (approveSessionId message));
                              ("status", Str "refining");
                              ("message",
                               Str "Research is being refined based on your feedback") ]))
                         (WorkflowManager.clock m1)))
        end
      else
        let stored :=
          <[approveSessionId message :=
              MCPHandler.set_stage WorkflowManager.DEVELOPMENT session]>
            (MCPHandler.sessions h) in
        let '(m1, done) :=
          WorkflowManager.startDevelopment (MCPHandler.manager h)
            (approveSessionId message) env in
        match done with
        | Thrown e => (MCPHandler.mkHandler stored m1 (MCPHandler.broadcasts h), Thrown e)
        | Returned _ =>
            (MCPHandler.mkHandler stored m1 (MCPHandler.broadcasts h),
             Returned (MCPHandler.response responseId (approveMethod message)
                         (Object (list_to_map
                            [ ("sessionId", Str (approveSessionId message));
                              ("stage", Str (WorkflowManager.stage_value
                                               WorkflowManager.DEVELOPMENT));
                              ("message", Str "Development phase started") ]))
                         (WorkflowManager.clock m1)))
        end
  end.

(** A rejection that gives no feedback, and one that does. *)
Definition silent_rejection : ApproveRequest :=
  mkApproveRequest "research.approve" "s-1" (Bool false) (Str "").

Definition rejection : ApproveRequest :=
  mkApproveRequest "research.approve" "s-1" (Bool false) (Str "compare with LRU").

(** A handler holding one new session, and the request that starts its
    research on another topic than the session's. *)
Definition created : MCPHandler.Handler :=
  MCPHandler.mkHandler
    {[ "s-1" := MCPHandler.mkResearchSession "s-1" "edge caching for CDNs"
                  WorkflowManager.INITIAL [] [] 0 0 ]}
    WorkflowManager.empty [].

Definition start_request : StartRequest :=
  mkStartRequest "research.start" "s-1" "cache eviction".

(** The inference service is down. *)
Definition refusing {A : Type} : WorkflowManager.Reply A :=
  WorkflowManager.failure 3 "connect ECONNREFUSED".

End MCPResearch.

(** * Part II: properties *)

(** ** The message protocol *)

Module MCPProtocolFacts.
Import Js MCPProtocol.

(** *** What [validate] rejects and accepts *)

Ltac read_fields :=
  repeat first [ rewrite lookup_insert_eq | rewrite lookup_insert_ne by done ];
  simpl.

Lemma validate_null : validate Null = false /\ validate Undefined = false.
Proof. by split. Qed.

Lemma validate_non_object message :
  typeof message <> "object" -> validate message = false.
Proof.
  intros Htype. unfold validate.
  apply String.eqb_neq in Htype. rewrite Htype. by rewrite orb_true_r.
Qed.

Lemma validate_missing_field fields name :
  name = "id" \/ name = "type" \/ name = "method" ->
  fields !! name = None ->
  validate (Object fields) = false.
Proof.
  intros Hname Hmissing. unfold validate. simpl.
  destruct Hname as [-> | [-> | ->]]; rewrite Hmissing; simpl;
    by rewrite ?orb_true_r.
Qed.

Lemma validate_unknown_type message :
  includes ["request"; "response"; "notification"] (get message "type") = false ->
  validate message = false.
Proof.
  intros Htype. unfold validate. rewrite Htype. simpl.
  destruct (negb (truthy message) || negb (String.eqb (typeof message) "object"));
    [done|].
  by destruct (negb (truthy (get message "id")) || negb (truthy (get message "type"))
               || negb (truthy (get message "method"))).
Qed.

Lemma pretty_N_go_length (x : N) : forall s,
  (String.length s <= String.length (pretty_N_go x s))%nat.
Proof.
  induction (N.lt_wf_0 x) as [x _ IH]. intros s.
  destruct (decide (x = 0)%N) as [->|Hx].
  - by rewrite pretty_N_go_0.
  - rewrite pretty_N_go_step by lia.
    etrans; [|apply IH; apply N.div_lt; lia]. simpl. lia.
Qed.

Lemma number_to_string_nonempty (z : Z) : number_to_string z <> "".
Proof.
  assert (Hpos : forall p : positive, pretty p <> "").
  { intros p Hp. unfold pretty, pretty_positive, pretty, pretty_N in Hp.
    destruct (decide (N.pos p = 0)%N); [done|].
    rewrite pretty_N_go_step in Hp by lia.
    pose proof (pretty_N_go_length (N.pos p `div` 10)
                  (String (pretty_N_char (N.pos p `mod` 10)) "")) as Hlen.
    rewrite Hp in Hlen. simpl in Hlen. lia. }
  unfold number_to_string, pretty, pretty_Z. destruct z as [|p|p]; [done|apply Hpos|done].
Qed.

Lemma validate_request now method params :
  method <> "" -> validate (createRequest now method params) = true.
Proof.
  intros Hmethod. unfold validate, createRequest. cbn. read_fields.
  apply String.eqb_neq in Hmethod. rewrite Hmethod.
  pose proof (number_to_string_nonempty now) as Hid.
  apply String.eqb_neq in Hid. by rewrite Hid.
Qed.

Lemma validate_notification now method params :
  method <> "" -> validate (createNotification now method params) = true.
Proof.
  intros Hmethod. unfold validate, createNotification. cbn. read_fields.
  apply String.eqb_neq in Hmethod. rewrite Hmethod.
  pose proof (number_to_string_nonempty now) as Hid.
  apply String.eqb_neq in Hid. by rewrite Hid.
Qed.

(** C4, at the inputs where the code departs from it: [validate] returns
    [false] on every envelope built by [createResponse] (and likewise by
    [createError]), because the empty [method] that the factory writes is
    falsy in the test [!message.method]. *)
Theorem validate_rejects_createResponse now requestId result :
  validate (createResponse now requestId result) = false.
Proof.
  unfold validate, createResponse. cbn. read_fields.
  by destruct (negb (String.eqb requestId "")).
Qed.

Lemma validate_rejects_createError now requestId code message data :
  validate (createError now requestId code message data) = false.
Proof.
  unfold validate, createError. cbn. read_fields.
  by destruct (negb (String.eqb requestId "")).
Qed.

End MCPProtocolFacts.

(** ** The generation broker *)

Module OllamaServiceFacts.
Import Js OllamaService.

Section Facts.
Context `{service : Service}.

(** *** Properties of the retry loop *)




Lemma willCache_owned cs key :
  willCache cs = Some key -> exists p, owned cs = Some (key, p).
Proof.
  destruct cs; simpl; try done.
  - destruct (cacheEnabled config && useCache); naive_solver.
  - naive_solver.
Qed.

Lemma consistent_init : Consistent init.
Proof. split; simpl; intros *; try rewrite lookup_nil; try rewrite lookup_empty; done. Qed.

Lemma idle_owned cs : idle cs -> owned cs = None /\ willCache cs = None.
Proof. by destruct cs as [| | |[]| | | | | |]. Qed.

Lemma consistent_push st cs :
  Consistent st -> idle cs -> Consistent (push_call st cs).
Proof.
  intros [H1 H2 H3 H4 H5 H5' H6] Hidle.
  destruct (idle_owned cs Hidle) as [Ho Hw].
  split; simpl; try done.
  - intros c cs' key p [[_ Hc]|[_ ?]]%lookup_snoc_Some ?; simplify_eq; eauto.
  - intros c c' cs1 cs2 key p p' [[_ Hc]|[_ ?]]%lookup_snoc_Some
      [[_ Hc']|[_ ?]]%lookup_snoc_Some ??; simplify_eq; eauto.
  - intros c req p response [[_ Hc]|[_ ?]]%lookup_snoc_Some; simplify_eq; eauto.
    all: try by destruct Hidle.
  - intros c p o [[_ Hc]|[_ ?]]%lookup_snoc_Some; simplify_eq; eauto.
    all: try by destruct Hidle.
  - intros c p o [[_ Hc]|[_ ?]]%lookup_snoc_Some; simplify_eq; eauto.
    all: try by destruct Hidle.
  - intros c cs' key value expiry [[_ Hc]|[_ ?]]%lookup_snoc_Some ?; simplify_eq; eauto.
Qed.

Lemma consistent_idle_shrunk st c cs redis' emitted' :
  Consistent st -> idle cs ->
  (forall key entry, redis' !! key = Some entry -> redis st !! key = Some entry) ->
  Consistent (mkState (clock st) redis' (activeRequests st) (requests st)
                      (<[c := cs]> (calls st)) emitted').
Proof.
  intros [H1 H2 H3 H4 H5 H5' H6] Hidle Hredis.
  destruct (idle_owned cs Hidle) as [Ho Hw].
  split; simpl; try done.
  - intros c1 cs' key p [(_ & ? & _)|[_ Hc]]%list_lookup_insert_Some ?; simplify_eq; eauto.
  - intros c1 c2 cs1 cs2 key p p' [(_ & ? & _)|[_ Hc]]%list_lookup_insert_Some
      [(_ & ? & _)|[_ Hc']]%list_lookup_insert_Some ??; simplify_eq; eauto.
  - intros c1 req p response [(_ & ? & _)|[_ Hc]]%list_lookup_insert_Some; simplify_eq; eauto.
    all: try by destruct Hidle.
  - intros c1 p o [(_ & ? & _)|[_ Hc]]%list_lookup_insert_Some; simplify_eq; eauto.
    all: try by destruct Hidle.
  - intros c1 p o [(_ & ? & _)|[_ Hc]]%list_lookup_insert_Some; simplify_eq; eauto.
    all: try by destruct Hidle.
  - intros c1 cs' key value expiry [(_ & ? & _)|[_ Hc]]%list_lookup_insert_Some ? Hentry;
      simplify_eq; eauto.
Qed.

Lemma consistent_idle st c cs emitted' :
  Consistent st -> idle cs ->
  Consistent (mkState (clock st) (redis st) (activeRequests st) (requests st)
                      (<[c := cs]> (calls st)) emitted').
Proof. intros Hst Hidle. by apply consistent_idle_shrunk. Qed.

Lemma consistent_tick st seconds :
  Consistent st -> 0 <= seconds ->
  Consistent (mkState (clock st + seconds) (redis st) (activeRequests st)
                      (requests st) (calls st) (emitted st)).
Proof.
  intros [H1 H2 H3 H4 H5 H5' H6] Hs. split; simpl; try done.
  intros c cs key value expiry Hc Hw Hr Hv Hlt.
  apply (H6 c cs key value expiry); try done. lia.
Qed.

Lemma consistent_deduplicate st c req useCache st' cs :
  Consistent st ->
  calls st !! c = Some (AwaitCacheGet req useCache) ->
  (forall value expiry,
      cacheEnabled config && useCache = true ->
      redis st !! getCacheKey req = Some (value, expiry) ->
      value <> "" -> ~ clock st < expiry) ->
  deduplicate st req useCache = (st', cs) ->
  Consistent (set_call st' c cs).
Proof.
  intros Hst Hcall Hcache. unfold deduplicate.
  destruct (activeRequests st !! getCacheKey req) as [q|] eqn:Hactive;
    intros ?; simplify_eq.
  { by apply consistent_idle. }
  destruct Hst as [H1 H2 H3 H4 H5 H5' H6].
  assert (Hfree : forall c1 cs1 p1, calls st !! c1 = Some cs1 ->
                    owned cs1 = Some (getCacheKey req, p1) -> False).
  { intros c1 cs1 p1 Hc1 Ho1. destruct (H2 _ _ _ _ Hc1 Ho1) as [? _]. congruence. }
  split; simpl.
  - intros p key [[_ Hp]|[-> ?]]%lookup_snoc_Some; simplify_eq.
    + rewrite lookup_insert_ne; [by apply H1|].
      intros <-. apply H1 in Hp. congruence.
    + by rewrite lookup_insert_eq.
  - intros c1 cs1 key p [(_ & ? & _)|[_ Hc]]%list_lookup_insert_Some Ho; simplify_eq/=.
    + rewrite lookup_insert_eq. split; [done|]. exists None.
      apply lookup_snoc_Some. by right.
    + destruct (H2 _ _ _ _ Hc Ho) as [Ha [o Hr]].
      rewrite lookup_insert_ne by congruence. split; [done|].
      exists o. apply lookup_snoc_Some. left. eauto using lookup_lt_Some.
  - intros c1 c2 cs1 cs2 key p p' [(? & ? & _)|[_ Hc1]]%list_lookup_insert_Some
      [(? & ? & _)|[_ Hc2]]%list_lookup_insert_Some Ho1 Ho2; simplify_eq/=.
    + done.
    + by destruct (Hfree _ _ _ Hc2 Ho2).
    + by destruct (Hfree _ _ _ Hc1 Ho1).
    + by eapply H3.
  - intros c1 req1 p response [(_ & ? & _)|[_ Hc]]%list_lookup_insert_Some; simplify_eq.
    destruct (H4 _ _ _ _ Hc) as [key Hr]. exists key.
    apply lookup_snoc_Some. left. eauto using lookup_lt_Some.
  - intros c1 p o [(_ & ? & _)|[_ Hc]]%list_lookup_insert_Some; simplify_eq.
    destruct (H5 _ _ _ Hc) as [key Hr]. exists key.
    apply lookup_snoc_Some. left. eauto using lookup_lt_Some.
  - intros c1 p o [(_ & ? & _)|[_ Hc]]%list_lookup_insert_Some; simplify_eq.
    destruct (H5' _ _ _ Hc) as (key & response & message & Hr & ->).
    exists key, response, message. split; [|done].
    apply lookup_snoc_Some. left. eauto using lookup_lt_Some.
  - intros c1 cs1 key value expiry [(_ & ? & _)|[_ Hc]]%list_lookup_insert_Some Hw;
      simplify_eq/=; [|by eapply H6].
    destruct (cacheEnabled config && useCache) eqn:Huse; simplify_eq. by apply Hcache.
Qed.

Lemma deduplicate_push st req useCache cs0 :
  deduplicate (push_call st cs0) req useCache
  = (push_call (deduplicate st req useCache).1 cs0, (deduplicate st req useCache).2).
Proof. unfold deduplicate. simpl. by destruct (activeRequests st !! getCacheKey req). Qed.

Lemma deduplicate_calls st req useCache :
  calls (deduplicate st req useCache).1 = calls st.
Proof. unfold deduplicate. by destruct (activeRequests st !! getCacheKey req). Qed.

Lemma consistent_backend st p key result emitted' :
  Consistent st ->
  requests st !! p = Some (key, None) ->
  Consistent (mkState (clock st) (redis st) (activeRequests st)
                      (<[p := (key, Some result)]> (requests st)) (calls st) emitted').
Proof.
  intros [H1 H2 H3 H4 H5 H5' H6] Hp. split; simpl; try done.
  - intros q key' [(_ & ? & _)|[_ Hq]]%list_lookup_insert_Some; simplify_eq. by apply H1.
  - intros c cs key' q Hc Ho. destruct (H2 _ _ _ _ Hc Ho) as [Ha [o Hr]].
    split; [done|]. destruct (decide (p = q)) as [->|Hne].
    + simplify_eq. exists (Some result). apply list_lookup_insert_eq.
      eauto using lookup_lt_Some.
    + exists o. by rewrite list_lookup_insert_ne.
  - intros c req q response Hc. destruct (H4 _ _ _ _ Hc) as [key' Hr]. exists key'.
    rewrite list_lookup_insert_ne; [done|]. intros ->. congruence.
  - intros c q o Hc. destruct (H5 _ _ _ Hc) as [key' Hr]. exists key'.
    rewrite list_lookup_insert_ne; [done|]. intros ->. congruence.
  - intros c q o Hc. destruct (H5' _ _ _ Hc) as (key' & response & message & Hr & ->).
    exists key', response, message. split; [|done].
    rewrite list_lookup_insert_ne; [done|]. intros ->. congruence.
Qed.

Lemma consistent_store st c req p key response :
  Consistent st ->
  calls st !! c = Some (AwaitRequest req true p) ->
  cacheEnabled config = true ->
  requests st !! p = Some (key, Some (Returned response)) ->
  Consistent (set_call st c (AwaitCacheSet req p response)).
Proof.
  intros [H1 H2 H3 H4 H5 H5' H6] Hc Hen Hp. split; simpl; try done.
  - intros c1 cs1 key1 q [(? & ? & _)|[_ Hc1]]%list_lookup_insert_Some Ho; simplify_eq/=.
    + by eapply (H2 _ (AwaitRequest req true _)).
    + by eapply H2.
  - intros c1 c2 cs1 cs2 key1 q q' [(? & ? & _)|[_ Hc1]]%list_lookup_insert_Some
      [(? & ? & _)|[_ Hc2]]%list_lookup_insert_Some Ho1 Ho2; simplify_eq/=.
    + done.
    + by eapply (H3 _ _ (AwaitRequest req true _) cs2).
    + by eapply (H3 _ _ cs1 (AwaitRequest req true _)).
    + by eapply H3.
  - intros c1 req1 q response1 [(? & ? & _)|[_ Hc1]]%list_lookup_insert_Some; simplify_eq.
    + eauto.
    + by eapply H4.
  - intros c1 q o [(? & ? & _)|[_ Hc1]]%list_lookup_insert_Some; simplify_eq. by eapply H5.
  - intros c1 q o [(? & ? & _)|[_ Hc1]]%list_lookup_insert_Some; simplify_eq. by eapply H5'.
  - intros c1 cs1 key1 value expiry [(? & ? & _)|[_ Hc1]]%list_lookup_insert_Some Hw;
      simplify_eq/=; [|by eapply H6].
    eapply (H6 _ (AwaitRequest req true _)); simpl; [done|by rewrite Hen].
Qed.

Lemma consistent_finish st c cs req p key via result redis' emitted' :
  Consistent st ->
  calls st !! c = Some cs ->
  owned cs = Some (getCacheKey req, p) ->
  (via = FromRequest p /\ requests st !! p = Some (key, Some result)
   \/ exists response message,
        via = CacheWriteFailed p /\ result = Thrown message
        /\ requests st !! p = Some (key, Some (Returned response))) ->
  (forall key', key' <> getCacheKey req -> redis' !! key' = redis st !! key') ->
  Consistent (finish (mkState (clock st) redis' (activeRequests st) (requests st)
                              (calls st) emitted') c req via result).
Proof.
  intros [H1 H2 H3 H4 H5 H5' H6] Hc Ho Hp Hredis.
  destruct (H2 _ _ _ _ Hc Ho) as [Hactive _].
  assert (Hother : forall c1 cs1 key1 p1, c1 <> c -> calls st !! c1 = Some cs1 ->
                     owned cs1 = Some (key1, p1) -> key1 <> getCacheKey req).
  { intros c1 cs1 key1 p1 Hne Hc1 Ho1 ->. by destruct Hne; eapply H3. }
  assert (exists o0, requests st !! p = Some (key, Some o0)) as [o0 Hsettled].
  { destruct Hp as [[_ Hp]|(response & message & _ & _ & Hp)]; eauto. }
  split; simpl.
  - intros q key1 Hq. rewrite lookup_delete_ne; [by apply H1|].
    intros <-. pose proof (H1 _ _ Hq). congruence.
  - intros c1 cs1 key1 q [(? & ? & _)|[Hne Hc1]]%list_lookup_insert_Some Ho1; simplify_eq/=.
    rewrite lookup_delete_ne; [by eapply H2|].
    intros <-. by eapply Hother.
  - intros c1 c2 cs1 cs2 key1 q q' [(? & ? & _)|[_ Hc1]]%list_lookup_insert_Some
      [(? & ? & _)|[_ Hc2]]%list_lookup_insert_Some Ho1 Ho2; simplify_eq/=. by eapply H3.
  - intros c1 req1 q response [(? & ? & _)|[_ Hc1]]%list_lookup_insert_Some; simplify_eq.
    by eapply H4.
  - intros c1 q o [(? & ? & _)|[_ Hc1]]%list_lookup_insert_Some; [|by eauto].
    destruct Hp as [[-> Hp]|(response & message & -> & -> & Hp)]; simplify_eq; eauto.
  - intros c1 q o [(? & ? & _)|[_ Hc1]]%list_lookup_insert_Some; [|by eauto].
    destruct Hp as [[-> Hp]|(response & message & -> & -> & Hp)]; simplify_eq; eauto.
  - intros c1 cs1 key1 value expiry [(? & ? & _)|[Hne Hc1]]%list_lookup_insert_Some Hw;
      simplify_eq/=.
    destruct (willCache_owned _ _ Hw) as [q Ho1].
    rewrite Hredis by (eapply Hother; eauto). by eapply H6.
Qed.

Lemma redis_get_miss st key :
  match redis_get st key with
  | Some cached => String.eqb cached "" = true
  | None => True
  end ->
  forall value expiry,
    redis st !! key = Some (value, expiry) -> value <> "" -> ~ clock st < expiry.
Proof.
  unfold redis_get. intros Hmiss value expiry Hr Hv Hlt. rewrite Hr in Hmiss.
  apply Z.ltb_lt in Hlt. rewrite Hlt in Hmiss. by apply String.eqb_eq in Hmiss.
Qed.

Lemma step_consistent st e st' :
  Consistent st -> step st e = Some st' -> Consistent st'.
Proof.
  intros Hst.
  destruct e as [seconds|req useCache|c failure|p post|c|c failure| |c failure|c failure
                |req|c result]; simpl.
  - destruct (0 <=? seconds) eqn:Hs; intros ?; simplify_eq.
    apply consistent_tick; [done|]. by apply Z.leb_le.
  - destruct (cacheEnabled config && useCache) eqn:Huse.
    { intros ?; simplify_eq. by apply consistent_push. }
    destruct (deduplicate st req useCache) as [st1 cs] eqn:Hd. intros ?; simplify_eq.
    pose proof (deduplicate_push st req useCache (AwaitCacheGet req useCache)) as Hpush.
    pose proof (deduplicate_calls st req useCache) as Hcalls.
    rewrite Hd in Hpush, Hcalls. simpl in Hpush, Hcalls.
    eapply (consistent_deduplicate _ (length (calls st))) in Hpush.
    + unfold set_call, push_call in *. simpl in Hpush.
      rewrite Hcalls in *.
      rewrite insert_app_r_alt, Nat.sub_diag in Hpush by lia. exact Hpush.
    + by apply consistent_push.
    + simpl. apply lookup_snoc_Some. by right.
    + intros value expiry Hen. congruence.
  - destruct (calls st !! c) as [cs0|] eqn:Hc; [|done].
    destruct cs0 as [req useCache| | | | | | | | |]; try done.
    destruct failure as [message|].
    { intros ?; simplify_eq. by apply consistent_idle. }
    destruct (deduplicate st req useCache) as [st1 cs] eqn:Hd.
    assert (Hmiss : match redis_get st (getCacheKey req) with
                    | Some cached => String.eqb cached "" = true
                    | None => True
                    end -> Consistent (set_call st1 c cs)).
    { intros Hmiss. eapply consistent_deduplicate; [done..| |done].
      intros value expiry _. by apply redis_get_miss. }
    destruct (redis_get st (getCacheKey req)) as [cached|] eqn:Hget.
    + destruct (String.eqb cached "") eqn:Hempty; simpl; intros ?; simplify_eq.
      * by apply Hmiss.
      * unfold set_call, emit. simpl. by apply consistent_idle.
    + intros ?; simplify_eq. by apply Hmiss.
  - destruct (requests st !! p) as [[key [o|]]|] eqn:Hp; try done.
    intros ?; simplify_eq. by apply consistent_backend.
  - destruct (calls st !! c) as [cs0|] eqn:Hc; [|done].
    destruct cs0 as [|req useCache p| | | | | | | |]; try done.
    destruct (requests st !! p) as [[key [[response|message]|]]|] eqn:Hp; try done.
    + destruct (cacheEnabled config && useCache) eqn:Huse; intros ?; simplify_eq.
      * apply andb_true_iff in Huse as [Hen ->]. by eapply consistent_store.
      * destruct st. eapply (consistent_finish _ _ _ _ _ _ _ _ _ _ Hst Hc); [done| |done].
        left. by split.
    + intros ?; simplify_eq.
      destruct st. eapply (consistent_finish _ _ _ _ _ _ _ _ _ _ Hst Hc); [done| |done].
      left. by split.
  - destruct (calls st !! c) as [cs0|] eqn:Hc; [|done].
    destruct cs0 as [| |req p response| | | | | | |]; try done.
    destruct (stored_settled _ Hst _ _ _ _ Hc) as [key Hp].
    destruct failure as [message|]; intros ?; simplify_eq.
    + destruct st. eapply (consistent_finish _ _ _ _ _ _ _ _ _ _ Hst Hc); [done| |done].
      right. by exists response, message.
    + eapply (consistent_finish _ _ _ _ _ _ _ _ _ _ Hst Hc); [done|left; by split|].
      intros key' Hne. by rewrite lookup_insert_ne.
  - intros ?; simplify_eq. by apply consistent_push.
  - destruct (calls st !! c) as [cs0|] eqn:Hc; [|done].
    destruct cs0; try done.
    destruct failure as [message|]; [intros ?; simplify_eq; by apply consistent_idle|].
    destruct (liveKeys st); intros ?; simplify_eq; unfold set_call, emit; simpl;
      by apply consistent_idle.
  - destruct (calls st !! c) as [cs0|] eqn:Hc; [|done].
    destruct cs0 as [| | | | | |keys| | |]; try done.
    destruct failure as [message|]; intros ?; simplify_eq; [by apply consistent_idle|].
    apply consistent_idle_shrunk; [done..|].
    intros key entry Hentry. by apply lookup_foldr_delete_Some in Hentry as [_ ?].
  - intros ?; simplify_eq. by apply consistent_push.
  - destruct (calls st !! c) as [cs0|] eqn:Hc; [|done].
    destruct cs0; try done. intros ?; simplify_eq. by apply consistent_idle.
Qed.

Lemma run_consistent trace : forall st st',
  Consistent st -> run st trace = Some st' -> Consistent st'.
Proof.
  induction trace as [|e trace IH]; simpl; intros st st' Hst Hrun; [by simplify_eq|].
  destruct (step st e) as [st1|] eqn:Hstep; [|done].
  eauto using step_consistent.
Qed.

Lemma reachable_consistent trace st : run init trace = Some st -> Consistent st.
Proof. apply run_consistent, consistent_init. Qed.

(** *** The clock, the cache entries and settled calls along a run *)

Lemma deduplicate_frame st req useCache :
  clock (deduplicate st req useCache).1 = clock st
  /\ redis (deduplicate st req useCache).1 = redis st.
Proof. unfold deduplicate. by destruct (activeRequests st !! getCacheKey req). Qed.

Lemma step_clock st e st' : step st e = Some st' -> clock st <= clock st'.
Proof.
  destruct e as [seconds|req useCache|c failure|p post|c|c failure| |c failure|c failure
                |req|c result]; simpl.
  - destruct (0 <=? seconds) eqn:Hs; intros ?; simplify_eq/=.
    apply Z.leb_le in Hs. lia.
  - destruct (deduplicate_frame st req useCache) as [Hclock _].
    destruct (deduplicate st req useCache) as [st1 cs].
    destruct (cacheEnabled config && useCache); intros ?; simplify_eq/=; lia.
  - destruct (calls st !! c) as [[req useCache| | | | | | | | |]|]; try done.
    destruct (deduplicate_frame st req useCache) as [Hclock _].
    destruct (deduplicate st req useCache) as [st1 cs].
    destruct failure as [message|]; [intros ?; simplify_eq/=; lia|].
    destruct (redis_get st (getCacheKey req)) as [cached|];
      [destruct (String.eqb cached "")|]; intros ?; simplify_eq/=; lia.
  - destruct (requests st !! p) as [[key [o|]]|]; intros ?; simplify_eq/=. lia.
  - destruct (calls st !! c) as [[|req useCache p| | | | | | | |]|]; try done.
    destruct (requests st !! p) as [[key [[response|message]|]]|]; try done;
      [destruct (cacheEnabled config && useCache)|]; intros ?; simplify_eq/=; lia.
  - destruct (calls st !! c) as [[| |req p response| | | | | | |]|]; try done.
    destruct failure; intros ?; simplify_eq/=; lia.
  - intros ?; simplify_eq/=; lia.
  - destruct (calls st !! c) as [[]|]; try done.
    destruct failure; [|destruct (liveKeys st)]; intros ?; simplify_eq/=; lia.
  - destruct (calls st !! c) as [[]|]; try done.
    destruct failure; intros ?; simplify_eq/=; lia.
  - intros ?; simplify_eq/=; lia.
  - destruct (calls st !! c) as [[]|]; try done. intros ?; simplify_eq/=; lia.
Qed.

Lemma run_clock trace : forall st st', run st trace = Some st' -> clock st <= clock st'.
Proof.
  induction trace as [|e trace IH]; simpl; intros st st' Hrun; [simplify_eq; lia|].
  destruct (step st e) as [st1|] eqn:Hstep; [|done].
  apply step_clock in Hstep. apply IH in Hrun. lia.
Qed.

Lemma step_entry st e st' key value expiry :
  Consistent st ->
  redis st !! key = Some (value, expiry) -> value <> "" ->
  deletion e = false ->
  step st e = Some st' -> clock st' < expiry ->
  redis st' !! key = Some (value, expiry).
Proof.
  intros Hst Hentry Hvalue Hkept.
  destruct e as [seconds|req useCache|c failure|p post|c|c failure| |c failure|c failure
                |req|c result]; simpl.
  - destruct (0 <=? seconds); intros ?; by simplify_eq/=.
  - destruct (deduplicate_frame st req useCache) as [_ Hredis].
    destruct (deduplicate st req useCache) as [st1 cs].
    destruct (cacheEnabled config && useCache); intros ?; simplify_eq/=; congruence.
  - destruct (calls st !! c) as [[req useCache| | | | | | | | |]|]; try done.
    destruct (deduplicate_frame st req useCache) as [_ Hredis].
    destruct (deduplicate st req useCache) as [st1 cs].
    destruct failure as [message|]; [intros ?; by simplify_eq/=|].
    destruct (redis_get st (getCacheKey req)) as [cached|];
      [destruct (String.eqb cached "")|]; intros ?; simplify_eq/=; congruence.
  - destruct (requests st !! p) as [[key' [o|]]|]; intros ?; by simplify_eq/=.
  - destruct (calls st !! c) as [[|req useCache p| | | | | | | |]|]; try done.
    destruct (requests st !! p) as [[key' [[response|message]|]]|]; try done;
      [destruct (cacheEnabled config && useCache)|]; intros ?; by simplify_eq/=.
  - destruct (calls st !! c) as [[| |req p response| | | | | | |]|] eqn:Hc; try done.
    destruct failure as [message|]; [intros ?; by simplify_eq/=|].
    intros ? Hlive; simplify_eq/=.
    rewrite lookup_insert_ne; [done|]. intros <-.
    by apply (live_entry_unowned _ Hst c _ (getCacheKey req) value expiry Hc).
  - intros ?; by simplify_eq/=.
  - destruct (calls st !! c) as [[]|]; try done.
    destruct failure; [|destruct (liveKeys st)]; intros ?; by simplify_eq/=.
  - destruct (calls st !! c) as [[]|]; try done.
    destruct failure; [|done]. intros ?; by simplify_eq/=.
  - intros ?; by simplify_eq/=.
  - destruct (calls st !! c) as [[]|]; try done. intros ?; by simplify_eq/=.
Qed.

Lemma run_entry trace key value expiry : forall st st',
  Consistent st ->
  redis st !! key = Some (value, expiry) -> value <> "" ->
  Forall (fun e => deletion e = false) trace ->
  run st trace = Some st' -> clock st' < expiry ->
  redis st' !! key = Some (value, expiry).
Proof.
  induction trace as [|e trace IH]; simpl; intros st st' Hst Hentry Hvalue Hkept Hrun Hlive;
    [by simplify_eq|].
  destruct (step st e) as [st1|] eqn:Hstep; [|done].
  apply Forall_cons in Hkept as [He Hkept].
  pose proof (run_clock _ _ _ Hrun).
  apply (IH st1 st'); [by eapply step_consistent| |done..].
  eapply step_entry; [done..|lia].
Qed.

Lemma deduplicate_settled st req useCache a via r :
  calls st !! a = Some (Settled via r) ->
  calls (deduplicate st req useCache).1 !! a = Some (Settled via r).
Proof. by rewrite deduplicate_calls. Qed.

Lemma step_settled st e st' a via r :
  calls st !! a = Some (Settled via r) ->
  step st e = Some st' -> calls st' !! a = Some (Settled via r).
Proof.
  intros Ha.
  assert (Hkeep : forall c cs, calls st !! c <> Some (Settled via r) ->
                    <[c := cs]> (calls st) !! a = Some (Settled via r)).
  { intros c cs Hc. rewrite list_lookup_insert_ne; [done|]. by intros ->. }
  destruct e as [seconds|req useCache|c failure|p post|c|c failure| |c failure|c failure
                |req|c result]; simpl.
  - destruct (0 <=? seconds); intros ?; by simplify_eq/=.
  - pose proof (deduplicate_calls st req useCache) as Hcalls.
    destruct (deduplicate st req useCache) as [st1 cs]. simpl in Hcalls.
    destruct (cacheEnabled config && useCache); intros ?; simplify_eq/=;
      rewrite ?Hcalls; apply lookup_app_l_Some; done.
  - destruct (calls st !! c) as [[req useCache| | | | | | | | |]|] eqn:Hc; try done.
    pose proof (deduplicate_calls st req useCache) as Hcalls.
    destruct (deduplicate st req useCache) as [st1 cs]. simpl in Hcalls.
    destruct failure as [message|]; [intros ?; simplify_eq/=; apply Hkeep; congruence|].
    destruct (redis_get st (getCacheKey req)) as [cached|];
      [destruct (String.eqb cached "")|]; intros ?; simplify_eq/=;
      rewrite ?Hcalls; apply Hkeep; congruence.
  - destruct (requests st !! p) as [[key' [o|]]|]; intros ?; by simplify_eq/=.
  - destruct (calls st !! c) as [[|req useCache p| | | | | | | |]|] eqn:Hc; try done.
    destruct (requests st !! p) as [[key' [[response|message]|]]|]; try done;
      [destruct (cacheEnabled config && useCache)|]; intros ?; simplify_eq/=;
      apply Hkeep; congruence.
  - destruct (calls st !! c) as [[| |req p response| | | | | | |]|] eqn:Hc; try done.
    destruct failure; intros ?; simplify_eq/=; apply Hkeep; congruence.
  - intros ?; simplify_eq/=. by apply lookup_app_l_Some.
  - destruct (calls st !! c) as [[]|] eqn:Hc; try done.
    destruct failure; [|destruct (liveKeys st)]; intros ?; simplify_eq/=;
      apply Hkeep; congruence.
  - destruct (calls st !! c) as [[]|] eqn:Hc; try done.
    destruct failure; intros ?; simplify_eq/=; apply Hkeep; congruence.
  - intros ?; simplify_eq/=. by apply lookup_app_l_Some.
  - destruct (calls st !! c) as [[]|] eqn:Hc; try done.
    intros ?; simplify_eq/=; apply Hkeep; congruence.
Qed.

Lemma run_settled trace a via r : forall st st',
  calls st !! a = Some (Settled via r) ->
  run st trace = Some st' -> calls st' !! a = Some (Settled via r).
Proof.
  induction trace as [|e trace IH]; simpl; intros st st' Ha Hrun; [by simplify_eq|].
  destruct (step st e) as [st1|] eqn:Hstep; [|done].
  eauto using step_settled.
Qed.

(** *** Deduplication and caching *)

(** C1 (as amended). In every state the event loop can reach: at most one
    backend request of [generate] per fingerprint is in flight (the posts
    of [streamGenerate] are not among them: each stream posts on its own,
    whatever is in flight); a call that
    reaches the lookup in [activeRequests] while such a request is in flight
    issues no request and is handed that request's promise, so that it
    receives the request's outcome; the originating call receives the same
    outcome, unless it went on to store the response and the store was
    rejected: it then has thrown the store's error while the call handed
    the promise has the response. *)
Theorem one_request_in_flight_per_fingerprint trace st :
  run init trace = Some st ->
  (forall key p q, inFlight st key p -> inFlight st key q -> p = q)
  /\ (forall req useCache p,
        inFlight st (getCacheKey req) p ->
        deduplicate st req useCache = (st, Forwarded p))
  /\ (forall b p rb,
        calls st !! b = Some (Forwarded p) ->
        result st b = Some rb ->
        exists key, requests st !! p = Some (key, Some rb))
  /\ (forall a b p ra rb,
        calls st !! a = Some (Settled (FromRequest p) ra) ->
        calls st !! b = Some (Forwarded p) ->
        result st b = Some rb ->
        ra = rb)
  /\ (forall a b p ra rb,
        calls st !! a = Some (Settled (CacheWriteFailed p) ra) ->
        calls st !! b = Some (Forwarded p) ->
        result st b = Some rb ->
        exists response message, rb = Returned response /\ ra = Thrown message).
Proof.
  intros Hrun. pose proof (reachable_consistent _ _ Hrun) as Hst.
  split; [|split; [|split; [|split]]].
  - intros key p q Hp Hq.
    apply (pending_active _ Hst) in Hp. apply (pending_active _ Hst) in Hq. congruence.
  - intros req useCache p Hp. unfold deduplicate.
    by rewrite (pending_active _ Hst _ _ Hp).
  - intros b p rb Hb. unfold result. rewrite Hb.
    destruct (requests st !! p) as [[key o]|]; [|done]. intros ->. by exists key.
  - intros a b p ra rb Ha Hb. unfold result. rewrite Hb.
    destruct (settled_source _ Hst _ _ _ Ha) as [key ->]. congruence.
  - intros a b p ra rb Ha Hb. unfold result. rewrite Hb.
    destruct (unstored_source _ Hst _ _ _ Ha) as (key & response & message & -> & ->).
    intros [= <-]. by exists response, message.
Qed.

(** The originating call of a request that returned goes on to write the
    cache exactly when caching is enabled and it was called with
    [useCache = true]. *)
Lemma originator_stores st a req useCache p key response :
  calls st !! a = Some (AwaitRequest req useCache p) ->
  requests st !! p = Some (key, Some (Returned response)) ->
  step st (RequestAwaited a)
  = Some (if cacheEnabled config && useCache
          then set_call st a (AwaitCacheSet req p response)
          else finish st a req (FromRequest p) (Returned response)).
Proof. intros Ha Hp. simpl. rewrite Ha, Hp. by destruct (cacheEnabled config && useCache). Qed.

(** A call with [useCache = true] on a caching service suspends at the cache
    lookup without touching the backend. *)
Lemma generate_looks_up_cache st req :
  cacheEnabled config = true ->
  step st (Generate req true) = Some (push_call st (AwaitCacheGet req true)).
Proof. intros Hen. simpl. by rewrite Hen. Qed.

(** C2 (as amended). Once a call that issued its own backend request has
    stored the response (its [redis.set] has been carried out), every call
    with the same fingerprint and [useCache = true] whose cache lookup is
    answered less than 3600 seconds later, no [clearCache] having deleted
    keys in between, settles with the stored response, and no backend
    request is issued for it, whatever is in flight. *)
Theorem cached_result_served_until_expiry
    trace1 st1 a req p response trace2 st3 b req' :
  (forall r, JSON_parse (JSON_stringify r) = Some r) ->
  (forall r, JSON_stringify r <> "") ->
  run init trace1 = Some st1 ->
  calls st1 !! a = Some (AwaitCacheSet req p response) ->
  run st1 (RedisSetReply a None :: trace2) = Some st3 ->
  Forall (fun e => deletion e = false) trace2 ->
  calls st3 !! b = Some (AwaitCacheGet req' true) ->
  getCacheKey req' = getCacheKey req ->
  clock st3 < clock st1 + 3600 ->
  result st3 a = Some (Returned response)
  /\ exists st4,
       step st3 (RedisGetReply b None) = Some st4
       /\ result st4 b = Some (Returned response)
       /\ requests st4 = requests st3
       /\ activeRequests st4 = activeRequests st3.
Proof.
  intros Hround Hnonempty Hrun1 Ha Hrun Hkept Hb Hkey Hlive.
  pose proof (reachable_consistent _ _ Hrun1) as Hst1.
  simpl in Hrun. rewrite Ha in Hrun.
  match type of Hrun with run ?s _ = _ => set (st2 := s) in * end.
  assert (Hst2 : Consistent st2).
  { apply (step_consistent st1 (RedisSetReply a None)); [done|]. simpl. by rewrite Ha. }
  assert (Hentry : redis st3 !! getCacheKey req
                   = Some (JSON_stringify response, clock st1 + 3600)).
  { eapply (run_entry trace2 _ _ _ st2); [done| |done..].
    subst st2. simpl. by rewrite lookup_insert_eq. }
  split.
  - unfold result. erewrite (run_settled trace2 a _ _ st2); [done| |done].
    subst st2. simpl. apply list_lookup_insert_eq. eauto using lookup_lt_Some.
  - simpl. rewrite Hb. unfold redis_get. rewrite Hkey, Hentry.
    apply Z.ltb_lt in Hlive. rewrite Hlive.
    assert (String.eqb (JSON_stringify response) "" = false) as ->.
    { apply String.eqb_neq, Hnonempty. }
    simpl. rewrite Hround. eexists. split; [done|]. simpl.
    unfold result. simpl. rewrite list_lookup_insert_eq by eauto using lookup_lt_Some.
    done.
Qed.

End Facts.

Local Existing Instance example_service.


Lemma one_request_in_flight_per_fingerprint_witness :
  length (requests (example_run shared_trace)) = 1%nat
  /\ calls (example_run shared_trace) !! 0%nat
     = Some (Settled (FromRequest 0) (Returned "text"))
  /\ calls (example_run shared_trace) !! 1%nat = Some (Forwarded 0)
  /\ (forall rb, result (example_run shared_trace) 1 = Some rb -> Returned "text" = rb)
  /\ length (requests (example_run unstorable_trace)) = 1%nat
  /\ calls (example_run unstorable_trace) !! 0%nat
     = Some (Settled (CacheWriteFailed 0) (Thrown "READONLY"))
  /\ result (example_run unstorable_trace) 1 = Some (Returned "text").
Proof.
  assert (Hrun : run init shared_trace = Some (example_run shared_trace))
    by (vm_compute; reflexivity).
  pose proof (one_request_in_flight_per_fingerprint (service := example_service)
                shared_trace (example_run shared_trace) Hrun)
    as (_ & _ & _ & Hsame & _).
  split; [vm_compute; reflexivity|]. split; [vm_compute; reflexivity|].
  split; [vm_compute; reflexivity|].
  split; [intros rb; apply (Hsame 0%nat 1%nat 0%nat); vm_compute; reflexivity|].
  repeat split; vm_compute; reflexivity.
Defined.

(** C1 as stated fails. In [stale_trace] call 2 is made, and its cache
    lookup is answered, while the request of call 1 for the same fingerprint
    is in flight. No request is issued for call 2 (the two requests are
    those of calls 0 and 1), yet call 1 resolves to "new" and call 2 to the
    cached "old". *)
Lemma concurrent_callers_differ :
  inFlight (example_run (take 6 stale_trace)) (prompt_key "topic") 1
  /\ inFlight (example_run (take 8 stale_trace)) (prompt_key "topic") 1
  /\ length (requests (example_run stale_trace)) = 2%nat
  /\ result (example_run stale_trace) 1 = Some (Returned "new")
  /\ result (example_run stale_trace) 2 = Some (Returned "old").
Proof. repeat split; vm_compute; reflexivity. Qed.

Lemma cached_result_served_until_expiry_witness :
  let st3 := example_run (storing_trace ++ RedisSetReply 0%nat None :: later_trace) in
  inFlight st3 (prompt_key "topic") 1
  /\ result st3 0 = Some (Returned "text")
  /\ exists st4,
       step st3 (RedisGetReply 2%nat None) = Some st4
       /\ result st4 2 = Some (Returned "text")
       /\ requests st4 = requests st3
       /\ activeRequests st4 = activeRequests st3.
Proof.
  split; [vm_compute; reflexivity|].
  apply (cached_result_served_until_expiry (service := example_service)
           storing_trace (example_run storing_trace) 0%nat "topic" 0%nat
           "text" later_trace _ 2%nat "topic").
  - intros r. reflexivity.
  - intros r. discriminate.
  - vm_compute. reflexivity.
  - vm_compute. reflexivity.
  - vm_compute. reflexivity.
  - repeat constructor.
  - vm_compute. reflexivity.
  - vm_compute. reflexivity.
  - vm_compute. reflexivity.
Defined.

(** C2 as stated fails. In [unstored_trace] call 1, made with
    [useCache = true], completes successfully with the response of the
    request that call 0 issued with [useCache = false], and nothing is
    written to the cache. Call 2, for the same fingerprint with
    [useCache = true] and at the same instant, misses the cache and issues a
    second backend request. *)
Lemma completed_call_not_cached :
  result (example_run (take 5 unstored_trace)) 1 = Some (Returned "text")
  /\ length (requests (example_run (take 5 unstored_trace))) = 1%nat
  /\ clock (example_run unstored_trace) = 0
  /\ calls (example_run unstored_trace) !! 2%nat = Some (AwaitRequest "topic" true 1)
  /\ inFlight (example_run unstored_trace) (prompt_key "topic") 1
  /\ length (requests (example_run unstored_trace)) = 2%nat.
Proof. repeat split; vm_compute; reflexivity. Qed.

(** What [clearCache] deletes is served no longer. In [cleared_trace] the
    response of call 0 is stored; [clearCache] deletes the key and emits
    the count 1; call 2, made at the same instant for the same fingerprint
    with [useCache = true], misses the cache and issues a second backend
    request. *)
Lemma cleared_cache_misses :
  is_Some (redis (example_run (take 5 cleared_trace)) !! prompt_key "topic")
  /\ redis (example_run (take 8 cleared_trace)) !! prompt_key "topic" = None
  /\ last (emitted (example_run (take 8 cleared_trace))) = Some (CacheCleared 1)
  /\ clock (example_run cleared_trace) = 0
  /\ calls (example_run cleared_trace) !! 2%nat = Some (AwaitRequest "topic" true 1)
  /\ length (requests (example_run cleared_trace)) = 2%nat.
Proof. split; [by eexists|]. repeat split; vm_compute; reflexivity. Qed.

End OllamaServiceFacts.

(** ** JavaScript strings *)

Module JsStringFacts.
Import JsString.

Lemma sall_smap p f s : (forall c, p (f c) = true) -> sall p (smap f s) = true.
Proof. intros Hf. induction s as [|c s IH]; simpl; [done|]. by rewrite Hf, IH. Qed.

Lemma sall_stake p n : forall s, sall p s = true -> sall p (stake n s) = true.
Proof.
  induction n as [|n IH]; intros [|c s]; simpl; try done.
  intros [-> Hs]%andb_true_iff. by rewrite IH.
Qed.

Lemma sall_squeeze p q r s :
  p r = true -> sall p s = true -> sall p (squeeze q r s) = true.
Proof.
  intros Hr. induction s as [|c s IH]; simpl; [done|].
  intros [Hc Hs]%andb_true_iff.
  destruct (q c); [destruct (starts q s)|]; simpl; rewrite ?Hr, ?Hc; auto.
Qed.

Lemma smap_id p f s : (forall c, p c = true -> f c = c) -> sall p s = true -> smap f s = s.
Proof.
  intros Hf. induction s as [|c s IH]; simpl; [done|].
  intros [Hc Hs]%andb_true_iff. by rewrite Hf, IH.
Qed.

Lemma stake_length n : forall s, (String.length (stake n s) <= n)%nat.
Proof. induction n as [|n IH]; intros [|c s]; simpl; try lia. specialize (IH s). lia. Qed.

Lemma stake_all n : forall s, (String.length s <= n)%nat -> stake n s = s.
Proof.
  induction n as [|n IH]; intros [|c s]; simpl; try done; [lia|].
  intros Hlen. rewrite IH; [done|lia].
Qed.

(** Facts about single characters are checked on all 256 of them. *)
Ltac each_char c := destruct c as [[] [] [] [] [] [] [] []].

Lemma eqb_underscore c : Ascii.eqb underscore c = is_underscore c.
Proof. by each_char c. Qed.

Lemma is_underscore_eq c : is_underscore c = true -> c = underscore.
Proof. by each_char c. Qed.

Lemma lower_word c : is_lower c || is_digit c || is_underscore c || is_space c = true ->
  lower c = c.
Proof. by each_char c. Qed.

Lemma lower_lower c : lower (lower c) = lower c.
Proof. by each_char c. Qed.

Lemma starts_squeeze p r s : p r = true -> starts p (squeeze p r s) = starts p s.
Proof.
  intros Hr. induction s as [|c s IH]; simpl; [done|].
  destruct (p c) eqn:Hc; [|by simpl].
  destruct (starts p s) eqn:Hs; simpl; [|done]. by rewrite IH.
Qed.

Lemma startsWith_stake p : forall n s,
  startsWith (stake n s) p = true -> startsWith s p = true.
Proof.
  induction p as [|a p IH]; intros n s; [by destruct s|].
  destruct n as [|n], s as [|b s]; simpl; try done.
  intros [-> Hp]%andb_true_iff. simpl. by eapply IH.
Qed.

Lemma includes_stake needle n : forall s,
  includes s needle = false -> includes (stake n s) needle = false.
Proof.
  induction n as [|n IH]; intros s Hs.
  - destruct s as [|c s], needle as [|a needle]; simpl in *; done.
  - destruct s as [|c s]; [by destruct needle|].
    cbn [includes] in Hs. apply orb_false_iff in Hs as [Hstart Hrest].
    cbn [stake includes]. rewrite (IH s Hrest), orb_false_r.
    destruct (startsWith (String c (stake n s)) needle) eqn:H; [|done].
    apply (startsWith_stake needle (S n) (String c s)) in H. congruence.
Qed.

Lemma startsWith_double s :
  startsWith s "__"
  = match s with
    | String a (String b _) => is_underscore a && is_underscore b
    | _ => false
    end.
Proof.
  destruct s as [|a [|b s]]; cbn [startsWith]; rewrite <- ?eqb_underscore; try done.
  - apply andb_false_r.
  - destruct s; by rewrite andb_true_r.
Qed.

(** No run of two underscores is left by [squeeze]. *)
Lemma includes_squeeze_underscore s :
  includes (squeeze is_underscore underscore s) "__" = false.
Proof.
  induction s as [|c s IH]; [done|]. cbn [squeeze].
  destruct (is_underscore c) eqn:Hc.
  - destruct (starts is_underscore s) eqn:Hs; [done|].
    cbn [includes]. rewrite IH, orb_false_r, startsWith_double.
    pose proof (starts_squeeze is_underscore underscore s eq_refl) as Hstart.
    rewrite Hs in Hstart.
    destruct (squeeze is_underscore underscore s) as [|b s']; [done|].
    simpl in Hstart. by rewrite Hstart, andb_false_r.
  - cbn [includes]. rewrite IH, orb_false_r, startsWith_double.
    destruct (squeeze is_underscore underscore s); [done|]. by rewrite Hc.
Qed.

Lemma squeeze_underscore_id s :
  includes s "__" = false -> squeeze is_underscore underscore s = s.
Proof.
  induction s as [|c s IH]; [done|]. cbn [includes squeeze].
  intros [Hstart Hrest]%orb_false_iff. rewrite (IH Hrest).
  destruct (is_underscore c) eqn:Hc; [|done].
  rewrite startsWith_double in Hstart.
  apply is_underscore_eq in Hc as ->.
  destruct s as [|b s]; [done|]. cbn [starts].
  change (is_underscore underscore) with true in Hstart. simpl in Hstart.
  by rewrite Hstart.
Qed.

Lemma toLowerCase_twice text : toLowerCase (toLowerCase text) = toLowerCase text.
Proof.
  unfold toLowerCase. induction text as [|c text IH]; simpl; [done|].
  by rewrite lower_lower, IH.
Qed.

(** *** Runs of white space *)

Lemma lower_not_upper c : is_upper (lower c) = false.
Proof. by each_char c. Qed.

Lemma word_not_upper c :
  (is_word c || is_space c) && negb (is_upper c)
  = is_lower c || is_digit c || is_underscore c || is_space c.
Proof. by each_char c. Qed.

Lemma eqb_space c : Ascii.eqb c space = true -> is_space c = true.
Proof. by each_char c. Qed.

Lemma eqb_space_eq c : Ascii.eqb c space = true -> c = space.
Proof. by each_char c. Qed.

Lemma sall_impl (p q : Ascii.ascii -> bool) s :
  (forall c, p c = true -> q c = true) -> sall p s = true -> sall q s = true.
Proof.
  intros Hpq. induction s as [|c s IH]; simpl; [done|].
  intros [Hc Hs]%andb_true_iff. by rewrite (Hpq c Hc), IH.
Qed.

Lemma sall_sfilter p q s : sall (fun c => negb (q c) || p c) s = true ->
  sall p (sfilter q s) = true.
Proof.
  induction s as [|c s IH]; simpl; [done|]. intros [Hc Hs]%andb_true_iff.
  destruct (q c); simpl in *; [by rewrite Hc, IH|by apply IH].
Qed.

Lemma sfilter_id p s : sall p s = true -> sfilter p s = s.
Proof.
  induction s as [|c s IH]; simpl; [done|]. intros [-> Hs]%andb_true_iff. by rewrite IH.
Qed.

Lemma spaced_squeeze p r s : p r = true -> spaced p (squeeze p r s) = true.
Proof.
  intros Hr. induction s as [|c s IH]; [done|]. cbn [squeeze].
  destruct (p c) eqn:Hc.
  - destruct (starts p s) eqn:Hs; [done|]. cbn [spaced].
    by rewrite starts_squeeze, Hs, andb_false_r, IH.
  - cbn [spaced]. by rewrite Hc, IH.
Qed.

(** After [squeeze] the characters of the class are all [r]. *)
Lemma sall_squeezed p q r s :
  q r = true -> sall (fun c => p c || q c) s = true -> sall q (squeeze p r s) = true.
Proof.
  intros Hr. induction s as [|c s IH]; [done|]. cbn [squeeze sall].
  intros [Hc Hs]%andb_true_iff. destruct (p c); simpl in Hc.
  - destruct (starts p s); [by apply IH|]. cbn [sall]. by rewrite Hr, IH.
  - cbn [sall]. by rewrite Hc, IH.
Qed.

Lemma squeeze_id p r s :
  spaced p s = true -> sall (fun c => negb (p c) || Ascii.eqb c r) s = true ->
  squeeze p r s = s.
Proof.
  induction s as [|c s IH]; [done|]. cbn [squeeze spaced sall].
  intros [Hc Hs]%andb_true_iff [Hr Hall]%andb_true_iff. rewrite (IH Hs Hall).
  destruct (p c); simpl in *; [|done].
  apply negb_true_iff in Hc. rewrite Hc. by apply Ascii.eqb_eq in Hr as ->.
Qed.

Lemma trimStart_starts s : starts is_space (trimStart s) = false.
Proof.
  induction s as [|c s IH]; [done|]. cbn [trimStart].
  destruct (is_space c) eqn:Hc; [done|]. simpl. done.
Qed.

Lemma trimStart_id s : starts is_space s = false -> trimStart s = s.
Proof. destruct s as [|c s]; simpl; [done|]. by intros ->. Qed.

Lemma trimStart_sall p s : sall p s = true -> sall p (trimStart s) = true.
Proof.
  induction s as [|c s IH]; [done|]. cbn [trimStart]. intros Hs.
  destruct (is_space c); [|done]. apply IH. simpl in Hs.
  by apply andb_true_iff in Hs as [_ ?].
Qed.

Lemma trimStart_spaced p s : spaced p s = true -> spaced p (trimStart s) = true.
Proof.
  induction s as [|c s IH]; [done|]. cbn [trimStart]. intros Hs.
  destruct (is_space c); [|done]. apply IH. simpl in Hs.
  by apply andb_true_iff in Hs as [_ ?].
Qed.

Lemma trimEnd_starts p s : starts p s = false -> starts p (trimEnd s) = false.
Proof.
  destruct s as [|c s]; [done|]. cbn [trimEnd starts]. intros Hc.
  destruct (trimEnd s); [destruct (is_space c)|]; simpl; done.
Qed.

Lemma trimEnd_sall p s : sall p s = true -> sall p (trimEnd s) = true.
Proof.
  induction s as [|c s IH]; [done|]. cbn [trimEnd sall].
  intros [Hc Hs]%andb_true_iff. specialize (IH Hs).
  destruct (trimEnd s); [destruct (is_space c)|]; simpl in *; by rewrite ?Hc, ?IH.
Qed.

Lemma starts_trimEnd p s : starts p (trimEnd s) = true -> starts p s = true.
Proof.
  destruct s as [|c s]; [done|]. cbn [trimEnd starts].
  destruct (trimEnd s); [destruct (is_space c)|]; simpl; done.
Qed.

Lemma trimEnd_spaced p s : spaced p s = true -> spaced p (trimEnd s) = true.
Proof.
  induction s as [|c s IH]; [done|]. cbn [trimEnd spaced].
  intros [Hc Hs]%andb_true_iff. specialize (IH Hs).
  pose proof (starts_trimEnd p s) as Hstart.
  destruct (trimEnd s) as [|b kept].
  { destruct (is_space c); cbn [spaced starts]; [done|by rewrite andb_false_r]. }
  cbn [spaced] in *. rewrite IH, andb_true_r.
  destruct (p c); [|done]. simpl in *. destruct (p b); [|done].
  by rewrite Hstart in Hc.
Qed.

Lemma trimEnd_cons c s :
  trimEnd (String c s)
  = match trimEnd s with
    | EmptyString => if is_space c then EmptyString else String c EmptyString
    | kept => String c kept
    end.
Proof. done. Qed.

Lemma trimEnd_idempotent s : trimEnd (trimEnd s) = trimEnd s.
Proof.
  induction s as [|c s IH]; [done|]. rewrite trimEnd_cons.
  destruct (trimEnd s) as [|b kept] eqn:Hkept.
  - destruct (is_space c) eqn:Hc; [done|]. rewrite trimEnd_cons. cbn [trimEnd].
    by rewrite Hc.
  - by rewrite trimEnd_cons, IH.
Qed.

Lemma eqb_space_class c : Ascii.eqb space c = true -> is_space c = true.
Proof. by each_char c. Qed.

Lemma startsWith_spaces s :
  startsWith s "  "
  = match s with
    | String a (String b _) => Ascii.eqb space a && Ascii.eqb space b
    | _ => false
    end.
Proof.
  destruct s as [|a [|b s]]; cbn [startsWith]; try done.
  - apply andb_false_r.
  - destruct s; by rewrite andb_true_r.
Qed.

(** A string in which no two white-space characters meet has no two
    spaces in a row. *)
Lemma includes_spaced s : spaced is_space s = true -> includes s "  " = false.
Proof.
  induction s as [|a s IH]; [done|]. cbn [spaced includes].
  intros [Ha Hs]%andb_true_iff. rewrite (IH Hs), orb_false_r, startsWith_spaces.
  destruct s as [|b s]; [done|]. cbn [starts] in Ha.
  destruct (Ascii.eqb space a) eqn:H1; [|done].
  destruct (Ascii.eqb space b) eqn:H2; [|done].
  by rewrite (eqb_space_class a H1), (eqb_space_class b H2) in Ha.
Qed.

(** *** Sets of strings, in insertion order *)

Lemma firsts_elem items : forall seen item,
  item ∈ firsts seen items <-> item ∈ items /\ item ∉ seen.
Proof.
  induction items as [|x items IH]; intros seen item; cbn [firsts].
  - split; [by intros ?%elem_of_nil|by intros [?%elem_of_nil _]].
  - destruct (bool_decide (x ∈ seen)) eqn:Hx.
    + apply bool_decide_eq_true in Hx. rewrite IH. split.
      * intros [? ?]. split; [by constructor|done].
      * intros [[->|?]%elem_of_cons ?]; done.
    + apply bool_decide_eq_false in Hx. rewrite elem_of_cons, IH. split.
      * intros [->|[? Hnot]]; [split; [constructor|done]|].
        split; [by constructor|]. intros ?. apply Hnot. by constructor.
      * intros [[->|?]%elem_of_cons Hnot]; [by left|].
        destruct (decide (item = x)) as [->|Hne]; [by left|]. right. split; [done|].
        by intros [?|?]%elem_of_cons.
Qed.

Lemma firsts_NoDup items : forall seen, NoDup (firsts seen items).
Proof.
  induction items as [|x items IH]; intros seen; cbn [firsts]; [constructor|].
  destruct (bool_decide (x ∈ seen)); [done|]. constructor; [|done].
  rewrite firsts_elem. intros [_ Hnot]. apply Hnot. constructor.
Qed.

Lemma firsts_length items : forall seen, (length (firsts seen items) <= length items)%nat.
Proof.
  induction items as [|x items IH]; intros seen; cbn [firsts]; [done|].
  destruct (bool_decide (x ∈ seen)); simpl.
  - specialize (IH seen). lia.
  - specialize (IH (x :: seen)). lia.
Qed.

Lemma foldl_firsts items : forall keys seen,
  (forall x, x ∈ keys <-> x ∈ seen) ->
  foldl (fun keys key => if bool_decide (key ∈ keys) then keys else keys ++ [key]) keys items
  = keys ++ firsts seen items.
Proof.
  induction items as [|x items IH]; intros keys seen Hsame; cbn [foldl firsts].
  - by rewrite app_nil_r.
  - rewrite (bool_decide_ext _ _ (Hsame x)). destruct (bool_decide (x ∈ seen)).
    + by apply IH.
    + rewrite (IH _ (x :: seen)); [by rewrite <- app_assoc|].
      intros y. rewrite elem_of_app, list_elem_of_singleton, elem_of_cons, Hsame. tauto.
Qed.

End JsStringFacts.

(** ** The workflow manager *)

Module WorkflowManagerFacts.
Import Js WorkflowManager.

(** *** The assignments an operation makes to a workflow object *)

Local Arguments updateStageProgress : simpl never.

Local Arguments recordError : simpl never.

Local Arguments modify : simpl never.

Local Arguments crawlProgress : simpl never.

Local Arguments runTestsWithRetry : simpl never.

Local Arguments documentStep : simpl never.

Local Arguments enter : simpl never.

Lemma Log_same P m m' : workflows m' = workflows m -> Log P m m'.
Proof.
  intros Heq sid. exists []. rewrite Heq. split; [|done].
  by destruct (workflows m !! sid).
Qed.

Lemma Log_trans P m1 m2 m3 : Log P m1 m2 -> Log P m2 m3 -> Log P m1 m3.
Proof.
  intros H12 H23 sid.
  destruct (H12 sid) as (mus1 & Hw2 & HP1). destruct (H23 sid) as (mus2 & Hw3 & HP2).
  exists (mus1 ++ mus2). split; [|by apply Forall_app].
  rewrite Hw3, Hw2. destruct (workflows m1 !! sid); simpl; [|done].
  by rewrite foldl_app.
Qed.

Lemma Log_one P m m' sessionId mu :
  P sessionId mu ->
  (forall sid, workflows m' !! sid
               = (if decide (sid = sessionId) then fun w => mutate w mu else id)
                 <$> workflows m !! sid) ->
  Log P m m'.
Proof.
  intros HP Hm' sid. rewrite Hm'.
  destruct (decide (sid = sessionId)) as [->|]; [exists [mu]|exists []];
    (split; [|by repeat constructor]); by destruct (workflows m !! _).
Qed.

Lemma Log_modify P m sessionId mu :
  P sessionId mu -> Log P m (modify m sessionId (fun w => mutate w mu)).
Proof.
  intros HP. apply (Log_one P _ _ sessionId mu HP). intros sid. simpl.
  rewrite lookup_alter. destruct (decide (sessionId = sid)) as [->|Hne].
  - by rewrite decide_True.
  - rewrite decide_False by done. by destruct (workflows m !! sid).
Qed.

Lemma Log_update P m sessionId s st p d :
  P sessionId (Touch s (clock m) st p d) ->
  Log P m (updateStageProgress m sessionId s st p d).
Proof.
  intros HP. unfold updateStageProgress.
  destruct (workflows m !! sessionId) as [w0|] eqn:Hw0; [|by apply Log_same].
  apply (Log_one P _ _ sessionId (Touch s (clock m) st p d) HP). intros sid. simpl.
  destruct (decide (sid = sessionId)) as [->|Hne].
  - by rewrite lookup_insert_eq, Hw0.
  - rewrite lookup_insert_ne by done. by destruct (workflows m !! sid).
Qed.

Lemma updateStageProgress_clock m sessionId s st p d :
  clock (updateStageProgress m sessionId s st p d) = clock m.
Proof. unfold updateStageProgress. by destruct (workflows m !! sessionId). Qed.

Lemma Log_record P m sessionId s message :
  P sessionId (Note s (clock m) message) ->
  P sessionId (Touch s (clock m) failed 0 None) ->
  Log P m (recordError m sessionId s message).
Proof.
  intros HP1 HP2. unfold recordError.
  destruct (workflows m !! sessionId) as [w0|] eqn:Hw0; [|by apply Log_same].
  set (m1 := modify m sessionId _).
  assert (Log P m m1) as H1.
  { apply (Log_one P _ _ sessionId (Note s (clock m) message) HP1). intros sid.
    simpl. rewrite lookup_alter. destruct (decide (sessionId = sid)) as [->|Hne].
    - rewrite decide_True by done. by rewrite Hw0.
    - rewrite decide_False by done. by destruct (workflows m !! sid). }
  assert (Log P m1 (updateStageProgress m1 sessionId s failed 0 None)) as H2.
  { by apply Log_update. }
  eapply Log_trans; [exact H1|]. eapply Log_trans; [exact H2|].
  match goal with |- Log _ _ (match ?x with _ => _ end) => destruct x end;
    by apply Log_same.
Qed.

Lemma Log_refl P m : Log P m m.
Proof. by apply Log_same. Qed.

Lemma Log_then_same P m0 m m' :
  workflows m' = workflows m -> Log P m0 m -> Log P m0 m'.
Proof. intros Heq Hlog. eapply Log_trans; [exact Hlog|]. by apply Log_same. Qed.

Lemma Log_then_update P m0 m sessionId s st p d :
  P sessionId (Touch s (clock m) st p d) -> Log P m0 m ->
  Log P m0 (updateStageProgress m sessionId s st p d).
Proof. intros HP Hlog. eapply Log_trans; [exact Hlog|]. by apply Log_update. Qed.

Lemma Log_then_record P m0 m sessionId s message :
  P sessionId (Note s (clock m) message) ->
  P sessionId (Touch s (clock m) failed 0 None) ->
  Log P m0 m -> Log P m0 (recordError m sessionId s message).
Proof. intros HP1 HP2 Hlog. eapply Log_trans; [exact Hlog|]. by apply Log_record. Qed.

Lemma Log_then_modify P m0 m sessionId mu :
  P sessionId mu -> Log P m0 m -> Log P m0 (modify m sessionId (fun w => mutate w mu)).
Proof. intros HP Hlog. eapply Log_trans; [exact Hlog|]. by apply Log_modify. Qed.

Lemma Log_then_saved P m0 m sessionId :
  Log P m0 m ->
  Log P m0 match workflows m !! sessionId with
           | Some w => saveWorkflowState m w
           | None => m
           end.
Proof. intros Hlog. by destruct (workflows m !! sessionId); [eapply Log_then_same|]. Qed.

Lemma Log_then_enter P m0 m sessionId s :
  P sessionId (Enter s) -> Log P m0 m -> Log P m0 (enter m sessionId s).
Proof.
  intros HP Hlog. unfold enter. destruct (workflows m !! sessionId); [|done].
  apply (Log_then_same P m0 (modify m sessionId (fun w => mutate w (Enter s))));
    [done|]. by apply Log_then_modify.
Qed.

Lemma updateStageProgress_listeners m sessionId s st p d :
  crawlListeners (updateStageProgress m sessionId s st p d) = crawlListeners m.
Proof. unfold updateStageProgress. by destruct (workflows m !! sessionId). Qed.

Lemma crawl_listeners l : forall m,
  crawlListeners (foldl onCrawlProgress m l) = crawlListeners m.
Proof.
  induction l as [|sid l IH]; intros m; simpl; [done|].
  rewrite IH. apply updateStageProgress_listeners.
Qed.

Lemma crawls_listeners n m : crawlListeners (Nat.iter n crawlProgress m) = crawlListeners m.
Proof.
  induction n as [|n IH]; simpl; [done|]. unfold crawlProgress at 1.
  by rewrite crawl_listeners.
Qed.

Lemma Log_then_crawl P m0 l : forall m,
  (forall sid now p, sid ∈ l -> P sid (Touch RESEARCH now in_progress p None)) ->
  Log P m0 m -> Log P m0 (foldl onCrawlProgress m l).
Proof.
  induction l as [|sid l IH]; intros m HP Hlog; simpl; [done|].
  apply IH; [intros sid' now p Hin; apply HP; by constructor|].
  apply Log_then_update; [|done]. apply HP. constructor.
Qed.

Lemma Log_then_crawls P m0 n m :
  (forall sid now p, sid ∈ crawlListeners m -> P sid (Touch RESEARCH now in_progress p None)) ->
  Log P m0 m -> Log P m0 (Nat.iter n crawlProgress m).
Proof.
  intros HP Hlog. induction n as [|n IH]; simpl; [done|]. unfold crawlProgress at 1.
  apply Log_then_crawl; [|done]. intros sid now p Hin. apply HP.
  by rewrite crawls_listeners in Hin.
Qed.

Lemma testLoop_workflows tests maxRetries remaining : forall m attempt lastError,
  workflows (testLoop m tests maxRetries remaining attempt lastError).1 = workflows m.
Proof.
  induction remaining as [|remaining IH]; intros m attempt lastError; simpl; [done|].
  destruct (outcome (tests attempt)) as [testResults|message]; simpl.
  - destruct (read testResults "failed") as [f|message]; simpl.
    + destruct (is_zero f); simpl; [done|].
      rewrite IH. by destruct (attempt <? maxRetries - 1).
    + rewrite IH. by destruct (attempt <? maxRetries - 1).
  - rewrite IH. by destruct (attempt <? maxRetries - 1).
Qed.

Lemma Log_then_documentStep P m0 wanted generated type format p sessionId state :
  (forall now, P sessionId (Touch DOCUMENTATION now in_progress p None)) ->
  Log P m0 state.1 ->
  Log P m0 (documentStep wanted generated type format p sessionId state).1.
Proof.
  intros HP Hlog. unfold documentStep. destruct state as [m [documents|message]]; [|done].
  destruct wanted; [|done]. unfold await.
  destruct (outcome generated) as [data|message]; simpl in *.
  - apply Log_then_update; [done|]. by eapply Log_then_same.
  - by eapply Log_then_same.
Qed.

Ltac log_side := first [done | split; [first [done|by left]|simpl; set_solver] ].

Ltac log_step :=
  first
    [ assumption
    | apply Log_refl
    | apply Log_then_update; [log_side|]
    | apply Log_then_record; [log_side|log_side|]
    | apply Log_then_documentStep; [intros; log_side|]
    | match goal with
      | |- Log _ _ (match ?x with Some _ => _ | None => _ end) => destruct x
      | |- Log ?P ?m0 (advance ?m _) => apply (Log_then_same P m0 m); [reflexivity|]
      | |- Log ?P ?m0 (saveWorkflowState ?m _) => apply (Log_then_same P m0 m); [reflexivity|]
      | |- Log ?P ?m0 (mkManager (clock ?m) (workflows ?m) _ _ _ _) =>
          apply (Log_then_same P m0 m); [reflexivity|]
      | |- Log ?P ?m0 (enter ?m ?sid ?s) => apply (Log_then_enter P m0 m sid s); [log_side|]
      | |- Log ?P ?m0 (modify ?m ?sid (set_projectId ?v)) =>
          apply (Log_then_modify P m0 m sid (Project v)); [log_side|]
      end ].

(** Every operation changes the workflows it finds only by assignments it
    is permitted, and only those it is addressed to. *)
Lemma perform_log m op :
  exists m1, workflows m1 = prepared m op
             /\ Log (fun sid mu => addressed m op sid /\ permitted op mu) m1 (perform m op).
Proof.
  destruct op as [topic clarifications saved plan|sid crawls results|sid refined|sid env
                 |sid tested resultsSaved|sid format env|sid saved]; simpl in *.
  - eexists (set_workflows m _). split; [reflexivity|].
    unfold createResearchPlan, await. fold (newSessionId m).
    destruct (outcome saved) as [[]|message]; simpl; [|by repeat log_step].
    destruct (outcome plan) as [p|message]; simpl; by repeat log_step.
  - exists m. split; [done|].
    unfold executeResearch, executeResearch_begin.
    destruct (workflows m !! sid) as [w0|] eqn:Hw0; [|by apply Log_refl].
    unfold executeResearch_end, await.
    destruct (outcome results) as [r|message]; simpl; repeat log_step;
      (apply Log_then_crawls;
       [simpl; intros sid' now p [Hin| ->%list_elem_of_singleton]%elem_of_app;
        (split; [by auto|simpl; set_solver])|]);
      repeat log_step.
  - exists m. split; [done|].
    unfold refineResearch, await.
    destruct (workflows m !! sid) as [w0|] eqn:Hw0; [|by apply Log_refl].
    destruct (outcome refined) as [r|message]; simpl; repeat log_step.
  - exists m. split; [done|].
    unfold startDevelopment.
    destruct (workflows m !! sid) as [w0|] eqn:Hw0; [|by apply Log_refl].
    set (Q := fun sid' mu => sid' = sid /\ permitted (StartDevelopment sid env) mu).
    set (m2 := updateStageProgress _ sid DEVELOPMENT in_progress 10 None).
    assert (Log Q m m2) as H2 by (subst m2 Q; repeat log_step).
    assert (Log Q m (develop m2 sid env).1) as Hdev.
    { unfold develop, await.
      destruct (outcome (researchData env)) as [[research|]|message]; simpl;
        [|subst Q; by repeat log_step..].
      destruct (projectPayload research (stringify env)) as [payload|message];
        simpl; [|subst Q; by repeat log_step].
      destruct (outcome (projectCreated env)) as [project|message]; simpl;
        [|subst Q; by repeat log_step].
      destruct (read project "id") as [id|message]; simpl;
        [|subst Q; by repeat log_step].
      destruct (outcome (codeGenerated env)) as [[]|message]; simpl;
        [|subst Q; by repeat log_step].
      match goal with |- context [runTestsWithRetry ?m0 ?t] =>
        set (m6 := m0); pose proof (testLoop_workflows t 3 3 m6 0 None) as Htests;
        fold (runTestsWithRetry m6 t) in Htests;
        assert (Log Q m m6) as H6 by (subst m6 Q; repeat log_step);
        clearbody m6;
        destruct (runTestsWithRetry m6 t) as [m7 [tested|message]] end; simpl in *.
      + assert (Log Q m m7) as H7 by (by eapply Log_then_same).
        subst Q.
        match goal with |- context [enter ?m0 sid TESTING] =>
          assert (Log (fun sid' mu => sid' = sid
                                      /\ permitted (StartDevelopment sid env) mu)
                      m (enter m0 sid TESTING)) as H9 by repeat log_step;
          destruct (workflows (enter m0 sid TESTING) !! sid) end; simpl;
          by repeat log_step.
      + by eapply Log_then_same. }
    destruct (develop m2 sid env) as [m3 [[]|message]]; simpl in *; [done|].
    subst Q; by repeat log_step.
  - exists m. split; [done|].
    unfold runTests.
    destruct (workflows m !! sid) as [w0|] eqn:Hw0; [|by apply Log_refl].
    destruct (negb (truthy (projectId (metadata w0)))); [by apply Log_refl|].
    unfold test, await.
    destruct (outcome tested) as [testResults|message]; simpl;
      [destruct (outcome resultsSaved) as [[]|message]; simpl;
       [destruct (read testResults "failed") as [f|message]; simpl|]|];
      repeat log_step.
  - exists m. split; [done|].
    unfold generateDocuments.
    destruct (workflows m !! sid) as [w0|] eqn:Hw0; [|by apply Log_refl].
    set (Q := fun sid' mu => sid' = sid /\ permitted (GenerateDocuments sid format env) mu).
    match goal with |- context [documentStep ?a ?b ?c ?d 90 sid ?st] =>
      assert (Log Q m (documentStep a b c d 90 sid st).1) as H5
        by (subst Q; repeat log_step);
      destruct (documentStep a b c d 90 sid st) as [m5 [generated|message]] end;
      simpl in *; [|subst Q; by repeat log_step].
    match goal with |- context [enter ?m0 sid COMPLETED] =>
      assert (Log Q m (enter m0 sid COMPLETED)) as H9 by (subst Q; repeat log_step);
      destruct (workflows (enter m0 sid COMPLETED) !! sid) end; unfold await; simpl.
    + destruct (outcome (documentsSaved env)) as [[]|message]; simpl;
        subst Q; by repeat log_step.
    + done.
  - unfold getWorkflowStatus, await.
    destruct (workflows m !! sid) as [w0|] eqn:Hw0.
    { exists m. split; [done|]. by apply Log_refl. }
    destruct (outcome saved) as [[w|]|message]; simpl.
    + eexists (set_workflows m _). split; [reflexivity|]. by apply Log_same.
    + exists m. split; [done|]. by apply Log_same.
    + exists m. split; [done|]. by apply Log_same.
Qed.

(** A workflow found by the operation is not replaced by the one the
    operation stores. *)
Lemma prepared_lookup m op sessionId w :
  fresh m op -> workflows m !! sessionId = Some w -> prepared m op !! sessionId = Some w.
Proof.
  intros Hfresh Hw. destruct op as [topic clarifications saved0 plan| | | | | |sid saved];
    simpl in *; try done.
  - rewrite lookup_insert_ne; [done|]. congruence.
  - destruct (workflows m !! sid) as [w0|] eqn:Hw0; [done|].
    destruct (outcome saved) as [[w1|]|message]; try done.
    rewrite lookup_insert_ne; [done|]. congruence.
Qed.

Lemma perform_existing m op sessionId w :
  fresh m op -> workflows m !! sessionId = Some w ->
  exists mus, workflows (perform m op) !! sessionId = Some (foldl mutate w mus)
              /\ Forall (fun mu => addressed m op sessionId /\ permitted op mu) mus.
Proof.
  intros Hfresh Hw. destruct (perform_log m op) as (m1 & Hm1 & Hlog).
  destruct (Hlog sessionId) as (mus & Hw' & Hmus). exists mus. split; [|done].
  by rewrite Hw', Hm1, (prepared_lookup _ _ _ _ Hfresh Hw).
Qed.

(** *** currentStage *)

Lemma currentStage_foldl mus : forall w,
  currentStage (foldl mutate w mus) = currentStage w
  \/ Enter (currentStage (foldl mutate w mus)) ∈ mus.
Proof.
  induction mus as [|mu mus IH]; intros w; simpl; [by left|].
  destruct (IH (mutate w mu)) as [Heq|Hin]; [|right; by constructor].
  rewrite Heq. destruct mu; simpl; auto. right. constructor.
Qed.

Lemma perform_in_order m op sessionId w :
  in_order m op ->
  workflows m !! sessionId = Some w ->
  exists w', workflows (perform m op) !! sessionId = Some w'
             /\ (stage_index (currentStage w) <= stage_index (currentStage w'))%nat.
Proof.
  intros [Hfresh Horder] Hw.
  destruct (perform_existing m op _ _ Hfresh Hw) as (mus & Hw' & Hmus).
  exists (foldl mutate w mus). split; [done|].
  destruct (currentStage_foldl mus w) as [->|Hin]; [done|].
  rewrite Forall_forall in Hmus. destruct (Hmus _ Hin) as [Haddr Hperm].
  simpl in Hperm. destruct op; simpl in *; try by apply not_elem_of_nil in Hperm.
  - subst. specialize (Horder _ Hw).
    apply list_elem_of_In in Hperm. simpl in Hperm.
    destruct Hperm as [<-|[<-|[]]]; simpl in *; lia.
  - subst. specialize (Horder _ Hw).
    apply list_elem_of_In in Hperm. simpl in Hperm.
    destruct Hperm as [<-|[<-|[]]]; simpl in *; lia.
Qed.

(** *** The assignments to currentStage, one by one *)

Lemma Quiet_refl m : Quiet m m.
Proof. by split. Qed.

Lemma Quiet_trans m1 m2 m3 : Quiet m1 m2 -> Quiet m2 m3 -> Quiet m1 m3.
Proof.
  intros [Hlog12 Hstage12] [Hlog23 Hstage23]. split; [congruence|].
  intros sid. by rewrite Hstage23.
Qed.

Lemma Quiet_same m m' :
  workflows m' = workflows m -> stageLog m' = stageLog m -> Quiet m m'.
Proof. intros Hw Hlog. split; [done|]. intros sid. unfold stageOf. by rewrite Hw. Qed.

Lemma Quiet_modify m sessionId f :
  (forall w, currentStage (f w) = currentStage w) -> Quiet m (modify m sessionId f).
Proof.
  intros Hf. split; [done|]. intros sid. unfold stageOf, modify. simpl.
  destruct (decide (sessionId = sid)) as [->|Hne].
  - rewrite lookup_alter_eq. destruct (workflows m !! sid); simpl; [|done]. by rewrite Hf.
  - by rewrite lookup_alter_ne.
Qed.

Lemma Quiet_update m sessionId s st p d :
  Quiet m (updateStageProgress m sessionId s st p d).
Proof.
  unfold updateStageProgress.
  destruct (workflows m !! sessionId) as [w0|] eqn:Hw0; [|apply Quiet_refl].
  split; [done|]. intros sid. unfold stageOf. simpl.
  destruct (decide (sessionId = sid)) as [->|Hne].
  - by rewrite lookup_insert_eq, Hw0.
  - by rewrite lookup_insert_ne.
Qed.

Lemma Quiet_record m sessionId s message : Quiet m (recordError m sessionId s message).
Proof.
  unfold recordError.
  destruct (workflows m !! sessionId) as [w0|] eqn:Hw0; [|apply Quiet_refl].
  cbv zeta. set (m1 := modify m sessionId _).
  set (m2 := updateStageProgress m1 sessionId s failed 0 None).
  assert (Quiet m m2) as H2.
  { apply (Quiet_trans m m1); [by apply Quiet_modify|apply Quiet_update]. }
  destruct (workflows m2 !! sessionId); [|done].
  eapply Quiet_trans; [exact H2|]. by apply Quiet_same.
Qed.

Lemma Quiet_then_same m0 m m' :
  workflows m' = workflows m -> stageLog m' = stageLog m -> Quiet m0 m -> Quiet m0 m'.
Proof. intros Hw Hlog Hquiet. eapply Quiet_trans; [exact Hquiet|]. by apply Quiet_same. Qed.

Lemma Quiet_then_update m0 m sessionId s st p d :
  Quiet m0 m -> Quiet m0 (updateStageProgress m sessionId s st p d).
Proof. intros Hquiet. eapply Quiet_trans; [exact Hquiet|]. apply Quiet_update. Qed.

Lemma Quiet_then_record m0 m sessionId s message :
  Quiet m0 m -> Quiet m0 (recordError m sessionId s message).
Proof. intros Hquiet. eapply Quiet_trans; [exact Hquiet|]. apply Quiet_record. Qed.

Lemma Quiet_then_crawl m0 l : forall m,
  Quiet m0 m -> Quiet m0 (foldl onCrawlProgress m l).
Proof.
  induction l as [|sid l IH]; intros m Hquiet; simpl; [done|].
  apply IH. by apply Quiet_then_update.
Qed.

Lemma Quiet_then_crawls m0 n m : Quiet m0 m -> Quiet m0 (Nat.iter n crawlProgress m).
Proof.
  intros Hquiet. induction n as [|n IH]; simpl; [done|]. by apply Quiet_then_crawl.
Qed.

Lemma Quiet_testLoop tests maxRetries remaining : forall m attempt lastError,
  Quiet m (testLoop m tests maxRetries remaining attempt lastError).1.
Proof.
  induction remaining as [|remaining IH]; intros m attempt lastError; simpl;
    [apply Quiet_refl|].
  assert (Quiet m (if attempt <? maxRetries - 1
                   then advance (advance m (elapsed (tests attempt))) 5000
                   else advance m (elapsed (tests attempt)))) as Hpause.
  { by destruct (attempt <? maxRetries - 1); apply Quiet_same. }
  destruct (outcome (tests attempt)) as [testResults|message]; simpl.
  - destruct (read testResults "failed") as [f|message]; simpl.
    + destruct (is_zero f); simpl; [by apply Quiet_same|].
      eapply Quiet_trans; [exact Hpause|apply IH].
    + eapply Quiet_trans; [exact Hpause|apply IH].
  - eapply Quiet_trans; [exact Hpause|apply IH].
Qed.

Lemma Quiet_then_documentStep m0 wanted generated type format p sessionId state :
  Quiet m0 state.1 ->
  Quiet m0 (documentStep wanted generated type format p sessionId state).1.
Proof.
  intros Hquiet. unfold documentStep. destruct state as [m [documents|message]]; [|done].
  destruct wanted; [|done]. unfold await.
  destruct (outcome generated) as [data|message]; simpl in *.
  - apply Quiet_then_update. by eapply Quiet_then_same.
  - by eapply Quiet_then_same.
Qed.

Ltac quiet_step :=
  first
    [ assumption
    | apply Quiet_refl
    | apply Quiet_then_update
    | apply Quiet_then_record
    | apply Quiet_then_documentStep
    | apply Quiet_then_crawls
    | match goal with
      | |- Quiet _ (match ?x with Some _ => _ | None => _ end) => destruct x
      | |- Quiet ?m0 (advance ?m _) =>
          apply (Quiet_then_same m0 m); [reflexivity|reflexivity|]
      | |- Quiet ?m0 (saveWorkflowState ?m _) =>
          apply (Quiet_then_same m0 m); [reflexivity|reflexivity|]
      | |- Quiet ?m0 (set_workflows ?m (prepared ?m ?op)) => fail
      | |- Quiet ?m0 (mkManager (clock ?m) (workflows ?m) _ _ _ (stageLog ?m)) =>
          apply (Quiet_then_same m0 m); [reflexivity|reflexivity|]
      | |- Quiet ?m0 (modify ?m ?sid (set_projectId ?v)) =>
          apply (Quiet_trans m0 m); [|by apply Quiet_modify]
      end ].

Lemma Quiet_assignments m m' :
  Quiet m m' ->
  exists assignments,
    stageLog m' = stageLog m ++ assignments /\ Forall forward assignments.
Proof. intros [Hlog _]. exists []. by rewrite app_nil_r. Qed.

(** An assignment is logged with the stage it replaces. *)
Lemma enter_assignment m sessionId s0 s :
  stageOf m sessionId = Some s0 ->
  stageLog (enter m sessionId s) = stageLog m ++ [mkStageAssignment sessionId s0 s]
  /\ stageOf (enter m sessionId s) sessionId = Some s.
Proof.
  unfold stageOf, enter. destruct (workflows m !! sessionId) as [w|] eqn:Hw; [|done].
  simpl. intros [= <-]. split; [done|]. by rewrite lookup_alter_eq, Hw.
Qed.

(** From one assignment to the next of an operation nothing else is
    assigned: at the second the stage is the one the first has set. *)
Lemma entered_twice m m' m'' sessionId s0 s1 s2 :
  stageOf m sessionId = Some s0 ->
  (stage_index s0 <= stage_index s1)%nat -> (stage_index s1 <= stage_index s2)%nat ->
  Quiet (enter m sessionId s1) m' ->
  Quiet m' m'' \/ (exists m1, Quiet m' m1 /\ Quiet (enter m1 sessionId s2) m'') ->
  exists assignments,
    stageLog m'' = stageLog m ++ assignments /\ Forall forward assignments.
Proof.
  intros Hs0 H01 H12 Hfirst Hrest.
  destruct (enter_assignment m sessionId s0 s1 Hs0) as [Hlog1 Hs1].
  destruct Hrest as [Hquiet|(m1 & Hquiet1 & Hquiet2)].
  - exists [mkStageAssignment sessionId s0 s1].
    destruct (Quiet_trans _ _ _ Hfirst Hquiet) as [-> _].
    split; [done|]. by repeat constructor.
  - destruct (Quiet_trans _ _ _ Hfirst Hquiet1) as [Hlog Hstage].
    destruct (enter_assignment m1 sessionId s1 s2) as [Hlog2 _];
      [by rewrite Hstage|].
    exists [mkStageAssignment sessionId s0 s1; mkStageAssignment sessionId s1 s2].
    destruct Hquiet2 as [-> _]. rewrite Hlog2, Hlog, Hlog1, <- app_assoc.
    split; [done|]. by repeat constructor.
Qed.

Lemma develop_assignments m sessionId env :
  Quiet m (develop m sessionId env).1
  \/ exists m1, Quiet m m1 /\ Quiet (enter m1 sessionId TESTING) (develop m sessionId env).1.
Proof.
  unfold develop, await.
  destruct (outcome (researchData env)) as [[research|]|message]; simpl;
    [|left; by repeat quiet_step..].
  destruct (projectPayload research (stringify env)) as [payload|message];
    simpl; [|left; by repeat quiet_step].
  destruct (outcome (projectCreated env)) as [project|message]; simpl;
    [|left; by repeat quiet_step].
  destruct (read project "id") as [id|message]; simpl; [|left; by repeat quiet_step].
  destruct (outcome (codeGenerated env)) as [[]|message]; simpl;
    [|left; by repeat quiet_step].
  match goal with |- context [runTestsWithRetry ?m0 ?t] =>
    set (m6 := m0); pose proof (Quiet_testLoop t 3 3 m6 0 None) as Htests;
    fold (runTestsWithRetry m6 t) in Htests;
    assert (Quiet m m6) as H6 by (subst m6; repeat quiet_step);
    clearbody m6;
    destruct (runTestsWithRetry m6 t) as [m7 [tested|message]] end; simpl in *.
  - right. eexists. split; [apply Quiet_then_update; by eapply Quiet_trans|].
    match goal with |- context [workflows ?m0 !! sessionId] =>
      destruct (workflows m0 !! sessionId) end; simpl; by repeat quiet_step.
  - left. by eapply Quiet_trans.
Qed.

Lemma perform_assignments m op :
  in_order m op ->
  exists assignments,
    stageLog (perform m op) = stageLog m ++ assignments /\ Forall forward assignments.
Proof.
  intros [Hfresh Horder].
  destruct op as [topic clarifications saved plan|sid crawls results|sid refined|sid env
                 |sid tested resultsSaved|sid format env|sid saved]; simpl in *.
  - unfold createResearchPlan, await.
    match goal with |- context [saveWorkflowState ?m0 ?w] =>
      assert (stageLog (saveWorkflowState m0 w) = stageLog m) as Hlog by done;
      set (m1 := saveWorkflowState m0 w) in *; clearbody m1 end.
    rewrite <- Hlog. apply Quiet_assignments.
    destruct (outcome saved) as [[]|message]; simpl; [|by repeat quiet_step].
    destruct (outcome plan) as [p|message]; simpl; by repeat quiet_step.
  - apply Quiet_assignments. unfold executeResearch, executeResearch_begin.
    destruct (workflows m !! sid) as [w0|] eqn:Hw0; [|apply Quiet_refl].
    unfold executeResearch_end, await.
    destruct (outcome results) as [r|message]; simpl; by repeat quiet_step.
  - apply Quiet_assignments. unfold refineResearch, await.
    destruct (workflows m !! sid) as [w0|] eqn:Hw0; [|apply Quiet_refl].
    destruct (outcome refined) as [r|message]; simpl; by repeat quiet_step.
  - unfold startDevelopment.
    destruct (workflows m !! sid) as [w0|] eqn:Hw0; [|apply Quiet_assignments, Quiet_refl].
    set (m2 := updateStageProgress _ sid DEVELOPMENT in_progress 10 None).
    apply (entered_twice m m2 _ sid (currentStage w0) DEVELOPMENT TESTING).
    + unfold stageOf. by rewrite Hw0.
    + by apply Horder.
    + simpl. lia.
    + apply Quiet_update.
    + destruct (develop_assignments m2 sid env) as [Hquiet|(m1 & Hquiet1 & Hquiet2)];
        destruct (develop m2 sid env) as [m3 [[]|message]]; simpl in *.
      * by left.
      * left. by apply Quiet_then_record.
      * right. by exists m1.
      * right. exists m1. split; [done|]. by apply Quiet_then_record.
  - apply Quiet_assignments. unfold runTests.
    destruct (workflows m !! sid) as [w0|] eqn:Hw0; [|apply Quiet_refl].
    destruct (negb (truthy (projectId (metadata w0)))); [apply Quiet_refl|].
    unfold test, await.
    destruct (outcome tested) as [testResults|message]; simpl;
      [destruct (outcome resultsSaved) as [[]|message]; simpl;
       [destruct (read testResults "failed") as [f|message]; simpl|]|];
      by repeat quiet_step.
  - unfold generateDocuments.
    destruct (workflows m !! sid) as [w0|] eqn:Hw0; [|apply Quiet_assignments, Quiet_refl].
    set (m2 := updateStageProgress _ sid DOCUMENTATION in_progress 10 None).
    apply (entered_twice m m2 _ sid (currentStage w0) DOCUMENTATION COMPLETED).
    + unfold stageOf. by rewrite Hw0.
    + by apply Horder.
    + simpl. lia.
    + apply Quiet_update.
    + match goal with |- context [documentStep ?a ?b ?c ?d 90 sid ?st] =>
        assert (Quiet m2 (documentStep a b c d 90 sid st).1) as H5
          by repeat quiet_step;
        destruct (documentStep a b c d 90 sid st) as [m5 [generated|message]] end;
        simpl in *; [|left; by repeat quiet_step].
      right. eexists. split; [by apply Quiet_then_update|].
      match goal with |- context [workflows ?m0 !! sid] =>
        destruct (workflows m0 !! sid) end; unfold await; simpl.
      * destruct (outcome (documentsSaved env)) as [[]|message]; simpl;
          by repeat quiet_step.
      * apply Quiet_refl.
  - exists []. rewrite app_nil_r. split; [|done]. unfold getWorkflowStatus, await.
    destruct (workflows m !! sid) as [w0|] eqn:Hw0; [done|].
    by destruct (outcome saved) as [[w|]|message].
Qed.

(** C5 (as amended). Along any sequence of operations, run one at a time,
    in which [startDevelopment] is called no later than the development
    stage and [generateDocuments] no later than the documentation stage,
    [currentStage] never moves to an earlier stage of the enumeration: the
    stage a workflow is at after the sequence is not earlier than the one
    before it, and every assignment made to a [currentStage] on the way,
    those inside an operation too, replaces a stage by the same or a later
    one. *)
Theorem currentStage_advances_in_order ops : forall m sessionId w,
  all_in_order m ops ->
  workflows m !! sessionId = Some w ->
  (exists w', workflows (performAll m ops) !! sessionId = Some w'
              /\ (stage_index (currentStage w) <= stage_index (currentStage w'))%nat)
  /\ exists assignments,
       stageLog (performAll m ops) = stageLog m ++ assignments
       /\ Forall forward assignments.
Proof.
  induction ops as [|op ops IH]; intros m sid w Hall Hw; simpl in *.
  - split; [exists w; split; [done|lia]|]. exists []. by rewrite app_nil_r.
  - destruct Hall as [Hop Hall].
    destruct (perform_in_order m op sid w Hop Hw) as (w1 & Hw1 & Hle1).
    destruct (perform_assignments m op Hop) as (first & Hfirst & Hforward).
    destruct (IH _ _ _ Hall Hw1) as [(w' & Hw' & Hle) (rest & Hrest & Hforward')].
    split; [exists w'; split; [done|lia]|].
    exists (first ++ rest). rewrite Hrest, Hfirst, <- app_assoc.
    split; [done|]. by apply Forall_app.
Qed.

(** *** Stage records *)

Lemma find_update_first_other {A : Type} (p q : A -> bool) (f : A -> A) (l : list A) :
  (forall x, p x = true -> q x = false /\ q (f x) = false) ->
  find q (update_first p f l) = find q l.
Proof.
  intros Hpq. induction l as [|x l IH]; simpl; [done|].
  destruct (p x) eqn:Hp; simpl.
  - destruct (Hpq x Hp) as [-> ->]. done.
  - by rewrite IH.
Qed.

Lemma find_update_first_same {A : Type} (p : A -> bool) (f : A -> A) (l : list A) :
  (forall x, p (f x) = p x) ->
  find p (update_first p f l) = f <$> find p l.
Proof.
  intros Hp. induction l as [|x l IH]; simpl; [done|].
  destruct (p x) eqn:Hx; simpl.
  - by rewrite Hp, Hx.
  - by rewrite Hx, IH.
Qed.

Lemma updateStageProgress_lookup m sessionId w s st p d :
  workflows m !! sessionId = Some w ->
  workflows (updateStageProgress m sessionId s st p d) !! sessionId
  = Some (mutate w (Touch s (clock m) st p d)).
Proof. intros Hw. unfold updateStageProgress. rewrite Hw. simpl. by rewrite lookup_insert_eq. Qed.

Lemma find_touched s now st p d w :
  find (is_stage s) (stages (mutate w (Touch s now st p d)))
  = touch now st p d <$> find (is_stage s) (stages w).
Proof. simpl. by apply find_update_first_same. Qed.

Lemma find_mutated s mu w :
  (forall s' now st p d, mu = Touch s' now st p d -> s' <> s) ->
  find (is_stage s) (stages (mutate w mu)) = find (is_stage s) (stages w).
Proof.
  intros Hmu. destruct mu as [s' now st p d| | |]; simpl; try done.
  apply find_update_first_other. intros x Hx. unfold is_stage in *. simpl.
  apply bool_decide_eq_true in Hx.
  assert (stage x <> s) by (rewrite Hx; by eapply Hmu).
  by rewrite !bool_decide_eq_false_2.
Qed.

Lemma find_foldl_mutated s mus : forall w,
  Forall (fun mu => forall s' now st p d, mu = Touch s' now st p d -> s' <> s) mus ->
  find (is_stage s) (stages (foldl mutate w mus)) = find (is_stage s) (stages w).
Proof.
  induction mus as [|mu mus IH]; intros w Hmus; simpl; [done|].
  inversion Hmus as [|? ? Hmu Hrest]; subst.
  rewrite IH by done. by apply find_mutated.
Qed.

Lemma spared_record ops : forall m sessionId w s sp,
  workflows m !! sessionId = Some w ->
  find (is_stage s) (stages w) = Some sp ->
  spares m ops sessionId s ->
  exists w', workflows (performAll m ops) !! sessionId = Some w'
             /\ find (is_stage s) (stages w') = Some sp.
Proof.
  induction ops as [|op ops IH]; intros m sid w s sp Hw Hsp Hspares; simpl in *.
  - by exists w.
  - destruct Hspares as (Hfresh & Hs & Hspares).
    destruct (perform_existing m op _ _ Hfresh Hw) as (mus & Hw' & Hmus).
    apply (IH _ _ _ _ _ Hw'); [|done].
    rewrite find_foldl_mutated; [done|].
    eapply Forall_impl; [exact Hmus|]. simpl.
    intros mu [Haddressed Hperm] s' now st p d ->. simpl in Hperm.
    intros ->. by apply Hs.
Qed.

(** C6 (as amended). An update that sets a stage's status to [completed] or
    [failed] stamps the end time and records the progress it is given; and
    the record is as it was after any sequence of operations, run one at a
    time, each of which is called for another session (and, if it is
    [executeResearch], relays no crawl progress to this one) or writes
    other stages. (An operation that writes the stage of the session again
    overwrites the record.) *)
Theorem stage_record_stamped_then_kept m sessionId w s sp :
  workflows m !! sessionId = Some w ->
  find (is_stage s) (stages w) = Some sp ->
  (forall st p d,
      st = completed \/ st = failed ->
      exists w' sp',
        workflows (updateStageProgress m sessionId s st p d) !! sessionId = Some w'
        /\ find (is_stage s) (stages w') = Some sp'
        /\ status sp' = st /\ progress sp' = p /\ endTime sp' = Some (clock m))
  /\ (forall ops,
        spares m ops sessionId s ->
        exists w', workflows (performAll m ops) !! sessionId = Some w'
                   /\ find (is_stage s) (stages w') = Some sp).
Proof.
  intros Hw Hsp. split.
  - intros st p d Hst. eexists _, (touch (clock m) st p d sp).
    split; [by apply updateStageProgress_lookup|].
    split; [by rewrite find_touched, Hsp|].
    split; [done|]. split; [done|]. simpl.
    by rewrite bool_decide_eq_true_2.
  - intros ops Hspares. by eapply spared_record.
Qed.

(** *** Error entries *)

Lemma find_error_None s l :
  find (is_error_of s) l = None -> s ∉ errorStage <$> l.
Proof.
  induction l as [|e l IH]; simpl; [intros _; apply not_elem_of_nil|].
  unfold is_error_of at 1. destruct (bool_decide (errorStage e = s)) eqn:He; [done|].
  intros Hnone. apply bool_decide_eq_false in He.
  apply not_elem_of_cons. split; [congruence|by apply IH].
Qed.

Lemma update_first_stages s (f : WorkflowError -> WorkflowError) l :
  (forall e, errorStage (f e) = errorStage e) ->
  errorStage <$> update_first (is_error_of s) f l = errorStage <$> l.
Proof.
  intros Hf. induction l as [|e l IH]; [done|]. simpl update_first.
  destruct (is_error_of s e); rewrite !fmap_cons; [by rewrite Hf|by rewrite IH].
Qed.

Lemma noteError_distinct now s message l :
  NoDup (errorStage <$> l) -> NoDup (errorStage <$> noteError now s message l).
Proof.
  intros Hl. unfold noteError. destruct (find (is_error_of s) l) eqn:Hfind.
  - by rewrite update_first_stages.
  - rewrite fmap_app. simpl. apply NoDup_app. split; [done|]. split.
    + intros x Hx ->%list_elem_of_singleton. by apply (find_error_None s l).
    + apply NoDup_singleton.
Qed.

Lemma foldl_mutate_distinct mus : forall w, distinct w -> distinct (foldl mutate w mus).
Proof.
  induction mus as [|mu mus IH]; intros w Hw; simpl; [done|].
  apply IH. destruct mu; try done. by apply noteError_distinct.
Qed.

Lemma perform_distinct m op :
  loads_distinct op -> all_distinct m -> all_distinct (perform m op).
Proof.
  intros Hloads Hm sid w' Hw'. destruct (perform_log m op) as (m1 & Hm1 & Hlog).
  destruct (Hlog sid) as (mus & Hlookup & _). rewrite Hw', Hm1 in Hlookup.
  destruct (prepared m op !! sid) as [w1|] eqn:Hw1; simplify_eq/=.
  apply foldl_mutate_distinct.
  destruct op as [topic clarifications saved0 plan| | | | | |sid' saved]; simpl in *;
    try by eapply Hm.
  - apply lookup_insert_Some in Hw1 as [[_ <-]|[_ Hw1]]; [|by eapply Hm].
    unfold distinct. simpl. apply NoDup_nil_2.
  - destruct (workflows m !! sid') eqn:Hsid'; [by eapply Hm|].
    destruct (outcome saved) as [[w0|]|message] eqn:Hsaved; try by eapply Hm.
    apply lookup_insert_Some in Hw1 as [[_ <-]|[_ Hw1]]; [by apply Hloads|by eapply Hm].
Qed.

Lemma performAll_distinct ops : forall m,
  Forall loads_distinct ops -> all_distinct m -> all_distinct (performAll m ops).
Proof.
  induction ops as [|op ops IH]; intros m Hops Hm; simpl; [done|].
  inversion Hops; subst. apply IH; [done|]. by apply perform_distinct.
Qed.

Lemma recordError_lookup m sessionId w s message :
  workflows m !! sessionId = Some w ->
  exists w', workflows (recordError m sessionId s message) !! sessionId = Some w'
             /\ errors w' = noteError (clock m) s message (errors w)
             /\ clock (recordError m sessionId s message) = clock m.
Proof.
  intros Hw. unfold recordError. rewrite Hw.
  set (m1 := modify m sessionId _).
  assert (workflows m1 !! sessionId
          = Some (set_errors (noteError (clock m) s message (errors w)) w)) as Hm1.
  { subst m1. unfold modify. simpl. by rewrite lookup_alter, decide_True, Hw. }
  pose proof (updateStageProgress_lookup _ _ _ s failed 0 None Hm1) as Hm2.
  rewrite Hm2. eexists. split; [exact Hm2|]. split; [done|].
  simpl. by rewrite updateStageProgress_clock.
Qed.

Lemma update_first_insert s (f : WorkflowError -> WorkflowError) l : forall i e,
  NoDup (errorStage <$> l) ->
  l !! i = Some e -> errorStage e = s ->
  update_first (is_error_of s) f l = <[i := f e]> l.
Proof.
  induction l as [|x l IH]; intros i e Hnodup Hi He; [done|].
  rewrite fmap_cons in Hnodup. apply NoDup_cons in Hnodup as [Hx Hnodup].
  destruct i as [|i]; simpl in *; simplify_eq.
  - unfold is_error_of. by rewrite bool_decide_eq_true_2.
  - unfold is_error_of at 1. rewrite bool_decide_eq_false_2.
    + f_equal. by eapply IH.
    + intros Heq. apply Hx. rewrite Heq. apply list_elem_of_fmap.
      exists e. split; [done|]. by eapply list_elem_of_lookup_2.
Qed.

Lemma find_error_Some s l e :
  e ∈ l -> errorStage e = s -> exists e', find (is_error_of s) l = Some e'.
Proof.
  intros Hin He. induction Hin as [e l|e x l Hin IH]; simpl.
  - unfold is_error_of. rewrite bool_decide_eq_true_2 by done. eauto.
  - destruct (is_error_of s x); eauto.
Qed.

Lemma find_error_absent s l :
  (forall e, e ∈ l -> errorStage e <> s) -> find (is_error_of s) l = None.
Proof.
  induction l as [|x l IH]; intros Hl; simpl; [done|].
  unfold is_error_of at 1. rewrite bool_decide_eq_false_2.
  - apply IH. intros e He. apply Hl. by constructor.
  - apply Hl. constructor.
Qed.

Lemma update_first_absent s (f : WorkflowError -> WorkflowError) l x :
  (forall e, e ∈ l -> errorStage e <> s) -> errorStage x = s ->
  update_first (is_error_of s) f (l ++ [x]) = l ++ [f x]
  /\ find (is_error_of s) (l ++ [x]) = Some x.
Proof.
  intros Hl Hx. induction l as [|y l IH]; simpl.
  - unfold is_error_of. by rewrite bool_decide_eq_true_2.
  - unfold is_error_of at 1 3. rewrite bool_decide_eq_false_2.
    + destruct IH as [-> ->]; [|done]. intros e He. apply Hl. by constructor.
    + apply Hl. constructor.
Qed.

(** C7. In every state the manager reaches from the empty one, no two
    error entries of a workflow have the same stage; recording an error for
    a stage that has an entry increments its [retryCount] and overwrites its
    message and timestamp in place; and recording two errors for a stage
    that had none adds one entry, whose [retryCount] is 1. *)
Theorem errors_one_entry_per_stage ops sessionId w :
  Forall loads_distinct ops ->
  workflows (performAll empty ops) !! sessionId = Some w ->
  let m := performAll empty ops in
  NoDup (errorStage <$> errors w)
  /\ (forall s message i e,
        errors w !! i = Some e -> errorStage e = s ->
        exists w1,
          workflows (recordError m sessionId s message) !! sessionId = Some w1
          /\ errors w1
             = <[i := mkWorkflowError s message (clock m) (retryCount e + 1)]> (errors w))
  /\ (forall s message1 message2,
        (forall e, e ∈ errors w -> errorStage e <> s) ->
        exists w2,
          workflows (recordError (recordError m sessionId s message1) sessionId s message2)
            !! sessionId = Some w2
          /\ errors w2 = errors w ++ [mkWorkflowError s message2 (clock m) 1]).
Proof.
  intros Hops Hw m.
  assert (Hdistinct : distinct w).
  { eapply (performAll_distinct ops empty); [done| |exact Hw].
    intros sid w0. simpl. by rewrite lookup_empty. }
  split; [done|]. split.
  - intros s message i e Hi He.
    destruct (recordError_lookup m sessionId w s message Hw) as (w1 & Hw1 & Herrors & _).
    exists w1. split; [done|]. rewrite Herrors. unfold noteError.
    destruct (find_error_Some s (errors w) e) as [e' ->];
      [by eapply list_elem_of_lookup_2|done|].
    rewrite (update_first_insert s _ _ i e) by done. by rewrite He.
  - intros s message1 message2 Hnone.
    destruct (recordError_lookup m sessionId w s message1 Hw) as (w1 & Hw1 & Herrors1 & Hclock).
    destruct (recordError_lookup _ sessionId w1 s message2 Hw1) as (w2 & Hw2 & Herrors2 & _).
    exists w2. split; [done|]. rewrite Herrors2, Herrors1, Hclock. unfold noteError at 2.
    rewrite find_error_absent by done. unfold noteError.
    destruct (update_first_absent s
                (fun e => mkWorkflowError (errorStage e) message2 (clock m) (retryCount e + 1))
                (errors w) (mkWorkflowError s message1 (clock m) 0) Hnone eq_refl)
      as [-> ->]. done.
Qed.

(** *** Test runs *)

(** C10 (as amended). When the test service answers a [runTests] call
    with a result and the write of the result to Redis is carried out, the
    testing stage ends [completed], with progress 100 if the result's
    [failed] is 0 and 80 otherwise; no error is recorded and the stage is
    not marked [failed]. *)
Theorem runTests_completes_on_failures m sessionId w testResults ms resultsSaved sp :
  workflows m !! sessionId = Some w ->
  truthy (projectId (metadata w)) = true ->
  testResults <> Undefined -> testResults <> Null ->
  outcome resultsSaved = Returned tt ->
  find (is_stage TESTING) (stages w) = Some sp ->
  let run := runTests m sessionId (mkReply ms (Returned testResults)) resultsSaved in
  run.2 = Returned testResults
  /\ exists w' sp',
       workflows run.1 !! sessionId = Some w'
       /\ find (is_stage TESTING) (stages w') = Some sp'
       /\ status sp' = completed
       /\ progress sp' = (if is_zero (get testResults "failed") then 100 else 80)
       /\ endTime sp' = Some (clock m + ms + elapsed resultsSaved)
       /\ errors w' = errors w.
Proof.
  intros Hw Hid Hundefined Hnull Hsaved Hsp. unfold runTests. rewrite Hw, Hid. simpl.
  unfold test, await. simpl. rewrite Hsaved.
  assert (read testResults "failed" = Returned (get testResults "failed")) as ->.
  { by destruct testResults. }
  simpl. split; [done|].
  pose proof (updateStageProgress_lookup m sessionId w TESTING in_progress 10 None Hw)
    as Hw1.
  set (m1 := updateStageProgress m sessionId TESTING in_progress 10 None) in *.
  match goal with |- context [updateStageProgress ?m0 sessionId TESTING completed ?p None] =>
    pose proof (updateStageProgress_lookup m0 sessionId _ TESTING completed p None Hw1)
      as Hw2 end.
  eexists _, _. split; [exact Hw2|]. split.
  { rewrite find_touched, find_touched, Hsp. reflexivity. }
  simpl. subst m1. rewrite updateStageProgress_clock. done.
Qed.

Ltac known_workflow H :=
  vm_compute in H; injection H as <-.

Lemma currentStage_advances_in_order_witness :
  let m := performAll (perform empty plan_op) [research_op; develop_op; documents_op] in
  (exists w', workflows m !! "session_0" = Some w'
              /\ (stage_index RESEARCH <= stage_index (currentStage w'))%nat)
  /\ exists assignments,
       stageLog m = assignments /\ length assignments = 4%nat
       /\ Forall forward assignments.
Proof.
  intros m.
  destruct (workflows (perform empty plan_op) !! "session_0") as [w|] eqn:Hw;
    [|vm_compute in Hw; discriminate].
  destruct (currentStage_advances_in_order [research_op; develop_op; documents_op]
              (perform empty plan_op) "session_0" w)
    as [(w' & Hw' & Hle) (assignments & Hlog & Hforward)].
  - repeat split; intros w0 Hw0; known_workflow Hw0; vm_compute; lia.
  - exact Hw.
  - split.
    + exists w'. split; [exact Hw'|]. known_workflow Hw. exact Hle.
    + exists assignments. split; [exact Hlog|]. split; [|exact Hforward].
      fold m in Hlog. apply (f_equal length) in Hlog. vm_compute in Hlog.
      symmetry. exact Hlog.
Defined.

(** C5 as stated fails. After the plan and the documents the workflow is
    at [completed]; a further [startDevelopment] (here one that finds no
    research results) sets [currentStage] to [development]. *)
Lemma currentStage_regresses :
  stageOf (performAll empty [plan_op; documents_op]) "session_0" = Some COMPLETED
  /\ stageOf (performAll empty [plan_op; documents_op; develop_again_op]) "session_0"
     = Some DEVELOPMENT
  /\ (stage_index DEVELOPMENT < stage_index COMPLETED)%nat.
Proof. repeat split; vm_compute; (reflexivity || lia). Qed.

Lemma stage_record_stamped_then_kept_witness :
  let m := performAll empty [plan_op; research_op] in
  recordOf m "session_0" RESEARCH = Some (completed, 100, Some 12)
  /\ exists w', workflows (performAll m [documents_op; plan_again_op; refine_other_op])
                  !! "session_0" = Some w'
                /\ (status <$> find (is_stage RESEARCH) (stages w')) = Some completed
                /\ (progress <$> find (is_stage RESEARCH) (stages w')) = Some 100.
Proof.
  intros m. split; [vm_compute; reflexivity|].
  destruct (workflows m !! "session_0") as [w|] eqn:Hw; [|vm_compute in Hw; discriminate].
  destruct (find (is_stage RESEARCH) (stages w)) as [sp|] eqn:Hsp;
    [|known_workflow Hw; vm_compute in Hsp; discriminate].
  destruct (stage_record_stamped_then_kept m "session_0" w RESEARCH sp Hw Hsp)
    as [_ Hkept].
  destruct (Hkept [documents_op; plan_again_op; refine_other_op]) as (w' & Hw' & Hfind).
  - split; [exact I|]. split.
    { intros _ Hin. inversion Hin as [|? ? ? Hin']. inversion Hin'. }
    split; [vm_compute; reflexivity|]. split.
    { intros Haddressed. vm_compute in Haddressed. discriminate. }
    split; [exact I|]. split; [|exact I].
    intros Haddressed. vm_compute in Haddressed. discriminate.
  - exists w'. split; [exact Hw'|]. rewrite Hfind.
    known_workflow Hw. vm_compute in Hsp. injection Hsp as <-. split; reflexivity.
Defined.

(** C6 as stated fails. The research stage is [completed] with progress
    100 after the research has run; a refinement that then fails leaves it
    [failed] with progress 0. *)
Lemma completed_progress_overwritten :
  recordOf (performAll empty [plan_op; research_op]) "session_0" RESEARCH
  = Some (completed, 100, Some 12)
  /\ recordOf (performAll empty [plan_op; research_op; refine_fails_op]) "session_0"
       RESEARCH
     = Some (failed, 0, Some 15).
Proof. split; vm_compute; reflexivity. Qed.

Lemma errors_one_entry_per_stage_witness :
  let m := performAll empty [plan_op; research_fails_op] in
  exists w2,
    workflows (recordError (recordError m "session_0" TESTING "timeout") "session_0"
                 TESTING "timeout again") !! "session_0" = Some w2
    /\ (errorStage <$> errors w2) = [RESEARCH; TESTING]
    /\ (retryCount <$> errors w2) = [0; 1].
Proof.
  intros m.
  destruct (workflows m !! "session_0") as [w|] eqn:Hw; [|vm_compute in Hw; discriminate].
  destruct (errors_one_entry_per_stage [plan_op; research_fails_op] "session_0" w)
    as (_ & _ & Htwice).
  - repeat constructor.
  - exact Hw.
  - destruct (Htwice TESTING "timeout" "timeout again") as (w2 & Hw2 & Herrors).
    + known_workflow Hw. intros e He. vm_compute in He.
      apply list_elem_of_singleton in He as ->. discriminate.
    + exists w2. split; [exact Hw2|]. rewrite Herrors.
      known_workflow Hw. split; reflexivity.
Defined.

Lemma runTests_completes_on_failures_witness :
  let m := performAll empty [plan_op; develop_op] in
  let run := runTests m "session_0" (answer 4 (Object {[ "failed" := Number 2 ]}))
               (answer 1 tt) in
  exists w' sp',
    workflows run.1 !! "session_0" = Some w'
    /\ find (is_stage TESTING) (stages w') = Some sp'
    /\ status sp' = completed /\ progress sp' = 80 /\ errors w' = [].
Proof.
  intros m run.
  destruct (workflows m !! "session_0") as [w|] eqn:Hw; [|vm_compute in Hw; discriminate].
  destruct (find (is_stage TESTING) (stages w)) as [sp|] eqn:Hsp;
    [|known_workflow Hw; vm_compute in Hsp; discriminate].
  destruct (runTests_completes_on_failures m "session_0" w
              (Object {[ "failed" := Number 2 ]}) 4 (answer 1 tt) sp Hw)
    as (_ & w' & sp' & Hw' & Hfind & Hstatus & Hprogress & _ & Herrors).
  - known_workflow Hw. reflexivity.
  - discriminate.
  - discriminate.
  - reflexivity.
  - exact Hsp.
  - exists w', sp'. split; [exact Hw'|]. split; [exact Hfind|]. split; [exact Hstatus|].
    split; [exact Hprogress|]. rewrite Herrors. known_workflow Hw. reflexivity.
Defined.

(** C10 as stated fails. The test service answers with a result that
    reports no failed test, and Redis rejects the write of the result: the
    call fails with the write's error, the testing stage is marked [failed]
    with progress 0 and an error is recorded for it. *)
Lemma unstored_results_fail_testing :
  let m := performAll empty [plan_op; develop_op] in
  let run := runTests m "session_0" (answer 4 (Object {[ "failed" := Number 0 ]}))
               (failure 1 "READONLY") in
  run.2 = Thrown "READONLY"
  /\ recordOf run.1 "session_0" TESTING = Some (failed, 0, Some (clock m + 5))
  /\ ((fun w => errorStage <$> errors w) <$> workflows run.1 !! "session_0")
     = Some [TESTING].
Proof. repeat split; vm_compute; reflexivity. Qed.

End WorkflowManagerFacts.

(** ** The request handler *)

Module MCPHandlerFacts.
Import Js MCPHandler.

(** *** What a clarification request does *)

Lemma createResearchPlan_outcome m topic' clarifications' saved plan :
  (WorkflowManager.createResearchPlan m topic' clarifications' saved plan).2
  = match WorkflowManager.outcome saved with
    | Returned _ => WorkflowManager.outcome plan
    | Thrown e => Thrown e
    end.
Proof.
  unfold WorkflowManager.createResearchPlan, WorkflowManager.await.
  destruct (WorkflowManager.outcome saved); [|done].
  by destruct (WorkflowManager.outcome plan).
Qed.

(** C8. For a clarification request on an existing session the answers are
    appended; with fewer than 2 clarifications accumulated the response
    carries [needsMoreClarification = true] and the follow-up questions and
    the session's stage is unchanged; with 2 or more the session's stage
    becomes [research] and, the new workflow written and the plan made,
    the response carries [stage = "research"] and the research plan; when
    the write of the workflow is rejected the session's stage is
    [research] all the same and the request fails with the write's error. *)
Theorem handleClarification_response h message responseId followUp saved plan session :
  sessions h !! sessionId message = Some session ->
  let accumulated := clarifications session ++ answers message in
  let handled := handleClarification h message responseId followUp saved plan in
  (forall questions,
      (length accumulated < 2)%nat ->
      WorkflowManager.outcome followUp = Returned questions ->
      exists envelope,
        handled.2 = Returned envelope
        /\ get (get envelope "result") "needsMoreClarification" = Bool true
        /\ get (get envelope "result") "questions" = questions
        /\ sessions handled.1 !! sessionId message
           = Some (set_clarifications accumulated session)
        /\ stage (set_clarifications accumulated session) = stage session)
  /\ (forall researchPlan,
        (2 <= length accumulated)%nat ->
        WorkflowManager.outcome saved = Returned tt ->
        WorkflowManager.outcome plan = Returned researchPlan ->
        exists envelope,
          handled.2 = Returned envelope
          /\ get (get envelope "result") "stage" = Str "research"
          /\ get (get envelope "result") "researchPlan" = researchPlan
          /\ sessions handled.1 !! sessionId message
             = Some (set_stage WorkflowManager.RESEARCH
                       (set_clarifications accumulated session)))
  /\ (forall e,
        (2 <= length accumulated)%nat ->
        WorkflowManager.outcome saved = Thrown e ->
        handled.2 = Thrown e
        /\ sessions handled.1 !! sessionId message
           = Some (set_stage WorkflowManager.RESEARCH
                     (set_clarifications accumulated session))).
Proof.
  intros Hsession accumulated handled. subst handled. unfold handleClarification.
  rewrite Hsession. simpl. fold accumulated. split; [|split].
  - intros questions Hfew Hquestions.
    apply Nat.ltb_lt in Hfew. rewrite Hfew.
    unfold WorkflowManager.generateFollowUpQuestions, WorkflowManager.await.
    rewrite Hquestions. simpl. eexists. split; [reflexivity|].
    unfold response. simpl.
    repeat first [ rewrite lookup_insert_eq | rewrite lookup_insert_ne by done ]; simpl.
    repeat first [ rewrite lookup_insert_eq | rewrite lookup_insert_ne by done ]; simpl.
    done.
  - intros researchPlan Hmany Hsaved Hplan.
    apply Nat.ltb_ge in Hmany. rewrite Hmany.
    pose proof (createResearchPlan_outcome (manager h) (topic session) accumulated saved
                  plan) as Houtcome.
    destruct (WorkflowManager.createResearchPlan (manager h) (topic session) accumulated
                saved plan) as [m1 created].
    simpl in Houtcome. rewrite Houtcome, Hsaved, Hplan. simpl.
    eexists. split; [reflexivity|].
    unfold response. simpl.
    repeat first [ rewrite lookup_insert_eq | rewrite lookup_insert_ne by done ]; simpl.
    repeat first [ rewrite lookup_insert_eq | rewrite lookup_insert_ne by done ]; simpl.
    done.
  - intros e Hmany Hsaved.
    apply Nat.ltb_ge in Hmany. rewrite Hmany.
    pose proof (createResearchPlan_outcome (manager h) (topic session) accumulated saved
                  plan) as Houtcome.
    destruct (WorkflowManager.createResearchPlan (manager h) (topic session) accumulated
                saved plan) as [m1 created].
    simpl in Houtcome. rewrite Houtcome, Hsaved. simpl.
    by rewrite lookup_insert_eq.
Qed.

Lemma handleClarification_response_witness :
  let once :=
    handleClarification asked first_answer "r-1" questions_reply saved_reply plan_reply in
  let twice :=
    handleClarification once.1 second_answer "r-2" questions_reply saved_reply plan_reply in
  (exists envelope,
      once.2 = Returned envelope
      /\ get (get envelope "result") "needsMoreClarification" = Bool true
      /\ (stage <$> sessions once.1 !! "s-1") = Some WorkflowManager.CLARIFICATION)
  /\ (exists envelope,
        twice.2 = Returned envelope
        /\ get (get envelope "result") "stage" = Str "research"
        /\ (stage <$> sessions twice.1 !! "s-1") = Some WorkflowManager.RESEARCH).
Proof.
  intros once twice. split.
  - destruct (sessions asked !! "s-1") as [session|] eqn:Hsession;
      [|vm_compute in Hsession; discriminate].
    destruct (handleClarification_response asked first_answer "r-1" questions_reply
                saved_reply plan_reply session Hsession) as [Hfew _].
    destruct (Hfew (strings ["Which metric?"])) as (envelope & Hout & Hmore & _ & Hs & Hst).
    + vm_compute in Hsession. injection Hsession as <-. vm_compute. lia.
    + reflexivity.
    + exists envelope. split; [exact Hout|]. split; [exact Hmore|].
      fold once in Hs. simpl in Hs. rewrite Hs. simpl.
      vm_compute in Hsession. injection Hsession as <-. reflexivity.
  - destruct (sessions once.1 !! "s-1") as [session|] eqn:Hsession;
      [|vm_compute in Hsession; discriminate].
    destruct (handleClarification_response once.1 second_answer "r-2" questions_reply
                saved_reply plan_reply session Hsession) as (_ & Hmany & _).
    destruct (Hmany (Object {[ "topic" := Str "edge caching for CDNs" ]}))
      as (envelope & Hout & Hstage & _ & Hs).
    + vm_compute in Hsession. injection Hsession as <-. vm_compute. lia.
    + reflexivity.
    + reflexivity.
    + exists envelope. split; [exact Hout|]. split; [exact Hstage|].
      fold twice in Hs. simpl in Hs. rewrite Hs. reflexivity.
Defined.

Lemma all_Thrown {A : Type} (l : list (Outcome A)) e :
  Thrown e ∈ l -> exists e', all l = Thrown e'.
Proof.
  induction l as [|x l IH]; intros Hin; [by apply not_elem_of_nil in Hin|].
  simpl. destruct x as [a|e0]; [|eauto].
  apply elem_of_cons in Hin as [?|Hin]; [done|].
  destruct (IH Hin) as [e' ->]. eauto.
Qed.

Lemma all_Returned {A : Type} (l : list (Outcome A)) :
  (forall e, Thrown e ∉ l) -> exists values, all l = Returned values.
Proof.
  induction l as [|x l IH]; intros Hl; simpl; [eauto|].
  destruct x as [a|e0].
  - destruct IH as [values ->]; [|eauto]. intros e He. apply (Hl e). by constructor.
  - destruct (Hl e0). constructor.
Qed.






End MCPHandlerFacts.

(** ** The message protocol: what [validate] looks at *)

Module MCPProtocolAcceptance.
Import Js MCPProtocol.

(** X1. [validate] reads three fields of an object and nothing else: it
    accepts exactly the objects whose [id] and [method] are truthy, of
    whatever type, and whose [type] is one of the three kinds. So a field
    other than these three never matters (a message without a timestamp is
    accepted), and a request or a notification built by the factories is
    accepted exactly when its method is not the empty string. *)
Theorem validate_accepts fields :
  validate (Object fields)
  = truthy (get (Object fields) "id") && truthy (get (Object fields) "method")
    && includes ["request"; "response"; "notification"] (get (Object fields) "type")
  /\ (forall name value,
        name <> "id" -> name <> "type" -> name <> "method" ->
        validate (Object (<[name := value]> fields)) = validate (Object fields))
  /\ (forall now method params,
        validate (createRequest now method params) = negb (String.eqb method "")
        /\ validate (createNotification now method params) = negb (String.eqb method "")).
Proof.
  assert (Hreads : forall fields0,
            validate (Object fields0)
            = truthy (get (Object fields0) "id") && truthy (get (Object fields0) "method")
              && includes ["request"; "response"; "notification"]
                          (get (Object fields0) "type")).
  { intros fields0. unfold validate. cbn [truthy typeof].
    change (String.eqb "object" "object") with true. cbn [negb orb].
    destruct (truthy (get (Object fields0) "id")),
      (truthy (get (Object fields0) "method")); cbn [negb orb andb];
      rewrite ?orb_true_r, ?orb_false_r; try done.
    destruct (get (Object fields0) "type") as [| |b|z| |kind|items|fields'];
      cbn [truthy includes existsb is_string negb orb]; try done.
    - by destruct b.
    - by destruct (z =? 0).
    - destruct (String.eqb kind "") eqn:Hkind.
      + apply String.eqb_eq in Hkind as ->. done.
      + cbn [negb]. by destruct (_ || _). }
  split; [apply Hreads|]. split.
  - intros name value Hid Htype Hmethod. rewrite !Hreads. cbn [get].
    by rewrite !lookup_insert_ne.
  - intros now method params. destruct (String.eqb method "") eqn:Hmethod.
    + apply String.eqb_eq in Hmethod as ->.
      unfold createRequest, createNotification. rewrite !Hreads. cbn.
      MCPProtocolFacts.read_fields. by rewrite !andb_false_r.
    + apply String.eqb_neq in Hmethod.
      by rewrite MCPProtocolFacts.validate_request, MCPProtocolFacts.validate_notification.
Qed.

End MCPProtocolAcceptance.

(** ** The workflow manager: what an operation leaves behind *)

Module WorkflowRunsFacts.
Import Js WorkflowManager WorkflowRuns.

Local Arguments updateStageProgress : simpl never.

Local Arguments enter : simpl never.

Local Arguments recordError : simpl never.

Local Arguments modify : simpl never.

(** *** Reading a workflow after a step *)

Lemma modify_lookup m sessionId w f :
  workflows m !! sessionId = Some w ->
  workflows (modify m sessionId f) !! sessionId = Some (f w).
Proof. intros Hw. unfold modify. simpl. by rewrite lookup_alter, decide_True, Hw. Qed.

Lemma enter_lookup m sessionId w s :
  workflows m !! sessionId = Some w ->
  workflows (enter m sessionId s) !! sessionId = Some (set_currentStage s w)
  /\ clock (enter m sessionId s) = clock m
  /\ redisSets (enter m sessionId s) = redisSets m.
Proof. intros Hw. unfold enter. rewrite Hw. simpl. by rewrite lookup_alter_eq, Hw. Qed.

Lemma recordError_workflow m sessionId w s message :
  workflows m !! sessionId = Some w ->
  workflows (recordError m sessionId s message) !! sessionId
  = Some (mutate (mutate w (Note s (clock m) message)) (Touch s (clock m) failed 0 None)).
Proof.
  intros Hw. unfold recordError. rewrite Hw.
  pose proof (modify_lookup m sessionId w
                (set_errors (noteError (clock m) s message (errors w))) Hw) as Hm1.
  pose proof (WorkflowManagerFacts.updateStageProgress_lookup _ _ _ s failed 0 None Hm1)
    as Hm2.
  rewrite Hm2. exact Hm2.
Qed.

Lemma recordError_clock m sessionId s message :
  clock (recordError m sessionId s message) = clock m.
Proof.
  unfold recordError. destruct (workflows m !! sessionId) as [w|]; [|done].
  match goal with |- context [match ?x with _ => _ end] => destruct x end; simpl;
    by rewrite WorkflowManagerFacts.updateStageProgress_clock.
Qed.

Lemma update_first_elem {A : Type} (p : A -> bool) (f : A -> A) (l : list A) x :
  find p l = Some x -> f x ∈ update_first p f l.
Proof.
  induction l as [|y l IH]; simpl; [done|].
  destruct (p y); intros Hfind; simplify_eq; [constructor|].
  constructor. by apply IH.
Qed.

Lemma find_is_error_of s l e : find (is_error_of s) l = Some e -> errorStage e = s.
Proof.
  induction l as [|y l IH]; simpl; [done|].
  destruct (is_error_of s y) eqn:Hy; intros Hfind; simplify_eq; [|by apply IH].
  by apply bool_decide_eq_true in Hy.
Qed.

(** After [recordError] the list holds an entry with the given message. *)
Lemma noteError_elem now s message l :
  exists e, e ∈ noteError now s message l
            /\ errorStage e = s /\ error e = message /\ timestamp e = now.
Proof.
  unfold noteError. destruct (find (is_error_of s) l) as [e0|] eqn:Hfind.
  - eexists. split; [by eapply update_first_elem|]. simpl.
    split; [by eapply find_is_error_of|done].
  - eexists. split; [apply elem_of_app; right; constructor|done].
Qed.

(** What a failed operation leaves in the workflow it was called for. *)
Lemma recordError_failed m sessionId w s message sp :
  workflows m !! sessionId = Some w ->
  find (is_stage s) (stages w) = Some sp ->
  exists w' sp' e,
    workflows (recordError m sessionId s message) !! sessionId = Some w'
    /\ currentStage w' = currentStage w
    /\ metadata w' = metadata w
    /\ find (is_stage s) (stages w') = Some sp'
    /\ status sp' = failed /\ progress sp' = 0 /\ endTime sp' = Some (clock m)
    /\ e ∈ errors w'
    /\ errorStage e = s /\ error e = message /\ timestamp e = clock m.
Proof.
  intros Hw Hsp.
  destruct (noteError_elem (clock m) s message (errors w)) as (e & He & Hes & Hem & Het).
  eexists _, (touch (clock m) failed 0 None sp), e.
  split; [by apply recordError_workflow|].
  split; [done|]. split; [done|].
  split; [by rewrite WorkflowManagerFacts.find_touched; simpl; rewrite Hsp|].
  simpl. repeat split; done.
Qed.

(** One iteration of the loop of [runTestsWithRetry]. *)
Lemma testLoop_step m tests maxRetries remaining attempt lastError :
  testLoop m tests maxRetries (S remaining) attempt lastError
  = if attemptPasses (tests attempt)
    then (advance m (elapsed (tests attempt)), outcome (tests attempt))
    else testLoop (if attempt <? maxRetries - 1
                   then advance (advance m (elapsed (tests attempt))) 5000
                   else advance m (elapsed (tests attempt)))
                  tests maxRetries remaining (attempt + 1)
                  (match attemptError (tests attempt) with
                   | Some message => Some message
                   | None => lastError
                   end).
Proof.
  cbn [testLoop]. unfold await, attemptPasses, attemptError.
  destruct (outcome (tests attempt)) as [testResults|message]; [|done].
  destruct (read testResults "failed") as [f|message]; [|done].
  by destruct (is_zero f).
Qed.

(** X8. [runTestsWithRetry] makes at most three attempts, five seconds apart.
    It returns the first answer that reports no failed test. When no
    attempt passes it throws the error of the latest attempt that raised
    one, even if later attempts were answered, and ["Tests failed after
    retries"] when none raised. It never changes a workflow. *)
Theorem runTestsWithRetry_outcome m tests :
  let run := runTestsWithRetry m tests in
  workflows run.1 = workflows m
  /\ (forall k : nat,
        (k < 3)%nat ->
        (forall i : nat, (i < k)%nat -> attemptPasses (tests (Z.of_nat i)) = false) ->
        attemptPasses (tests (Z.of_nat k)) = true ->
        run.2 = outcome (tests (Z.of_nat k))
        /\ clock run.1 = clock m + waited tests (S k) + 5000 * Z.of_nat k)
  /\ ((forall i : nat, (i < 3)%nat -> attemptPasses (tests (Z.of_nat i)) = false) ->
      run.2 = Thrown (default "Tests failed after retries" (latestError tests 3))
      /\ clock run.1 = clock m + waited tests 3 + 10000).
Proof.
  split; [apply WorkflowManagerFacts.testLoop_workflows|].
  unfold runTestsWithRetry. cbn [waited latestError].
  change (Z.of_nat 0) with 0. change (Z.of_nat 1) with 1. change (Z.of_nat 2) with 2.
  split.
  - intros k Hk Hfail Hpass.
    assert (k = 0 \/ k = 1 \/ k = 2)%nat as [-> | [-> | ->]] by lia.
    + change (Z.of_nat 0) with 0 in *.
      rewrite testLoop_step, Hpass. cbn [fst snd waited advance clock]. split; [done|lia].
    + pose proof (Hfail 0%nat ltac:(lia)) as H0.
      change (Z.of_nat 0) with 0 in *. change (Z.of_nat 1) with 1 in *.
      rewrite testLoop_step, H0. change (0 + 1) with 1.
      rewrite testLoop_step, Hpass. cbn [fst snd waited advance clock].
      change (Z.of_nat 0) with 0. change (Z.of_nat 1) with 1.
      change (0 <? 3 - 1) with true. cbn [advance clock]. split; [done|lia].
    + pose proof (Hfail 0%nat ltac:(lia)) as H0. pose proof (Hfail 1%nat ltac:(lia)) as H1.
      change (Z.of_nat 0) with 0 in *. change (Z.of_nat 1) with 1 in *.
      change (Z.of_nat 2) with 2 in *.
      rewrite testLoop_step, H0. change (0 + 1) with 1.
      rewrite testLoop_step, H1. change (1 + 1) with 2.
      rewrite testLoop_step, Hpass. cbn [fst snd waited advance clock].
      change (Z.of_nat 0) with 0. change (Z.of_nat 1) with 1. change (Z.of_nat 2) with 2.
      change (0 <? 3 - 1) with true. change (1 <? 3 - 1) with true.
      cbn [advance clock]. split; [done|lia].
  - intros Hfail.
    pose proof (Hfail 0%nat ltac:(lia)) as H0. pose proof (Hfail 1%nat ltac:(lia)) as H1.
    pose proof (Hfail 2%nat ltac:(lia)) as H2.
    change (Z.of_nat 0) with 0 in *. change (Z.of_nat 1) with 1 in *.
    change (Z.of_nat 2) with 2 in *.
    rewrite testLoop_step, H0. change (0 + 1) with 1.
    rewrite testLoop_step, H1. change (1 + 1) with 2.
    rewrite testLoop_step, H2.
    change (0 <? 3 - 1) with true. change (1 <? 3 - 1) with true.
    change (2 <? 3 - 1) with false. cbn [testLoop fst snd advance clock].
    split; [|lia].
    by destruct (attemptError (tests 2)), (attemptError (tests 1)),
      (attemptError (tests 0)).
Qed.

(** *** startDevelopment *)

Lemma develop_outcome m sessionId w env sp :
  workflows m !! sessionId = Some w ->
  find (is_stage DEVELOPMENT) (stages w) = Some sp ->
  let run := develop m sessionId env in
  exists w' sp',
    workflows run.1 !! sessionId = Some w'
    /\ find (is_stage DEVELOPMENT) (stages w') = Some sp'
    /\ errors w' = errors w
    /\ WorkflowManager.sessionId w' = WorkflowManager.sessionId w
    /\ match run.2 with
       | Thrown message =>
           currentStage w' = currentStage w
           \/ (currentStage w' = TESTING
               /\ outcome (developmentSaved env) = Thrown message)
       | Returned _ =>
           currentStage w' = TESTING
           /\ status sp' = completed /\ progress sp' = 100
           /\ endTime sp' = Some (clock run.1 - elapsed (developmentSaved env))
           /\ (exists research payload,
                 outcome (researchData env) = Returned (Some research)
                 /\ projectPayload research (stringify env) = Returned payload)
           /\ (exists project, outcome (projectCreated env) = Returned project
                               /\ projectId (metadata w') = get project "id")
           /\ last (redisSets run.1)
              = Some (mkRedisSet ("workflow:" +:+ WorkflowManager.sessionId w')
                                 (StoredWorkflow w') (86400 * 7))
           /\ outcome (developmentSaved env) = Returned tt
       end.
Proof.
  intros Hw Hsp. unfold develop, await.
  destruct (outcome (researchData env)) as [[research|]|message]; cbn [fst snd];
    [|exists w, sp; repeat (split; [done|]); by left..].
  destruct (projectPayload research (stringify env)) as [payload|message]
    eqn:Hpayload; cbn [fst snd]; [|exists w, sp; repeat (split; [done|]); by left].
  destruct (outcome (projectCreated env)) as [project|message]; cbn [fst snd];
    [|exists w, sp; repeat (split; [done|]); by left].
  destruct (read project "id") as [id|message] eqn:Hid; cbn [fst snd];
    [|exists w, sp; repeat (split; [done|]); by left].
  assert (id = get project "id") as ->.
  { unfold read in Hid. destruct project; first [discriminate | by injection Hid]. }
  set (m2 := advance (advance m _) _).
  assert (Hw2 : workflows m2 !! sessionId = Some w) by done.
  pose proof (modify_lookup m2 sessionId w (set_projectId (get project "id")) Hw2) as Hw3.
  set (m3 := modify m2 sessionId _) in *.
  pose proof (WorkflowManagerFacts.updateStageProgress_lookup
                m3 sessionId _ DEVELOPMENT in_progress 20 None Hw3) as Hw4.
  set (m4 := updateStageProgress m3 _ _ _ _ _) in *.
  set (w4 := mutate _ _) in Hw4.
  assert (Hsp4 : find (is_stage DEVELOPMENT) (stages w4)
                 = Some (touch (clock m3) in_progress 20 None sp)).
  { subst w4. rewrite WorkflowManagerFacts.find_touched. simpl. by rewrite Hsp. }
  destruct (outcome (codeGenerated env)) as [[]|message]; cbn [fst snd].
  2: { eexists w4, _. split; [exact Hw4|]. split; [exact Hsp4|].
       repeat (split; [done|]). by left. }
  set (m5 := advance m4 _).
  assert (Hw5 : workflows m5 !! sessionId = Some w4) by done.
  pose proof (WorkflowManagerFacts.updateStageProgress_lookup
                m5 sessionId _ DEVELOPMENT in_progress 60 None Hw5) as Hw6.
  set (m6 := updateStageProgress m5 _ _ _ _ _) in *.
  set (w6 := mutate _ _) in Hw6.
  assert (Hsp6 : find (is_stage DEVELOPMENT) (stages w6)
                 = Some (touch (clock m5) in_progress 60 None
                           (touch (clock m3) in_progress 20 None sp))).
  { subst w6. rewrite WorkflowManagerFacts.find_touched. by rewrite Hsp4. }
  pose proof (WorkflowManagerFacts.testLoop_workflows (testRuns env) 3 3 m6 0 None)
    as Htests.
  fold (runTestsWithRetry m6 (testRuns env)) in Htests.
  destruct (runTestsWithRetry m6 (testRuns env)) as [m7 [tested|message]];
    cbn [fst snd] in *.
  2: { eexists w6, _. rewrite Htests. split; [exact Hw6|]. split; [exact Hsp6|].
       repeat (split; [done|]). by left. }
  assert (Hw7 : workflows m7 !! sessionId = Some w6) by (by rewrite Htests).
  pose proof (WorkflowManagerFacts.updateStageProgress_lookup
                m7 sessionId _ DEVELOPMENT completed 100 None Hw7) as Hw8.
  set (m8 := updateStageProgress m7 _ _ _ _ _) in *.
  set (w8 := mutate _ _) in Hw8.
  assert (Hsp8 : find (is_stage DEVELOPMENT) (stages w8)
                 = Some (touch (clock m7) completed 100 None
                           (touch (clock m5) in_progress 60 None
                              (touch (clock m3) in_progress 20 None sp)))).
  { subst w8. rewrite WorkflowManagerFacts.find_touched. by rewrite Hsp6. }
  destruct (enter_lookup m8 sessionId w8 TESTING Hw8) as (Hw9 & Hclock9 & Hsets9).
  rewrite Hw9.
  destruct (outcome (developmentSaved env)) as [[]|message] eqn:Hsaved; cbn [fst snd].
  - eexists _, _. split; [exact Hw9|]. split; [exact Hsp8|]. split; [done|].
    split; [done|]. split; [done|]. split; [done|]. split; [done|].
    split. { simpl. rewrite Hclock9. subst m8.
             rewrite WorkflowManagerFacts.updateStageProgress_clock. f_equal. lia. }
    split; [eauto|]. split; [eauto|]. split; [|done].
    unfold saveWorkflowState. cbn [redisSets advance]. by rewrite last_snoc.
  - eexists _, _. split; [exact Hw9|]. split; [exact Hsp8|]. split; [done|].
    split; [done|]. by right.
Qed.

(** X9. When [startDevelopment] fails on a workflow it found, whatever the
    step that failed, the development record is marked failed with
    progress 0 and an end time, and the errors list holds an entry for the
    stage with the message that is thrown. The workflow stays in the
    development stage, unless what failed is the last step, the write of
    the workflow to Redis: the workflow is then in the testing stage, its
    development record failed all the same. *)
Theorem startDevelopment_failure m sessionId w env sp message :
  workflows m !! sessionId = Some w ->
  find (is_stage DEVELOPMENT) (stages w) = Some sp ->
  (startDevelopment m sessionId env).2 = Thrown message ->
  let m' := (startDevelopment m sessionId env).1 in
  exists w' sp' e,
    workflows m' !! sessionId = Some w'
    /\ (currentStage w' = DEVELOPMENT
        \/ (currentStage w' = TESTING
            /\ outcome (developmentSaved env) = Thrown message))
    /\ find (is_stage DEVELOPMENT) (stages w') = Some sp'
    /\ status sp' = failed /\ progress sp' = 0 /\ endTime sp' = Some (clock m')
    /\ e ∈ errors w'
    /\ errorStage e = DEVELOPMENT /\ error e = message /\ timestamp e = clock m'.
Proof.
  intros Hw Hsp. unfold startDevelopment. rewrite Hw.
  destruct (enter_lookup m sessionId w DEVELOPMENT Hw) as (Hw1 & Hclock1 & _).
  set (m1 := enter m sessionId _) in *.
  pose proof (WorkflowManagerFacts.updateStageProgress_lookup
                m1 sessionId _ DEVELOPMENT in_progress 10 None Hw1) as Hw2.
  set (m2 := updateStageProgress m1 _ _ _ _ _) in *.
  set (w2 := mutate _ _) in Hw2.
  assert (Hsp2 : find (is_stage DEVELOPMENT) (stages w2)
                 = Some (touch (clock m1) in_progress 10 None sp)).
  { subst w2. rewrite WorkflowManagerFacts.find_touched. simpl. by rewrite Hsp. }
  destruct (develop_outcome m2 sessionId w2 env _ Hw2 Hsp2)
    as (w3 & sp3 & Hw3 & Hsp3 & _ & _ & Hrun).
  destruct (develop m2 sessionId env) as [m3 [[]|message']]; simpl in *; [done|].
  intros [= ->].
  destruct (recordError_failed m3 sessionId w3 DEVELOPMENT message sp3 Hw3 Hsp3)
    as (w' & sp' & e & Hw' & Hstage & _ & Hsp' & Hst & Hp & Hend & He & Hes & Hem & Het).
  exists w', sp', e. rewrite recordError_clock.
  split; [done|]. split; [|done]. rewrite Hstage.
  destruct Hrun as [->|[-> Hsaved]]; [by left|by right].
Qed.

(** X10. When [startDevelopment] succeeds, the workflow has moved to the
    testing stage, its development record is completed at 100 with the
    time of the last write as its end time, its [projectId] is the [id] of
    the project that was created, no error has been added, and the last
    write sent to Redis, which Redis has carried out, holds this state
    under the workflow's key for seven days. The stored research results
    had a topic and technical details to name the project with. *)
Theorem startDevelopment_success m sessionId w env sp :
  workflows m !! sessionId = Some w ->
  find (is_stage DEVELOPMENT) (stages w) = Some sp ->
  (startDevelopment m sessionId env).2 = Returned tt ->
  let m' := (startDevelopment m sessionId env).1 in
  exists w' sp' project,
    workflows m' !! sessionId = Some w'
    /\ currentStage w' = TESTING
    /\ find (is_stage DEVELOPMENT) (stages w') = Some sp'
    /\ status sp' = completed /\ progress sp' = 100
    /\ endTime sp' = Some (clock m' - elapsed (developmentSaved env))
    /\ outcome (projectCreated env) = Returned project
    /\ projectId (metadata w') = get project "id"
    /\ errors w' = errors w
    /\ last (redisSets m')
       = Some (mkRedisSet ("workflow:" +:+ WorkflowManager.sessionId w)
                          (StoredWorkflow w') 604800)
    /\ outcome (developmentSaved env) = Returned tt
    /\ exists research payload,
         outcome (researchData env) = Returned (Some research)
         /\ projectPayload research (stringify env) = Returned payload.
Proof.
  intros Hw Hsp. unfold startDevelopment. rewrite Hw.
  destruct (enter_lookup m sessionId w DEVELOPMENT Hw) as (Hw1 & Hclock1 & _).
  set (m1 := enter m sessionId _) in *.
  pose proof (WorkflowManagerFacts.updateStageProgress_lookup
                m1 sessionId _ DEVELOPMENT in_progress 10 None Hw1) as Hw2.
  set (m2 := updateStageProgress m1 _ _ _ _ _) in *.
  set (w2 := mutate _ _) in Hw2.
  assert (Hsp2 : find (is_stage DEVELOPMENT) (stages w2)
                 = Some (touch (clock m1) in_progress 10 None sp)).
  { subst w2. rewrite WorkflowManagerFacts.find_touched. simpl. by rewrite Hsp. }
  assert (Herr2 : errors w2 = errors w) by done.
  assert (Hkey2 : WorkflowManager.sessionId w2 = WorkflowManager.sessionId w) by done.
  destruct (develop_outcome m2 sessionId w2 env _ Hw2 Hsp2)
    as (w3 & sp3 & Hw3 & Hsp3 & Herr & Hkey & Hrun).
  clearbody w2.
  destruct (develop m2 sessionId env) as [m3 [[]|message']]; simpl in *; [|done].
  intros _.
  destruct Hrun as (Hstage & Hst & Hp & Hend & Hresearch & (project & Hproject & Hpid)
                    & Hlast & Hsaved).
  exists w3, sp3, project. repeat (split; [done|]). split; [congruence|].
  split; [rewrite Hlast; by rewrite Hkey, Hkey2|]. done.
Qed.

(** *** generateDocuments *)

Lemma documentStep_outcome wanted generated type format p sessionId m documents w sp :
  workflows m !! sessionId = Some w ->
  find (is_stage DOCUMENTATION) (stages w) = Some sp ->
  let step := documentStep wanted generated type format p sessionId (m, Returned documents) in
  exists w' sp',
    workflows step.1 !! sessionId = Some w'
    /\ find (is_stage DOCUMENTATION) (stages w') = Some sp'
    /\ errors w' = errors w
    /\ WorkflowManager.sessionId w' = WorkflowManager.sessionId w
    /\ currentStage w' = currentStage w
    /\ match step.2 with
       | Returned documents' =>
           if wanted
           then exists data, outcome generated = Returned data
                             /\ documents' = documents ++ [document type format data]
           else documents' = documents
       | Thrown message => wanted = true /\ outcome generated = Thrown message
       end.
Proof.
  intros Hw Hsp. unfold documentStep, await. destruct wanted; [|by exists w, sp].
  destruct (outcome generated) as [data|message]; cbn [fst snd]; [|by exists w, sp].
  set (m1 := advance m _).
  assert (Hw1 : workflows m1 !! sessionId = Some w) by done.
  pose proof (WorkflowManagerFacts.updateStageProgress_lookup
                m1 sessionId _ DOCUMENTATION in_progress p None Hw1) as Hw2.
  eexists _, _. split; [exact Hw2|].
  split; [by rewrite WorkflowManagerFacts.find_touched; simpl; rewrite Hsp|].
  repeat (split; [done|]). eauto.
Qed.

Lemma generateDocuments_steps m sessionId w format env sp :
  workflows m !! sessionId = Some w ->
  find (is_stage DOCUMENTATION) (stages w) = Some sp ->
  let s3 :=
    documentStep (wants format Pptx) (presentation env) "presentation" "pptx" 90 sessionId
      (documentStep (wants format Latex) (paper env) "paper" "latex" 60 sessionId
         (documentStep (wants format Pdf) (report env) "report" "pdf" 30 sessionId
            (m, Returned []))) in
  exists w' sp',
    workflows s3.1 !! sessionId = Some w'
    /\ find (is_stage DOCUMENTATION) (stages w') = Some sp'
    /\ errors w' = errors w
    /\ WorkflowManager.sessionId w' = WorkflowManager.sessionId w
    /\ currentStage w' = currentStage w
    /\ match s3.2 with
       | Returned documents => Forall2 documented documents (requested format env)
       | Thrown message =>
           exists request, request ∈ requested format env
                           /\ outcome request.2 = Thrown message
       end.
Proof.
  intros Hw Hsp. unfold requested.
  destruct (documentStep_outcome (wants format Pdf) (report env) "report" "pdf" 30
              sessionId m [] w sp Hw Hsp) as (w1 & sp1 & Hw1 & Hsp1 & He1 & Hk1 & Hc1 & H1).
  destruct (documentStep _ (report env) _ _ _ _ _) as [m1 [docs1|message1]];
    cbn [fst snd] in *.
  2: { exists w1, sp1. cbn [documentStep fst snd]. repeat (split; [done|]). destruct H1 as [-> H1].
       eexists (_, _, _). split; [|exact H1]. apply elem_of_app. left. constructor. }
  destruct (documentStep_outcome (wants format Latex) (paper env) "paper" "latex" 60
              sessionId m1 docs1 w1 sp1 Hw1 Hsp1)
    as (w2 & sp2 & Hw2 & Hsp2 & He2 & Hk2 & Hc2 & H2).
  destruct (documentStep _ (paper env) _ _ _ _ _) as [m2 [docs2|message2]];
    cbn [fst snd] in *.
  2: { exists w2, sp2. cbn [documentStep fst snd]. repeat (split; [congruence|]).
       destruct H2 as [-> H2].
       eexists (_, _, _). split; [|exact H2].
       apply elem_of_app. right. apply elem_of_app. left. constructor. }
  destruct (documentStep_outcome (wants format Pptx) (presentation env) "presentation"
              "pptx" 90 sessionId m2 docs2 w2 sp2 Hw2 Hsp2)
    as (w3 & sp3 & Hw3 & Hsp3 & He3 & Hk3 & Hc3 & H3).
  destruct (documentStep _ (presentation env) _ _ _ _ _) as [m3 [docs3|message3]];
    cbn [fst snd] in *.
  2: { exists w3, sp3. repeat (split; [congruence|]). destruct H3 as [-> H3].
       eexists (_, _, _). split; [|exact H3].
       apply elem_of_app. right. apply elem_of_app. right. constructor. }
  exists w3, sp3. repeat (split; [congruence|]).
  assert (Hone : forall (wanted : bool) t f r docs docs',
            (if wanted then exists data, outcome r = Returned data
                                         /\ docs' = docs ++ [document t f data]
             else docs' = docs) ->
            exists new, docs' = docs ++ new
                        /\ Forall2 documented new (if wanted then [(t, f, r)] else [])).
  { intros [] t f r docs docs' Hd.
    - destruct Hd as (data & Hdata & ->). eexists. split; [done|].
      repeat constructor. by exists data.
    - exists []. by rewrite app_nil_r. }
  apply Hone in H1 as (new1 & -> & Hn1). apply Hone in H2 as (new2 & -> & Hn2).
  apply Hone in H3 as (new3 & -> & Hn3). rewrite <- app_assoc.
  by repeat apply Forall2_app.
Qed.

(** Every generator the format asks for has answered. *)
Lemma documented_answered documents requests :
  Forall2 documented documents requests ->
  Forall (fun request : string * string * Reply Value =>
            exists data, outcome request.2 = Returned data) requests.
Proof.
  induction 1 as [|d request documents requests (data & Hdata & _) _ IH]; constructor;
    eauto.
Qed.

(** [generateDocuments] up to the last write of the workflow. *)
Lemma generateDocuments_outcome m sessionId w format env sp :
  workflows m !! sessionId = Some w ->
  find (is_stage DOCUMENTATION) (stages w) = Some sp ->
  let run := generateDocuments m sessionId format env in
  exists w' sp',
    workflows run.1 !! sessionId = Some w'
    /\ find (is_stage DOCUMENTATION) (stages w') = Some sp'
    /\ match run.2 with
       | Returned result =>
           Forall2 documented (documents result) (requested format env)
           /\ resultSessionId result = sessionId
           /\ completedAt result = clock run.1
           /\ outcome (documentsSaved env) = Returned tt
           /\ currentStage w' = COMPLETED
           /\ status sp' = completed /\ progress sp' = 100
           /\ endTime sp' = Some (clock run.1 - elapsed (documentsSaved env))
           /\ errors w' = errors w
           /\ last (redisSets run.1)
              = Some (mkRedisSet ("workflow:" +:+ WorkflowManager.sessionId w)
                                 (StoredWorkflow w') 604800)
       | Thrown message =>
           ((exists request, request ∈ requested format env
                             /\ outcome request.2 = Thrown message)
            /\ currentStage w' = DOCUMENTATION
            \/ outcome (documentsSaved env) = Thrown message
               /\ Forall (fun request : string * string * Reply Value =>
                            exists data, outcome request.2 = Returned data)
                         (requested format env)
               /\ currentStage w' = COMPLETED)
           /\ status sp' = failed /\ progress sp' = 0
           /\ endTime sp' = Some (clock run.1)
           /\ exists e, e ∈ errors w'
                        /\ errorStage e = DOCUMENTATION /\ error e = message
                        /\ timestamp e = clock run.1
       end.
Proof.
  intros Hw Hsp. unfold generateDocuments. rewrite Hw.
  destruct (enter_lookup m sessionId w DOCUMENTATION Hw) as (Hw1 & Hclock1 & _).
  set (m1 := enter m sessionId _) in *.
  pose proof (WorkflowManagerFacts.updateStageProgress_lookup
                m1 sessionId _ DOCUMENTATION in_progress 10 None Hw1) as Hw2.
  set (m2 := updateStageProgress m1 _ _ _ _ _) in *.
  set (w2 := mutate _ _) in Hw2.
  assert (Hsp2 : find (is_stage DOCUMENTATION) (stages w2)
                 = Some (touch (clock m1) in_progress 10 None sp)).
  { subst w2. rewrite WorkflowManagerFacts.find_touched. simpl. by rewrite Hsp. }
  assert (Herr2 : errors w2 = errors w) by done.
  assert (Hkey2 : WorkflowManager.sessionId w2 = WorkflowManager.sessionId w) by done.
  assert (Hstage2 : currentStage w2 = DOCUMENTATION) by done.
  destruct (generateDocuments_steps m2 sessionId w2 format env _ Hw2 Hsp2)
    as (w3 & sp3 & Hw3 & Hsp3 & Herr & Hkey & Hstage & Hrun).
  clearbody w2.
  match goal with |- context [documentStep ?a ?b ?c ?d 90 sessionId ?st] =>
    destruct (documentStep a b c d 90 sessionId st) as [m3 [docs|message]] end;
    cbn [fst snd] in *.
  - pose proof (WorkflowManagerFacts.updateStageProgress_lookup
                  m3 sessionId _ DOCUMENTATION completed 100 None Hw3) as Hw4.
    set (m4 := updateStageProgress m3 _ _ _ _ _) in *.
    set (w4 := mutate _ _) in Hw4.
    assert (Hsp4 : find (is_stage DOCUMENTATION) (stages w4)
                   = Some (touch (clock m3) completed 100 None sp3)).
    { subst w4. rewrite WorkflowManagerFacts.find_touched. by rewrite Hsp3. }
    destruct (enter_lookup m4 sessionId w4 COMPLETED Hw4) as (Hw5 & Hclock5 & Hsets5).
    rewrite Hw5. unfold await.
    destruct (outcome (documentsSaved env)) as [[]|message] eqn:Hsaved; cbn [fst snd].
    + eexists _, _. split; [exact Hw5|]. split; [exact Hsp4|].
      cbn [documents resultSessionId completedAt].
      repeat (split; [done|]).
      split. { simpl. rewrite Hclock5. subst m4.
               rewrite WorkflowManagerFacts.updateStageProgress_clock. f_equal. lia. }
      split; [simpl; congruence|].
      unfold saveWorkflowState. cbn [redisSets advance]. rewrite last_snoc. simpl.
      by rewrite Hkey, Hkey2.
    + match goal with |- context [recordError ?m0 _ _ _] => set (m6 := m0) end.
      assert (Hw6 : workflows m6 !! sessionId = Some (set_currentStage COMPLETED w4))
        by done.
      destruct (recordError_failed m6 sessionId _ DOCUMENTATION message _ Hw6 Hsp4)
        as (w' & sp' & e & Hw' & Hstage' & _ & Hsp' & Hst & Hp & Hend & He).
      exists w', sp'. rewrite recordError_clock. split; [done|]. split; [done|].
      split. { right. split; [done|]. split; [by eapply documented_answered|].
               by rewrite Hstage'. }
      repeat (split; [done|]). by exists e.
  - destruct Hrun as (request & Hin & Hthrown).
    destruct (recordError_failed m3 sessionId w3 DOCUMENTATION message sp3 Hw3 Hsp3)
      as (w' & sp' & e & Hw' & Hstage' & _ & Hsp' & Hst & Hp & Hend & He).
    exists w', sp'. rewrite recordError_clock. split; [done|]. split; [done|].
    split. { left. split; [by exists request|]. congruence. }
    repeat (split; [done|]). by exists e.
Qed.

(** What a document shows under a name: the property of that name spread
    from the generator's answer and, when the answer has none, the tag. *)
Lemma document_get type format data name :
  get (document type format data) name
  = match spread data !! name with
    | Some v => v
    | None => if String.eqb name "type" then Str type
              else if String.eqb name "format" then Str format
              else Undefined
    end.
Proof.
  unfold document, get. destruct (spread data !! name) as [v|] eqn:Hv.
  - by rewrite (lookup_union_Some_l _ _ _ _ Hv).
  - rewrite lookup_union_r by done. simpl.
    destruct (String.eqb name "type") eqn:Htype.
    { apply String.eqb_eq in Htype as ->. by rewrite lookup_insert_eq. }
    apply String.eqb_neq in Htype. rewrite lookup_insert_ne by done.
    destruct (String.eqb name "format") eqn:Hformat.
    { apply String.eqb_eq in Hformat as ->. by rewrite lookup_insert_eq. }
    apply String.eqb_neq in Hformat. by rewrite lookup_insert_ne.
Qed.

(** X12. When [generateDocuments] succeeds it returns the session id, the
    time and one document for each generator the format asks for (all
    three when no format is given, none for a format it does not know), in
    the order report, paper, presentation. A document holds the properties
    spread from the generator's answer (those of an object, the characters
    of a string and the items of an array by index, none otherwise) and
    the two tags [type] and [format], which a property of the same name in
    the answer replaces. The workflow is then in the completed stage, with
    its documentation record completed at 100, and that state is the last
    one written to Redis, a write that Redis has carried out. *)
Theorem generateDocuments_success m sessionId w format env sp result :
  workflows m !! sessionId = Some w ->
  find (is_stage DOCUMENTATION) (stages w) = Some sp ->
  (generateDocuments m sessionId format env).2 = Returned result ->
  let m' := (generateDocuments m sessionId format env).1 in
  exists w' sp',
    workflows m' !! sessionId = Some w'
    /\ Forall2 documented (documents result) (requested format env)
    /\ (forall type format' data name,
          get (document type format' data) name
          = match spread data !! name with
            | Some v => v
            | None => if String.eqb name "type" then Str type
                      else if String.eqb name "format" then Str format'
                      else Undefined
            end)
    /\ resultSessionId result = sessionId
    /\ completedAt result = clock m'
    /\ outcome (documentsSaved env) = Returned tt
    /\ currentStage w' = COMPLETED
    /\ find (is_stage DOCUMENTATION) (stages w') = Some sp'
    /\ status sp' = completed /\ progress sp' = 100
    /\ endTime sp' = Some (clock m' - elapsed (documentsSaved env))
    /\ errors w' = errors w
    /\ last (redisSets m')
       = Some (mkRedisSet ("workflow:" +:+ WorkflowManager.sessionId w)
                          (StoredWorkflow w') 604800).
Proof.
  intros Hw Hsp Hrun m'.
  destruct (generateDocuments_outcome m sessionId w format env sp Hw Hsp)
    as (w' & sp' & Hw' & Hsp' & Hout).
  cbv zeta in Hout. rewrite Hrun in Hout.
  destruct Hout as (H1 & H2 & H3 & H4 & H5 & H6 & H7 & H8 & H9 & H10).
  exists w', sp'. split; [done|]. split; [done|].
  split; [apply document_get|]. done.
Qed.

(** X13. When [generateDocuments] fails on a workflow it found, the
    documents made so far are dropped and the documentation record is
    marked failed at 0 with an error entry carrying the message. Either one
    of the generators it asked has thrown the message, and the workflow
    stays in the documentation stage; or every generator has answered and
    what failed is the last step, the write of the workflow to Redis: the
    workflow is then in the completed stage, its documentation record
    failed all the same. *)
Theorem generateDocuments_failure m sessionId w format env sp message :
  workflows m !! sessionId = Some w ->
  find (is_stage DOCUMENTATION) (stages w) = Some sp ->
  (generateDocuments m sessionId format env).2 = Thrown message ->
  let m' := (generateDocuments m sessionId format env).1 in
  exists w' sp' e,
    workflows m' !! sessionId = Some w'
    /\ ((exists request, request ∈ requested format env
                         /\ outcome request.2 = Thrown message)
        /\ currentStage w' = DOCUMENTATION
        \/ outcome (documentsSaved env) = Thrown message
           /\ Forall (fun request : string * string * Reply Value =>
                        exists data, outcome request.2 = Returned data)
                     (requested format env)
           /\ currentStage w' = COMPLETED)
    /\ find (is_stage DOCUMENTATION) (stages w') = Some sp'
    /\ status sp' = failed /\ progress sp' = 0 /\ endTime sp' = Some (clock m')
    /\ e ∈ errors w'
    /\ errorStage e = DOCUMENTATION /\ error e = message /\ timestamp e = clock m'.
Proof.
  intros Hw Hsp Hrun m'.
  destruct (generateDocuments_outcome m sessionId w format env sp Hw Hsp)
    as (w' & sp' & Hw' & Hsp' & Hout).
  cbv zeta in Hout. rewrite Hrun in Hout.
  destruct Hout as (Hcause & Hst & Hp & Hend & e & He).
  by exists w', sp', e.
Qed.

(** *** runTests *)

(** X11. When [runTests] fails after its two guards, the testing record is
    marked failed at 0 with an error entry carrying the message, and the
    workflow's stage is left as it was. The message is the error of the
    test request; or that of Redis rejecting the write of the result it
    answered; or, the result written, the [TypeError] of reading [failed]
    from a result that is [null] or [undefined]. *)
Theorem runTests_failure m sessionId w tested resultsSaved sp message :
  workflows m !! sessionId = Some w ->
  truthy (projectId (metadata w)) = true ->
  find (is_stage TESTING) (stages w) = Some sp ->
  (runTests m sessionId tested resultsSaved).2 = Thrown message ->
  let m' := (runTests m sessionId tested resultsSaved).1 in
  exists w' sp' e,
    workflows m' !! sessionId = Some w'
    /\ currentStage w' = currentStage w
    /\ find (is_stage TESTING) (stages w') = Some sp'
    /\ status sp' = failed /\ progress sp' = 0 /\ endTime sp' = Some (clock m')
    /\ e ∈ errors w'
    /\ errorStage e = TESTING /\ error e = message /\ timestamp e = clock m'
    /\ (outcome tested = Thrown message
        \/ exists testResults,
             outcome tested = Returned testResults
             /\ (outcome resultsSaved = Thrown message
                 \/ outcome resultsSaved = Returned tt
                    /\ (testResults = Null \/ testResults = Undefined)
                    /\ read testResults "failed" = Thrown message)).
Proof.
  intros Hw Hid Hsp. unfold runTests. rewrite Hw, Hid. cbn [negb].
  pose proof (WorkflowManagerFacts.updateStageProgress_lookup
                m sessionId _ TESTING in_progress 10 None Hw) as Hw1.
  set (m1 := updateStageProgress m _ _ _ _ _) in *.
  set (w1 := mutate _ _) in Hw1.
  assert (Hsp1 : find (is_stage TESTING) (stages w1)
                 = Some (touch (clock m) in_progress 10 None sp)).
  { subst w1. rewrite WorkflowManagerFacts.find_touched. simpl. by rewrite Hsp. }
  assert (Hstage1 : currentStage w1 = currentStage w) by done.
  clearbody w1. unfold test, await.
  assert (Hfailed : forall m2 cause,
            workflows m2 !! sessionId = Some w1 ->
            cause ->
            exists w' sp' e,
              workflows (recordError m2 sessionId TESTING message) !! sessionId = Some w'
              /\ currentStage w' = currentStage w
              /\ find (is_stage TESTING) (stages w') = Some sp'
              /\ status sp' = failed /\ progress sp' = 0
              /\ endTime sp' = Some (clock (recordError m2 sessionId TESTING message))
              /\ e ∈ errors w'
              /\ errorStage e = TESTING /\ error e = message
              /\ timestamp e = clock (recordError m2 sessionId TESTING message)
              /\ cause).
  { intros m2 cause Hw2 Hcause.
    destruct (recordError_failed m2 sessionId w1 TESTING message _ Hw2 Hsp1)
      as (w' & sp' & e & Hw' & Hstage' & _ & Hsp' & Hst & Hp & Hend & He & Hes & Hem & Het).
    exists w', sp', e. rewrite recordError_clock.
    repeat (split; [done|]). split; [congruence|]. by repeat (split; [done|]). }
  destruct (outcome tested) as [testResults|message'] eqn:Htested; cbn [fst snd].
  - destruct (outcome resultsSaved) as [[]|message'] eqn:Hsaved; cbn [fst snd].
    + destruct (read testResults "failed") as [f|message'] eqn:Hread; cbn [fst snd];
        [done|].
      intros [= ->]. apply Hfailed; [done|]. right. exists testResults. split; [done|].
      right. split; [done|]. split; [|done].
      unfold read in Hread. destruct testResults; try discriminate; auto.
    + intros [= ->]. apply Hfailed; [done|]. right. exists testResults. auto.
  - intros [= ->]. apply Hfailed; [done|]. by left.
Qed.

(** *** Sessions the manager does not hold *)

(** X15. Called for a session that has no workflow in memory, every operation
    throws ["Workflow not found"] and leaves the manager exactly as it was:
    nothing is written to Redis, no event is emitted, no listener is
    registered, and the helper updates do nothing. [getWorkflowStatus]
    alone asks Redis first, and throws the same message when Redis has no
    snapshot either. *)
Theorem unknown_workflow_rejected m sessionId :
  workflows m !! sessionId = None ->
  (forall crawls results,
     executeResearch m sessionId crawls results = (m, Thrown "Workflow not found"))
  /\ (forall refined, refineResearch m sessionId refined = (m, Thrown "Workflow not found"))
  /\ (forall env, startDevelopment m sessionId env = (m, Thrown "Workflow not found"))
  /\ (forall tested resultsSaved,
        runTests m sessionId tested resultsSaved = (m, Thrown "Workflow not found"))
  /\ (forall format env,
        generateDocuments m sessionId format env = (m, Thrown "Workflow not found"))
  /\ (forall ms,
        getWorkflowStatus m sessionId (mkReply ms (Returned None))
        = (advance m ms, Thrown "Workflow not found"))
  /\ (forall s st p d, updateStageProgress m sessionId s st p d = m)
  /\ (forall s message, recordError m sessionId s message = m)
  /\ (forall s, getStageProgress m sessionId s = 0).
Proof.
  intros Hw.
  unfold executeResearch, executeResearch_begin, refineResearch, startDevelopment, runTests,
    generateDocuments, getWorkflowStatus, updateStageProgress, recordError,
    getStageProgress.
  rewrite Hw. done.
Qed.

(** *** getWorkflowStatus *)

(** X14. A workflow that is not in memory is loaded from Redis once: the
    snapshot is returned and kept under the session's key, the other
    workflows are untouched, and every later call for the session returns
    that same snapshot without asking Redis, whatever Redis holds by
    then. *)
Theorem getWorkflowStatus_loads_once m sessionId ms w :
  workflows m !! sessionId = None ->
  let loaded := getWorkflowStatus m sessionId (mkReply ms (Returned (Some w))) in
  loaded.2 = Returned w
  /\ workflows loaded.1 = <[sessionId := w]> (workflows m)
  /\ redisSets loaded.1 = redisSets m
  /\ forall saved, getWorkflowStatus loaded.1 sessionId saved = (loaded.1, Returned w).
Proof.
  intros Hw.
  assert (getWorkflowStatus m sessionId (mkReply ms (Returned (Some w)))
          = (set_workflows (advance m ms) (<[sessionId := w]> (workflows m)), Returned w))
    as ->.
  { unfold getWorkflowStatus. by rewrite Hw. }
  cbn [fst snd]. repeat (split; [done|]). intros saved. unfold getWorkflowStatus. simpl.
  by rewrite lookup_insert_eq.
Qed.

(** *** Crawl progress *)

Lemma updateStageProgress_other m sessionId sessionId' s st p d :
  sessionId <> sessionId' ->
  workflows (updateStageProgress m sessionId' s st p d) !! sessionId
  = workflows m !! sessionId.
Proof.
  intros Hne. unfold updateStageProgress.
  destruct (workflows m !! sessionId') as [w'|]; [|done]. simpl.
  by rewrite lookup_insert_ne.
Qed.

Lemma onCrawlProgress_folded sessionId : forall l m w sp,
  workflows m !! sessionId = Some w ->
  find (is_stage RESEARCH) (stages w) = Some sp ->
  exists w' sp',
    workflows (foldl onCrawlProgress m l) !! sessionId = Some w'
    /\ find (is_stage RESEARCH) (stages w') = Some sp'
    /\ currentStage w' = currentStage w
    /\ errors w' = errors w
    /\ match length (List.filter (String.eqb sessionId) l) with
       | O => sp' = sp
       | S n => status sp' = in_progress
                /\ progress sp' = Z.min (progress sp + 10 * Z.of_nat (S n)) 90
       end.
Proof.
  induction l as [|sid l IH]; intros m w sp Hw Hsp; [by exists w, sp|].
  cbn [foldl List.filter].
  destruct (String.eqb sessionId sid) eqn:Hsid.
  - apply String.eqb_eq in Hsid as <-. unfold onCrawlProgress at 2.
    pose proof (WorkflowManagerFacts.updateStageProgress_lookup
                  m sessionId w RESEARCH in_progress
                  (Z.min (getStageProgress m sessionId RESEARCH + 10) 90) None Hw) as Hw1.
    set (m1 := updateStageProgress m _ _ _ _ _) in *.
    set (w1 := mutate _ _) in Hw1.
    assert (getStageProgress m sessionId RESEARCH = progress sp) as Hp.
    { unfold getStageProgress. by rewrite Hw, Hsp. }
    assert (Hsp1 : find (is_stage RESEARCH) (stages w1)
                   = Some (touch (clock m) in_progress (Z.min (progress sp + 10) 90) None sp)).
    { subst w1. rewrite WorkflowManagerFacts.find_touched, Hp. simpl. by rewrite Hsp. }
    destruct (IH m1 w1 _ Hw1 Hsp1) as (w' & sp' & Hw' & Hsp' & Hstage & Herr & Hcount).
    exists w', sp'. repeat (split; [done|]). cbn [length].
    destruct (length (List.filter (String.eqb sessionId) l)) as [|n].
    + subst sp'. simpl. split; [done|]. lia.
    + destruct Hcount as [-> ->]. split; [done|]. simpl progress. lia.
  - apply String.eqb_neq in Hsid. apply IH; [|done].
    unfold onCrawlProgress. by rewrite updateStageProgress_other.
Qed.

(** X7. One ["crawl:progress"] event of the orchestrator reaches every listener
    registered so far, whichever session's research emitted it. For a
    session with [n] listeners (one per [executeResearch] call made for it,
    none is ever removed) the research record is left unchanged when [n] is
    0; otherwise it is set to [in_progress] with its progress raised by
    [10 * n] and capped at 90, so that a record already completed at 100
    drops to 90. *)
Theorem crawlProgress_raises_by_ten m sessionId w sp :
  workflows m !! sessionId = Some w ->
  find (is_stage RESEARCH) (stages w) = Some sp ->
  exists w' sp',
    workflows (crawlProgress m) !! sessionId = Some w'
    /\ find (is_stage RESEARCH) (stages w') = Some sp'
    /\ currentStage w' = currentStage w
    /\ errors w' = errors w
    /\ match listening m sessionId with
       | O => sp' = sp
       | S n => status sp' = in_progress
                /\ progress sp' = Z.min (progress sp + 10 * Z.of_nat (S n)) 90
       end.
Proof. intros Hw Hsp. by apply onCrawlProgress_folded. Qed.

(** Each [executeResearch] call that finds the workflow registers one more
    listener for the session, and no operation removes one. *)
Lemma executeResearch_begin_listening m sessionId w :
  workflows m !! sessionId = Some w ->
  exists m1, executeResearch_begin m sessionId = Some m1
             /\ workflows m1 = workflows m
             /\ listening m1 sessionId = S (listening m sessionId).
Proof.
  intros Hw. unfold executeResearch_begin. rewrite Hw. eexists. split; [done|].
  split; [done|]. unfold listening. simpl.
  rewrite List.filter_app, length_app. simpl. rewrite String.eqb_refl. simpl. lia.
Qed.

(** *** createResearchPlan *)

(** X6. [createResearchPlan] stores a new workflow under [session_<now>], in
    the research stage, with one record for each of the seven stages and
    no error, and awaits its write to Redis. When Redis rejects the write
    the call fails with that error, the orchestrator is not asked, and the
    research record stays pending at 0 like the others. Otherwise the
    research record is [in_progress] since the write was carried out; the
    progress is 30 when the orchestrator returns a plan, and stays at 10
    when the orchestrator throws: the exception passes through. In no case
    is the workflow marked failed or given an error entry. *)
Theorem createResearchPlan_creates m topic' clarifications' saved plan :
  let run := createResearchPlan m topic' clarifications' saved plan in
  run.2 = match outcome saved with
          | Returned _ => outcome plan
          | Thrown message => Thrown message
          end
  /\ clock run.1 = clock m + elapsed saved
                   + match outcome saved with
                     | Returned _ => elapsed plan
                     | Thrown _ => 0
                     end
  /\ exists w sp,
       workflows run.1 !! newSessionId m = Some w
       /\ WorkflowManager.sessionId w = newSessionId m
       /\ currentStage w = RESEARCH
       /\ errors w = []
       /\ metadata w = mkMetadata topic' clarifications' Undefined
       /\ stage <$> stages w
          = [INITIAL; CLARIFICATION; RESEARCH; DEVELOPMENT; TESTING; DOCUMENTATION; COMPLETED]
       /\ (forall sp', sp' ∈ stages w -> stage sp' <> RESEARCH ->
                       status sp' = pending /\ progress sp' = 0)
       /\ find (is_stage RESEARCH) (stages w) = Some sp
       /\ endTime sp = None
       /\ match outcome saved with
          | Thrown _ => status sp = pending /\ startTime sp = None /\ progress sp = 0
          | Returned _ =>
              status sp = in_progress
              /\ startTime sp = Some (clock m + elapsed saved)
              /\ progress sp = match outcome plan with Returned _ => 30 | Thrown _ => 10 end
          end.
Proof.
  unfold createResearchPlan, await. fold (newSessionId m).
  set (w0 := mkWorkflowState _ _ _ _ _ _ _).
  set (m1 := advance (saveWorkflowState _ _) _).
  assert (Hw1 : workflows m1 !! newSessionId m = Some w0).
  { subst m1. simpl. by rewrite lookup_insert_eq. }
  assert (Hclock1 : clock m1 = clock m + elapsed saved) by done.
  destruct (outcome saved) as [[]|message]; cbn [fst snd].
  2: { split; [done|]. split; [lia|]. exists w0, (mkStageProgress RESEARCH pending None None 0 ∅).
       split; [exact Hw1|]. subst w0. simpl. repeat (split; [done|]). split; [|done].
       intros sp' Hin Hne. repeat (apply elem_of_cons in Hin as [->|Hin]; [done|]).
       by apply elem_of_nil in Hin. }
  pose proof (WorkflowManagerFacts.updateStageProgress_lookup
                m1 _ _ RESEARCH in_progress 10 None Hw1) as Hw2.
  set (m2 := updateStageProgress m1 _ _ _ _ _) in *.
  assert (Hclock2 : clock m2 = clock m1)
    by apply WorkflowManagerFacts.updateStageProgress_clock.
  destruct (outcome plan) as [p|message]; cbn [fst snd].
  - split; [done|].
    split. { rewrite WorkflowManagerFacts.updateStageProgress_clock. simpl. lia. }
    assert (Hw3 : workflows (advance m2 (elapsed plan)) !! newSessionId m
                  = Some (mutate w0 (Touch RESEARCH (clock m1) in_progress 10 None)))
      by done.
    pose proof (WorkflowManagerFacts.updateStageProgress_lookup
                  _ _ _ RESEARCH in_progress 30 None Hw3) as Hw4.
    eexists _, _. split; [exact Hw4|]. subst w0. simpl.
    repeat (split; [done|]). split; [|done].
    intros sp' Hin Hne. repeat (apply elem_of_cons in Hin as [->|Hin]; [done|]).
    by apply elem_of_nil in Hin.
  - split; [done|]. split; [simpl; lia|].
    eexists _, _. split; [exact Hw2|]. subst w0. simpl.
    repeat (split; [done|]). split; [|done].
    intros sp' Hin Hne. repeat (apply elem_of_cons in Hin as [->|Hin]; [done|]).
    by apply elem_of_nil in Hin.
Qed.

(** *** What no operation changes *)

Lemma update_first_fmap {A B : Type} (g : A -> B) (p : A -> bool) (f : A -> A) l :
  (forall x, g (f x) = g x) -> g <$> update_first p f l = g <$> l.
Proof.
  intros Hg. induction l as [|x l IH]; [done|]. cbn [update_first].
  destruct (p x); rewrite !fmap_cons; [by rewrite Hg|by rewrite IH].
Qed.

Lemma update_first_length {A : Type} (p : A -> bool) (f : A -> A) l :
  length (update_first p f l) = length l.
Proof. induction l as [|x l IH]; simpl; [done|]. destruct (p x); simpl; by rewrite ?IH. Qed.

Lemma mutate_identity w mu :
  WorkflowManager.sessionId (mutate w mu) = WorkflowManager.sessionId w
  /\ workflowStartTime (mutate w mu) = workflowStartTime w
  /\ topic (metadata (mutate w mu)) = topic (metadata w)
  /\ stage <$> stages (mutate w mu) = stage <$> stages w
  /\ (length (errors w) <= length (errors (mutate w mu)))%nat.
Proof.
  destruct mu as [s now st p d|s now message|s|id]; simpl; repeat (split; [done|]);
    try done.
  - split; [|done]. by apply update_first_fmap.
  - unfold noteError. destruct (find (is_error_of s) (errors w)).
    + by rewrite update_first_length.
    + rewrite length_app. simpl. lia.
Qed.

Lemma foldl_mutate_identity mus : forall w,
  let w' := foldl mutate w mus in
  WorkflowManager.sessionId w' = WorkflowManager.sessionId w
  /\ workflowStartTime w' = workflowStartTime w
  /\ topic (metadata w') = topic (metadata w)
  /\ stage <$> stages w' = stage <$> stages w
  /\ (length (errors w) <= length (errors w'))%nat.
Proof.
  induction mus as [|mu mus IH]; intros w; simpl; [done|].
  destruct (IH (mutate w mu)) as (H1 & H2 & H3 & H5 & H6).
  destruct (mutate_identity w mu) as (G1 & G2 & G3 & G5 & G6).
  repeat split; try congruence. lia.
Qed.

(** X16. Along any sequence of operations run one at a time, none
    overlapping another, in which [createResearchPlan] creates new keys, a
    workflow the manager holds is never dropped, and its session id, start
    time and topic never change; its stage records are neither added,
    removed nor reordered; and its errors list never gets shorter. (The
    clarifications are the caller's array, which the manager does not
    write.) *)
Theorem operations_keep_workflow ops : forall m sessionId w,
  all_fresh m ops ->
  workflows m !! sessionId = Some w ->
  exists w',
    workflows (performAll m ops) !! sessionId = Some w'
    /\ WorkflowManager.sessionId w' = WorkflowManager.sessionId w
    /\ workflowStartTime w' = workflowStartTime w
    /\ topic (metadata w') = topic (metadata w)
    /\ stage <$> stages w' = stage <$> stages w
    /\ (length (errors w) <= length (errors w'))%nat.
Proof.
  induction ops as [|op ops IH]; intros m sid w Hfresh Hw; simpl in *.
  - exists w. by repeat split.
  - destruct Hfresh as [Hop Hfresh].
    destruct (WorkflowManagerFacts.perform_existing m op sid w Hop Hw) as (mus & Hw1 & _).
    destruct (IH _ _ _ Hfresh Hw1) as (w' & Hw' & H1 & H2 & H3 & H5 & H6).
    destruct (foldl_mutate_identity mus w) as (G1 & G2 & G3 & G5 & G6).
    exists w'. split; [done|]. repeat split; try congruence. lia.
Qed.

(** *** The theorems at work *)

Ltac held_workflow m sid w Hw :=
  destruct (workflows m !! sid) as [w|] eqn:Hw; [|vm_compute in Hw; discriminate].

Ltac held_record s w Hw sp Hsp :=
  destruct (find (is_stage s) (stages w)) as [sp|] eqn:Hsp;
    [|vm_compute in Hw; injection Hw as <-; vm_compute in Hsp; discriminate].

Lemma startDevelopment_failure_witness :
  let failing env message stage :=
    let m' := (startDevelopment planned "session_0" env).1 in
    exists w' sp' e,
      workflows m' !! "session_0" = Some w'
      /\ currentStage w' = stage
      /\ find (is_stage DEVELOPMENT) (stages w') = Some sp'
      /\ status sp' = failed /\ progress sp' = 0 /\ endTime sp' = Some (clock m')
      /\ e ∈ errors w'
      /\ errorStage e = DEVELOPMENT /\ error e = message /\ timestamp e = clock m' in
  failing no_research "Research results not found" DEVELOPMENT
  /\ failing no_topic "Cannot read properties of undefined (reading 'toLowerCase')"
       DEVELOPMENT
  /\ failing last_write_fails "READONLY" TESTING.
Proof.
  intros failing. subst failing.
  held_workflow planned "session_0" w Hw. held_record DEVELOPMENT w Hw sp Hsp.
  split; [|split]; cbv zeta.
  - destruct (startDevelopment_failure planned "session_0" w no_research sp
                "Research results not found" Hw Hsp) as (w' & sp' & e & H1 & H2 & H3).
    { vm_compute. reflexivity. }
    exists w', sp', e. split; [exact H1|]. split; [|exact H3].
    destruct H2 as [H2|[_ H2]]; [exact H2|]. vm_compute in H2. discriminate H2.
  - destruct (startDevelopment_failure planned "session_0" w no_topic sp
                "Cannot read properties of undefined (reading 'toLowerCase')" Hw Hsp)
      as (w' & sp' & e & H1 & H2 & H3).
    { vm_compute. reflexivity. }
    exists w', sp', e. split; [exact H1|]. split; [|exact H3].
    destruct H2 as [H2|[_ H2]]; [exact H2|]. vm_compute in H2. discriminate H2.
  - destruct (startDevelopment_failure planned "session_0" w last_write_fails sp
                "READONLY" Hw Hsp) as (w' & sp' & e & H1 & H2 & H3).
    { vm_compute. reflexivity. }
    exists w', sp', e. split; [exact H1|]. split; [|exact H3].
    destruct H2 as [H2|[H2 _]]; [|exact H2].
    vm_compute in H1. injection H1 as <-. vm_compute in H2. discriminate H2.
Defined.

Lemma startDevelopment_success_witness :
  let m' := (startDevelopment planned "session_0" second_run_passes).1 in
  clock m' = 5 + 1 + 2 + 3 + 4 + 5000 + 4 + 6
  /\ exists w' sp' project,
       workflows m' !! "session_0" = Some w'
       /\ currentStage w' = TESTING
       /\ find (is_stage DEVELOPMENT) (stages w') = Some sp'
       /\ status sp' = completed /\ progress sp' = 100
       /\ endTime sp' = Some (clock m' - 6)
       /\ outcome (projectCreated second_run_passes) = Returned project
       /\ projectId (metadata w') = get project "id"
       /\ errors w' = []
       /\ last (redisSets m')
          = Some (mkRedisSet "workflow:session_0" (StoredWorkflow w') 604800).
Proof.
  split; [vm_compute; reflexivity|].
  held_workflow planned "session_0" w Hw. held_record DEVELOPMENT w Hw sp Hsp.
  destruct (startDevelopment_success planned "session_0" w second_run_passes sp Hw Hsp)
    as (w' & sp' & project & H1 & H2 & H3 & H4 & H5 & H6 & H7 & H8 & H9 & H10 & _).
  { vm_compute. reflexivity. }
  exists w', sp', project. split; [exact H1|]. split; [exact H2|]. split; [exact H3|].
  split; [exact H4|]. split; [exact H5|]. split; [exact H6|]. split; [exact H7|].
  split; [exact H8|].
  vm_compute in Hw. injection Hw as <-. split; [exact H9|exact H10].
Defined.

Lemma generateDocuments_success_witness :
  let run := generateDocuments planned "session_0" NoFormat all_generated in
  exists w' sp' result,
    run.2 = Returned result
    /\ workflows run.1 !! "session_0" = Some w'
    /\ Forall2 documented (documents result)
         [("report", "pdf", report all_generated); ("paper", "latex", paper all_generated);
          ("presentation", "pptx", presentation all_generated)]
    /\ get (document "report" "pdf" (Object {[ "type" := Str "summary" ]})) "type"
       = Str "summary"
    /\ get (document "paper" "latex" (Str "ok")) "1" = Str "k"
    /\ get (document "paper" "latex" (Str "ok")) "type" = Str "paper"
    /\ resultSessionId result = "session_0"
    /\ completedAt result = 15
    /\ currentStage w' = COMPLETED
    /\ find (is_stage DOCUMENTATION) (stages w') = Some sp'
    /\ status sp' = completed /\ progress sp' = 100 /\ endTime sp' = Some 11.
Proof.
  intros run.
  held_workflow planned "session_0" w Hw. held_record DOCUMENTATION w Hw sp Hsp.
  destruct run.2 as [result|message] eqn:Hrun; [|vm_compute in Hrun; discriminate].
  destruct (generateDocuments_success planned "session_0" w NoFormat all_generated sp
              result Hw Hsp Hrun)
    as (w' & sp' & H1 & H2 & H3 & H4 & H5 & _ & H6 & H7 & H8 & H9 & H10 & _).
  exists w', sp', result. split; [reflexivity|]. split; [exact H1|].
  split; [exact H2|].
  split; [rewrite H3; reflexivity|]. split; [rewrite H3; reflexivity|].
  split; [rewrite H3; reflexivity|].
  split; [exact H4|]. split; [rewrite H5; vm_compute; reflexivity|].
  split; [exact H6|]. split; [exact H7|]. split; [exact H8|]. split; [exact H9|].
  rewrite H10. vm_compute. reflexivity.
Defined.

Lemma generateDocuments_failure_witness :
  let failing env message stage :=
    let m' := (generateDocuments planned "session_0" NoFormat env).1 in
    exists w' sp' e,
      workflows m' !! "session_0" = Some w'
      /\ currentStage w' = stage
      /\ find (is_stage DOCUMENTATION) (stages w') = Some sp'
      /\ status sp' = failed /\ progress sp' = 0 /\ endTime sp' = Some (clock m')
      /\ e ∈ errors w'
      /\ errorStage e = DOCUMENTATION /\ error e = message /\ timestamp e = clock m' in
  failing paper_fails "doc generator unreachable" DOCUMENTATION
  /\ failing documents_unsaved "READONLY" COMPLETED.
Proof.
  intros failing. subst failing.
  held_workflow planned "session_0" w Hw. held_record DOCUMENTATION w Hw sp Hsp.
  split; cbv zeta.
  - destruct (generateDocuments_failure planned "session_0" w NoFormat paper_fails sp
                "doc generator unreachable" Hw Hsp) as (w' & sp' & e & H1 & H2 & H3).
    { vm_compute. reflexivity. }
    exists w', sp', e. split; [exact H1|]. split; [|exact H3].
    destruct H2 as [[_ H2]|[H2 _]]; [exact H2|]. vm_compute in H2. discriminate H2.
  - destruct (generateDocuments_failure planned "session_0" w NoFormat documents_unsaved
                sp "READONLY" Hw Hsp) as (w' & sp' & e & H1 & H2 & H3).
    { vm_compute. reflexivity. }
    exists w', sp', e. split; [exact H1|]. split; [|exact H3].
    destruct H2 as [[_ H2]|(_ & _ & H2)]; [|exact H2].
    vm_compute in H1. injection H1 as <-. vm_compute in H2. discriminate H2.
Defined.

Lemma runTests_failure_witness :
  let m := (startDevelopment planned "session_0" second_run_passes).1 in
  let failing tested resultsSaved message :=
    let m' := (runTests m "session_0" tested resultsSaved).1 in
    exists w' sp' e,
      workflows m' !! "session_0" = Some w'
      /\ currentStage w' = TESTING
      /\ find (is_stage TESTING) (stages w') = Some sp'
      /\ status sp' = failed /\ progress sp' = 0 /\ endTime sp' = Some (clock m')
      /\ e ∈ errors w'
      /\ errorStage e = TESTING /\ error e = message in
  failing (answer 4 Null) (answer 1 tt)
          "Cannot read properties of null (reading 'failed')"
  /\ failing (answer 4 (Object {[ "failed" := Number 0 ]})) (failure 1 "READONLY")
             "READONLY".
Proof.
  intros m failing. subst failing.
  held_workflow m "session_0" w Hw. held_record TESTING w Hw sp Hsp.
  split; cbv zeta.
  - destruct (runTests_failure m "session_0" w (answer 4 Null) (answer 1 tt) sp
                "Cannot read properties of null (reading 'failed')" Hw)
      as (w' & sp' & e & H1 & H2 & H3 & H4 & H5 & H6 & H7 & H8 & H9 & _).
    { vm_compute in Hw. injection Hw as <-. reflexivity. }
    { exact Hsp. }
    { vm_compute. reflexivity. }
    exists w', sp', e. split; [exact H1|]. split.
    { rewrite H2. vm_compute in Hw. injection Hw as <-. reflexivity. }
    split; [exact H3|]. split; [exact H4|]. split; [exact H5|]. split; [exact H6|].
    split; [exact H7|]. split; [exact H8|exact H9].
  - destruct (runTests_failure m "session_0" w
                (answer 4 (Object {[ "failed" := Number 0 ]})) (failure 1 "READONLY") sp
                "READONLY" Hw)
      as (w' & sp' & e & H1 & H2 & H3 & H4 & H5 & H6 & H7 & H8 & H9 & _).
    { vm_compute in Hw. injection Hw as <-. reflexivity. }
    { exact Hsp. }
    { vm_compute. reflexivity. }
    exists w', sp', e. split; [exact H1|]. split.
    { rewrite H2. vm_compute in Hw. injection Hw as <-. reflexivity. }
    split; [exact H3|]. split; [exact H4|]. split; [exact H5|]. split; [exact H6|].
    split; [exact H7|]. split; [exact H8|exact H9].
Defined.

Lemma unknown_workflow_rejected_witness :
  startDevelopment planned "session_1" second_run_passes = (planned, Thrown "Workflow not found")
  /\ recordError planned "session_1" TESTING "timeout" = planned.
Proof.
  destruct (unknown_workflow_rejected planned "session_1")
    as (_ & _ & Hdev & _ & _ & _ & _ & Hrecord & _).
  { vm_compute. reflexivity. }
  split; [apply Hdev|apply Hrecord].
Defined.

Lemma getWorkflowStatus_loads_once_witness :
  exists w,
    workflows planned !! "session_0" = Some w
    /\ let loaded := getWorkflowStatus empty "session_0" (answer 2 (Some w)) in
       loaded.2 = Returned w
       /\ getWorkflowStatus loaded.1 "session_0" (answer 2 None) = (loaded.1, Returned w).
Proof.
  held_workflow planned "session_0" w Hw. exists w. split; [reflexivity|].
  destruct (getWorkflowStatus_loads_once empty "session_0" 2 w) as (H1 & _ & _ & H2).
  { vm_compute. reflexivity. }
  split; [exact H1|apply H2].
Defined.

Lemma crawlProgress_raises_by_ten_witness :
  let m := default planned
             (m1 ← executeResearch_begin planned "session_0";
              executeResearch_begin m1 "session_0") in
  listening m "session_0" = 2%nat
  /\ recordOf m "session_0" RESEARCH = Some (in_progress, 30, None)
  /\ exists w' sp',
       workflows (crawlProgress m) !! "session_0" = Some w'
       /\ find (is_stage RESEARCH) (stages w') = Some sp'
       /\ status sp' = in_progress /\ progress sp' = 50.
Proof.
  intros m. split; [vm_compute; reflexivity|]. split; [vm_compute; reflexivity|].
  held_workflow m "session_0" w Hw. held_record RESEARCH w Hw sp Hsp.
  destruct (crawlProgress_raises_by_ten m "session_0" w sp Hw Hsp)
    as (w' & sp' & H1 & H2 & _ & _ & H3).
  exists w', sp'. split; [exact H1|]. split; [exact H2|].
  change (listening m "session_0") with 2%nat in H3. destruct H3 as [H3 H4].
  split; [exact H3|]. rewrite H4.
  vm_compute in Hw. injection Hw as <-. vm_compute in Hsp. injection Hsp as <-.
  reflexivity.
Defined.

Lemma operations_keep_workflow_witness :
  exists w',
    workflows (performAll planned [research_fails_op; develop_op; plan_op; documents_op])
      !! "session_0" = Some w'
    /\ WorkflowManager.sessionId w' = "session_0"
    /\ topic (metadata w') = "edge caching for CDNs"
    /\ stage <$> stages w'
       = [INITIAL; CLARIFICATION; RESEARCH; DEVELOPMENT; TESTING; DOCUMENTATION; COMPLETED].
Proof.
  held_workflow planned "session_0" w Hw.
  destruct (operations_keep_workflow [research_fails_op; develop_op; plan_op; documents_op]
              planned "session_0" w) as (w' & H1 & H2 & _ & H3 & H4 & _).
  { vm_compute. repeat split. }
  { exact Hw. }
  exists w'. split; [exact H1|].
  vm_compute in Hw. injection Hw as <-. split; [exact H2|]. split; [exact H3|].
  exact H4.
Defined.

End WorkflowRunsFacts.

(** ** The generation broker's maps *)

Module OllamaBrokerFacts.
Import Js OllamaService OllamaBroker.

Section Facts.
Context `{service : Service}.

Lemma registered_calls st st' :
  activeRequests st' = activeRequests st ->
  (forall c cs, calls st !! c = Some cs -> owned cs <> None -> calls st' !! c = Some cs) ->
  Registered st -> Registered st'.
Proof.
  intros Hactive Hcalls Hreg key p Hp. rewrite Hactive in Hp.
  destruct (Hreg key p Hp) as (c & cs & Hc & Hown). exists c, cs. split; [|done].
  apply Hcalls; [done|]. by rewrite Hown.
Qed.

Lemma registered_deduplicate st c req useCache st' cs :
  Registered st ->
  deduplicate st req useCache = (st', cs) ->
  (c <= length (calls st))%nat ->
  (forall cs0, calls st !! c = Some cs0 -> owned cs0 = None) ->
  Registered (mkState (clock st') (redis st') (activeRequests st') (requests st')
                      (if decide (c = length (calls st)) then calls st ++ [cs]
                       else <[c := cs]> (calls st))
                      (emitted st')).
Proof.
  intros Hreg Hd Hc Hidle. unfold deduplicate in Hd.
  assert (Hkeep : forall c' cs', calls st !! c' = Some cs' -> owned cs' <> None ->
            (if decide (c = length (calls st)) then calls st ++ [cs]
             else <[c := cs]> (calls st)) !! c' = Some cs').
  { intros c' cs' Hc' Hown. destruct (decide (c = length (calls st))) as [->|Hne].
    - by apply lookup_app_l_Some.
    - rewrite list_lookup_insert_ne; [done|]. intros ->. by apply Hown, Hidle. }
  destruct (activeRequests st !! getCacheKey req) as [p|] eqn:Hactive; simplify_eq.
  - intros key p' Hp'. simpl in *. destruct (Hreg key p' Hp') as (c' & cs' & Hc' & Hown).
    exists c', cs'. split; [|done]. apply Hkeep; [done|]. by rewrite Hown.
  - intros key p' Hp'. simpl in *.
    destruct (decide (key = getCacheKey req)) as [->|Hkey].
    + rewrite lookup_insert_eq in Hp'. simplify_eq.
      exists c, (AwaitRequest req useCache (length (requests st))).
      split; [|done]. destruct (decide (c = length (calls st))) as [->|Hne].
      * apply lookup_snoc_Some. by right.
      * apply list_lookup_insert_eq. lia.
    + rewrite lookup_insert_ne in Hp' by done.
      destruct (Hreg key p' Hp') as (c' & cs' & Hc' & Hown).
      exists c', cs'. split; [|done]. apply Hkeep; [done|]. by rewrite Hown.
Qed.

Lemma registered_finish st c cs req p via result redis' emitted' :
  Consistent st -> Registered st ->
  calls st !! c = Some cs -> owned cs = Some (getCacheKey req, p) ->
  Registered (mkState (clock st) redis' (delete (getCacheKey req) (activeRequests st))
                      (requests st) (<[c := Settled via result]> (calls st))
                      emitted').
Proof.
  intros Hst Hreg Hc Hown key p' Hp'. simpl in *.
  apply lookup_delete_Some in Hp' as [Hkey Hp'].
  destruct (Hreg key p' Hp') as (c' & cs' & Hc' & Hown').
  exists c', cs'. split; [|done]. rewrite list_lookup_insert_ne; [done|].
  intros ->. congruence.
Qed.

Lemma registered_idle st c cs cs' redis' emitted' :
  Registered st -> calls st !! c = Some cs -> owned cs = None ->
  Registered (mkState (clock st) redis' (activeRequests st) (requests st)
                      (<[c := cs']> (calls st)) emitted').
Proof.
  intros Hreg Hc Hown. eapply (registered_calls st); [done| |done]. simpl.
  intros c' cs0 Hc' Hown'. rewrite list_lookup_insert_ne; [done|].
  intros ->. by simplify_eq.
Qed.

Lemma registered_push st cs :
  Registered st -> Registered (push_call st cs).
Proof.
  intros Hreg. eapply (registered_calls st); [done| |done].
  intros c cs0 Hc _. simpl. by apply lookup_app_l_Some.
Qed.

Lemma step_registered st e st' :
  Consistent st -> Registered st -> step st e = Some st' -> Registered st'.
Proof.
  intros Hst Hreg.
  destruct e as [seconds|req useCache|c failure|p post|c|c failure| |c failure|c failure
                |req|c result]; simpl.
  - destruct (0 <=? seconds); intros ?; simplify_eq. by eapply (registered_calls st).
  - destruct (cacheEnabled config && useCache).
    { intros ?; simplify_eq. by apply registered_push. }
    destruct (deduplicate st req useCache) as [st1 cs] eqn:Hd. intros ?; simplify_eq.
    pose proof (registered_deduplicate st (length (calls st)) req useCache st1 cs Hreg Hd)
      as Hnew.
    rewrite decide_True in Hnew by done.
    pose proof (Hcalls := OllamaServiceFacts.deduplicate_calls st req useCache).
    rewrite Hd in Hcalls. simpl in Hcalls. unfold push_call.
    rewrite Hcalls. apply Hnew; [done|].
    intros cs0 Hcs0. apply lookup_lt_Some in Hcs0. lia.
  - destruct (calls st !! c) as [[req useCache| | | | | | | | |]|] eqn:Hc; try done.
    destruct failure as [message|].
    { intros ?; simplify_eq. by eapply registered_idle. }
    destruct (deduplicate st req useCache) as [st1 cs] eqn:Hd.
    assert (Hmiss : Registered (set_call st1 c cs)).
    { pose proof (registered_deduplicate st c req useCache st1 cs Hreg Hd) as Hnew.
      pose proof (Hlt := lookup_lt_Some _ _ _ Hc).
      rewrite decide_False in Hnew by lia.
      pose proof (Hcalls := OllamaServiceFacts.deduplicate_calls st req useCache).
      rewrite Hd in Hcalls. simpl in Hcalls. unfold set_call. rewrite Hcalls.
      apply Hnew; [lia|]. intros cs0 Hcs0. by simplify_eq. }
    destruct (redis_get st (getCacheKey req)) as [cached|]; [|by intros ?; simplify_eq].
    destruct (String.eqb cached ""); simpl; intros ?; simplify_eq; [done|].
    by eapply registered_idle.
  - destruct (requests st !! p) as [[key [o|]]|]; try done.
    intros ?; simplify_eq. by eapply (registered_calls st).
  - destruct (calls st !! c) as [[|req useCache p| | | | | | | |]|] eqn:Hc; try done.
    destruct (requests st !! p) as [[key [[response|message]|]]|] eqn:Hp; try done.
    + destruct (cacheEnabled config && useCache); intros ?; simplify_eq.
      * intros key' p' Hp'. simpl in *.
        destruct (Hreg key' p' Hp') as (c' & cs' & Hc' & Hown').
        destruct (decide (c' = c)) as [->|Hne].
        -- simplify_eq. exists c, (AwaitCacheSet req p response). split; [|done].
           apply list_lookup_insert_eq. by eapply lookup_lt_Some.
        -- exists c', cs'. split; [|done]. by rewrite list_lookup_insert_ne.
      * by eapply registered_finish.
    + intros ?; simplify_eq. by eapply registered_finish.
  - destruct (calls st !! c) as [[| |req p response| | | | | | |]|] eqn:Hc; try done.
    destruct failure as [message|]; intros ?; simplify_eq; unfold finish; simpl.
    + by eapply (registered_finish st c _ req p _ _ _ _ Hst Hreg Hc).
    + by eapply (registered_finish st c _ req p _ (Returned response) _ _ Hst Hreg Hc).
  - intros ?; simplify_eq. by apply registered_push.
  - destruct (calls st !! c) as [[]|] eqn:Hc; try done.
    destruct failure; [|destruct (liveKeys st)]; intros ?; simplify_eq;
      by eapply registered_idle.
  - destruct (calls st !! c) as [[]|] eqn:Hc; try done.
    destruct failure; intros ?; simplify_eq; by eapply registered_idle.
  - intros ?; simplify_eq. by apply registered_push.
  - destruct (calls st !! c) as [[]|] eqn:Hc; try done.
    intros ?; simplify_eq. by eapply registered_idle.
Qed.

Lemma run_registered trace : forall st st',
  Consistent st -> Registered st -> run st trace = Some st' -> Registered st'.
Proof.
  induction trace as [|e trace IH]; simpl; intros st st' Hst Hreg Hrun; [by simplify_eq|].
  destruct (step st e) as [st1|] eqn:Hstep; [|done].
  eauto using step_registered, OllamaServiceFacts.step_consistent.
Qed.

(** X2. In every state the service reaches, [activeRequests] holds exactly the
    requests of the [generate] calls that have started one and have not yet
    run their [finally] block, one entry per such call. So once every such
    call is through, whether its request succeeded or failed, the map is
    empty, and [getStats().activeRequests] is back to 0. *)
Theorem activeRequests_are_owned trace st :
  run init trace = Some st ->
  (forall key p,
     activeRequests st !! key = Some p
     <-> exists c cs, calls st !! c = Some cs /\ owned cs = Some (key, p))
  /\ (forall c c' cs cs' key p p',
        calls st !! c = Some cs -> calls st !! c' = Some cs' ->
        owned cs = Some (key, p) -> owned cs' = Some (key, p') -> c = c')
  /\ ((forall c cs, calls st !! c = Some cs -> owned cs = None) ->
      activeRequests st = ∅).
Proof.
  intros Hrun.
  pose proof (OllamaServiceFacts.reachable_consistent trace st Hrun) as Hst.
  assert (Hreg : Registered st).
  { eapply run_registered; [apply OllamaServiceFacts.consistent_init| |exact Hrun].
    intros key p Hp. simpl in Hp. by rewrite lookup_empty in Hp. }
  split; [|split].
  - intros key p. split; [apply Hreg|].
    intros (c & cs & Hc & Hown). by destruct (owner_active _ Hst c cs key p Hc Hown).
  - apply (owner_unique _ Hst).
  - intros Hidle. apply map_empty. intros key.
    destruct (activeRequests st !! key) as [p|] eqn:Hp; [|done].
    destruct (Hreg key p Hp) as (c & cs & Hc & Hown). rewrite (Hidle c cs Hc) in Hown.
    done.
Qed.

(** *** The cache *)

Lemma cacheSound_frame st st' :
  (forall key entry, redis st' !! key = Some entry -> redis st !! key = Some entry) ->
  clock st <= clock st' ->
  (forall p key response,
     requests st !! p = Some (key, Some (Returned response)) ->
     requests st' !! p = Some (key, Some (Returned response))) ->
  CacheSound st -> CacheSound st'.
Proof.
  intros Hredis Hclock Hrequests Hsound key value expiry Hentry. apply Hredis in Hentry.
  destruct (Hsound key value expiry Hentry) as (Hexp & p & response & Hp & Hvalue).
  split; [lia|]. exists p, response. split; [by apply Hrequests|done].
Qed.

Lemma deduplicate_requests st req useCache p key o :
  requests st !! p = Some (key, o) ->
  requests (deduplicate st req useCache).1 !! p = Some (key, o).
Proof.
  intros Hp. unfold deduplicate.
  destruct (activeRequests st !! getCacheKey req); simpl; [done|].
  by apply lookup_app_l_Some.
Qed.

Lemma step_cacheSound st e st' :
  Consistent st -> CacheSound st -> step st e = Some st' -> CacheSound st'.
Proof.
  intros Hst Hsound.
  destruct e as [seconds|req useCache|c failure|p post|c|c failure| |c failure|c failure
                |req|c result]; simpl.
  - destruct (0 <=? seconds) eqn:Hs; intros ?; simplify_eq.
    apply Z.leb_le in Hs. apply (cacheSound_frame st); simpl; [done|lia|done|done].
  - destruct (cacheEnabled config && useCache).
    { intros ?; simplify_eq. by apply (cacheSound_frame st). }
    pose proof (OllamaServiceFacts.deduplicate_frame st req useCache) as [Hclock Hredis].
    pose proof (deduplicate_requests st req useCache) as Hrequests.
    destruct (deduplicate st req useCache) as [st1 cs]. intros ?; simplify_eq.
    simpl in *. apply (cacheSound_frame st); simpl; [by rewrite Hredis|lia|eauto|done].
  - destruct (calls st !! c) as [[req useCache| | | | | | | | |]|] eqn:Hc; try done.
    destruct failure as [message|].
    { intros ?; simplify_eq. by apply (cacheSound_frame st). }
    pose proof (OllamaServiceFacts.deduplicate_frame st req useCache) as [Hclock Hredis].
    pose proof (deduplicate_requests st req useCache) as Hrequests.
    destruct (deduplicate st req useCache) as [st1 cs]. simpl in *.
    assert (Hmiss : CacheSound (set_call st1 c cs)).
    { apply (cacheSound_frame st); simpl; [by rewrite Hredis|lia|eauto|done]. }
    destruct (redis_get st (getCacheKey req)) as [cached|]; [|by intros ?; simplify_eq].
    destruct (String.eqb cached ""); simpl; intros ?; simplify_eq; [done|].
    by apply (cacheSound_frame st).
  - destruct (requests st !! p) as [[key [o|]]|] eqn:Hp; try done.
    intros ?; simplify_eq. apply (cacheSound_frame st); simpl; [done|lia| |done].
    intros p' key' response Hp'. rewrite list_lookup_insert_ne; [done|]. congruence.
  - destruct (calls st !! c) as [[|req useCache p| | | | | | | |]|] eqn:Hc; try done.
    destruct (requests st !! p) as [[key [[response|message]|]]|] eqn:Hp; try done.
    + destruct (cacheEnabled config && useCache); intros ?; simplify_eq;
        by apply (cacheSound_frame st).
    + intros ?; simplify_eq. by apply (cacheSound_frame st).
  - destruct (calls st !! c) as [[| |req p response| | | | | | |]|] eqn:Hc; try done.
    destruct failure as [message|]; intros ?; simplify_eq.
    { by apply (cacheSound_frame st). }
    intros key value expiry Hentry. simpl in *.
    destruct (decide (key = getCacheKey req)) as [->|Hkey].
    + rewrite lookup_insert_eq in Hentry. simplify_eq. split; [lia|].
      destruct (stored_settled _ Hst _ _ _ _ Hc) as [key Hp].
      destruct (owner_active _ Hst c _ (getCacheKey req) p Hc eq_refl) as (_ & o & Ho).
      exists p, response. split; [|done]. congruence.
    + rewrite lookup_insert_ne in Hentry by done. by apply Hsound.
  - intros ?; simplify_eq. by apply (cacheSound_frame st).
  - destruct (calls st !! c) as [[]|] eqn:Hc; try done.
    destruct failure; [|destruct (liveKeys st)]; intros ?; simplify_eq;
      by apply (cacheSound_frame st).
  - destruct (calls st !! c) as [[]|] eqn:Hc; try done.
    destruct failure; intros ?; simplify_eq; apply (cacheSound_frame st); simpl;
      try done.
    intros key entry Hentry. by apply lookup_foldr_delete_Some in Hentry as [_ ?].
  - intros ?; simplify_eq. by apply (cacheSound_frame st).
  - destruct (calls st !! c) as [[]|] eqn:Hc; try done.
    intros ?; simplify_eq. by apply (cacheSound_frame st).
Qed.

Lemma run_cacheSound trace : forall st st',
  Consistent st -> CacheSound st -> run st trace = Some st' -> CacheSound st'.
Proof.
  induction trace as [|e trace IH]; simpl; intros st st' Hst Hsound Hrun;
    [by simplify_eq|].
  destruct (step st e) as [st1|] eqn:Hstep; [|done].
  eauto using step_cacheSound, OllamaServiceFacts.step_consistent.
Qed.

(** X3. In every state the service reaches, whatever the cache holds under a
    fingerprint is the serialized response that a backend request for that
    fingerprint returned, and it has at most 3600 seconds left to live. In
    particular the failure of a generation is never cached, and no entry is
    served for more than an hour. *)
Theorem cache_holds_returned_responses trace st key value expiry :
  run init trace = Some st ->
  redis st !! key = Some (value, expiry) ->
  expiry <= clock st + 3600
  /\ exists p response,
       requests st !! p = Some (key, Some (Returned response))
       /\ value = JSON_stringify response.
Proof.
  intros Hrun Hentry.
  assert (Hsound : CacheSound st).
  { eapply run_cacheSound; [apply OllamaServiceFacts.consistent_init| |exact Hrun].
    intros key' value' expiry' H. simpl in H. by rewrite lookup_empty in H. }
  destruct (Hsound key value expiry Hentry) as (Hexp & Hresponse).
  done.
Qed.

(** *** The retry count *)

(** X4. [maxRetries] is read as [config.maxRetries || 3], so a configured 0
    means three attempts; a negative value is kept, the loop body never
    runs, and the call fails at once with the initial ["No attempts made"]
    without the backend being asked. *)
Theorem performGeneration_retry_count post :
  (forall n,
     maxRetries config = Some n -> n < 0 ->
     performGeneration post
     = (Thrown ("Generation failed after " +:+ pretty n +:+ " attempts: No attempts made"),
        []))
  /\ (forall errs,
        maxRetries config = Some 0 ->
        (forall i, 0 <= i < 3 -> attemptOnce (post i) = Thrown (errs i)) ->
        performGeneration post
        = (Thrown ("Generation failed after 3 attempts: " +:+ errs 2), [1000; 2000])).
Proof.
  split.
  - intros n Hn Hneg. unfold performGeneration.
    assert (effectiveMaxRetries = n) as ->.
    { unfold effectiveMaxRetries. rewrite Hn.
      destruct (n =? 0) eqn:H0; [apply Z.eqb_eq in H0; lia|done]. }
    assert (Z.to_nat n = 0%nat) as Hnone by lia. rewrite Hnone. simpl.
    unfold effectiveMaxRetries. rewrite Hn.
    destruct (n =? 0) eqn:H0; [apply Z.eqb_eq in H0; lia|done].
  - intros errs Hn Hfail. unfold performGeneration.
    assert (effectiveMaxRetries = 3) as Hmax.
    { unfold effectiveMaxRetries. by rewrite Hn. }
    rewrite Hmax. change (Z.to_nat 3) with 3%nat. cbn [attemptLoop].
    rewrite (Hfail 0) by lia. change (0 + 1) with 1. rewrite (Hfail 1) by lia.
    change (1 + 1) with 2. rewrite (Hfail 2) by lia. by rewrite Hmax.
Qed.

End Facts.

(** *** batchGenerate *)

Lemma all_values {A : Type} (values : list A) :
  MCPHandler.all (Returned <$> values) = Returned values.
Proof.
  induction values as [|v values IH]; [done|].
  rewrite fmap_cons. cbn [MCPHandler.all]. by rewrite IH.
Qed.

Lemma all_thrown {A : Type} (l : list (Outcome A)) e :
  MCPHandler.all l = Thrown e -> Thrown e ∈ l.
Proof.
  induction l as [|[a|e0] l IH]; simpl; [done| |].
  - destruct (MCPHandler.all l); [done|]. intros [= ->]. constructor. by apply IH.
  - intros [= ->]. constructor.
Qed.

Lemma all_cases {A : Type} (l : list (Outcome A)) :
  (exists values, l = Returned <$> values /\ MCPHandler.all l = Returned values)
  \/ (exists e, MCPHandler.all l = Thrown e).
Proof.
  induction l as [|[a|e0] l IH]; cbn [MCPHandler.all]; [left; by exists []| |right; eauto].
  destruct IH as [(values & -> & ->)|(e & ->)]; [left; by exists (a :: values)|eauto].
Qed.

Lemma batchLoop_batches {Request Response : Type} batches :
  forall (pending : list (Request * Outcome Response)) results issued,
    (length pending <= batches)%nat ->
    (forall responses,
       pending.*2 = Returned <$> responses ->
       batchLoop batches pending results issued
       = ((issued + length pending)%nat, Returned (results ++ responses)))
    /\ (forall i e,
          pending.*2 !! i = Some (Thrown e) ->
          (forall j, (j < i)%nat -> exists r, pending.*2 !! j = Some (Returned r)) ->
          (batchLoop batches pending results issued).1
          = (issued + (length pending `min` (4 * (i `div` 4) + 4)))%nat
          /\ exists j e',
               pending.*2 !! j = Some (Thrown e')
               /\ (j `div` 4 = i `div` 4)%nat
               /\ (batchLoop batches pending results issued).2 = Thrown e').
Proof.
  induction batches as [|batches IH]; intros pending results issued Hlen.
  { destruct pending; [|simpl in Hlen; lia]. split.
    - intros [|? ?] ?; [|done]. simpl. by rewrite app_nil_r, Nat.add_0_r.
    - intros i e Hi. simpl in Hi. done. }
  destruct pending as [|first pending'] eqn:Hpending.
  { split.
    - intros [|? ?] ?; [|done]. simpl. by rewrite app_nil_r, Nat.add_0_r.
    - intros i e Hi. simpl in Hi. done. }
  rewrite <- Hpending in *. assert (Hpos : (0 < length pending)%nat) by (subst; simpl; lia).
  assert (Hstep : batchLoop (S batches) pending results issued
                  = match MCPHandler.all ((take 4 pending).*2) with
                    | Returned batchResults =>
                        batchLoop batches (drop 4 pending) (results ++ batchResults)
                                  (issued + length (take 4 pending))%nat
                    | Thrown e => ((issued + length (take 4 pending))%nat, Thrown e)
                    end).
  { by rewrite Hpending. }
  rewrite Hstep. clear Hstep Hpending first pending'.
  assert (Hdrop : (length (drop 4 pending) <= batches)%nat) by (rewrite length_drop; lia).
  split.
  - intros responses Hall.
    assert ((take 4 pending).*2 = Returned <$> take 4 responses) as Htake.
    { by rewrite fmap_take, Hall, <- fmap_take. }
    assert ((drop 4 pending).*2 = Returned <$> drop 4 responses) as Hrest.
    { by rewrite fmap_drop, Hall, <- fmap_drop. }
    rewrite Htake, all_values.
    destruct (IH (drop 4 pending) (results ++ take 4 responses)
                (issued + length (take 4 pending))%nat Hdrop) as [Hok _].
    rewrite (Hok _ Hrest), <- app_assoc, take_drop.
    f_equal. rewrite length_take, length_drop. lia.
  - intros i e Hi Hbefore.
    destruct (decide (i < 4)%nat) as [Hsmall|Hlarge].
    + assert (Thrown e ∈ (take 4 pending).*2) as Hin.
      { rewrite fmap_take. apply list_elem_of_lookup. exists i.
        by rewrite lookup_take_lt. }
      destruct (MCPHandlerFacts.all_Thrown _ _ Hin) as [e' He']. rewrite He'.
      cbn [fst snd]. rewrite (Nat.div_small i 4) by done. split.
      { rewrite length_take. lia. }
      apply all_thrown in He'. rewrite fmap_take in He'.
      apply list_elem_of_lookup in He' as [j Hj].
      assert (j < 4)%nat as Hj4.
      { apply lookup_lt_Some in Hj. rewrite length_take in Hj. lia. }
      rewrite lookup_take_lt in Hj by done. exists j, e'.
      split; [done|]. by rewrite (Nat.div_small j 4).
    + assert (exists values, (take 4 pending).*2 = Returned <$> values) as [values Hvalues].
      { destruct (all_cases ((take 4 pending).*2)) as [(values & Hv & _)|(e' & He')];
          [eauto|].
        apply all_thrown in He'. rewrite fmap_take in He'.
        apply list_elem_of_lookup in He' as [j Hj].
        assert (j < 4)%nat as Hj4.
        { apply lookup_lt_Some in Hj. rewrite length_take in Hj. lia. }
        rewrite lookup_take_lt in Hj by done.
        destruct (Hbefore j) as [r Hr]; [lia|]. congruence. }
      rewrite Hvalues, all_values.
      assert (length pending > 4)%nat as Hlong.
      { apply lookup_lt_Some in Hi. rewrite length_fmap in Hi. lia. }
      destruct (IH (drop 4 pending) (results ++ values)
                  (issued + length (take 4 pending))%nat Hdrop) as [_ Hfail].
      destruct (Hfail (i - 4)%nat e) as (Hissued & j & e' & Hj & Hdiv & Hthrown).
      { rewrite fmap_drop, lookup_drop. by replace (4 + (i - 4))%nat with i by lia. }
      { intros j Hj. destruct (Hbefore (4 + j)%nat) as [r Hr]; [lia|].
        exists r. by rewrite fmap_drop, lookup_drop. }
      assert (Hdiv4 : forall k, (4 <= k)%nat -> (k `div` 4 = S ((k - 4) `div` 4))%nat).
      { intros k Hk. replace k with ((k - 4) + 1 * 4)%nat at 1 by lia.
        rewrite Nat.div_add by lia. lia. }
      split.
      * rewrite Hissued, length_take, length_drop, (Hdiv4 i) by lia. lia.
      * exists (4 + j)%nat, e'. rewrite fmap_drop, lookup_drop in Hj.
        split; [done|]. split; [|done].
        rewrite (Hdiv4 (4 + j)%nat), (Hdiv4 i) by lia.
        replace (4 + j - 4)%nat with j by lia. by rewrite Hdiv.
Qed.

(** X5. [batchGenerate] issues the requests four at a time and waits for each
    batch of four. When every call succeeds the responses come back in the
    order of the requests. When some call fails, the batch of the first
    failing request is the last one issued: its other calls have been made
    and their responses are dropped, the error thrown is that of a call of
    this batch, and no later request is ever issued. *)
Theorem batchGenerate_batches {Request Response : Type}
    (requests : list (Request * Outcome Response)) :
  (forall responses,
     requests.*2 = Returned <$> responses ->
     batchGenerate requests = (length requests, Returned responses))
  /\ (forall i e,
        requests.*2 !! i = Some (Thrown e) ->
        (forall j, (j < i)%nat -> exists r, requests.*2 !! j = Some (Returned r)) ->
        (batchGenerate requests).1 = (length requests `min` (4 * (i `div` 4) + 4))%nat
        /\ exists j e',
             requests.*2 !! j = Some (Thrown e')
             /\ (j `div` 4 = i `div` 4)%nat
             /\ (batchGenerate requests).2 = Thrown e').
Proof.
  unfold batchGenerate.
  destruct (batchLoop_batches (length requests) requests [] 0%nat) as [Hok Hfail];
    [done|].
  split; [exact Hok|]. exact Hfail.
Qed.

Lemma batchGenerate_batches_witness :
  batchGenerate (take 5 nine_prompts) = (5%nat, Returned ["1"; "2"; "3"; "4"; "5"])
  /\ (batchGenerate nine_prompts).1 = 8%nat
  /\ exists j e',
       nine_prompts.*2 !! j = Some (Thrown e')
       /\ (j `div` 4 = 1)%nat
       /\ (batchGenerate nine_prompts).2 = Thrown e'.
Proof.
  split.
  - apply (proj1 (batchGenerate_batches (take 5 nine_prompts))). reflexivity.
  - apply (proj2 (batchGenerate_batches nine_prompts) 5%nat "model not loaded").
    + reflexivity.
    + intros j Hj.
      destruct j as [|[|[|[|[|j]]]]]; [by eexists..|lia].
Defined.

Lemma activeRequests_are_owned_witness :
  activeRequests (example_run shared_trace) = ∅
  /\ length (requests (example_run shared_trace)) = 1%nat
  /\ exists c cs,
       calls (example_run (take 2 shared_trace)) !! c = Some cs
       /\ owned cs = Some (prompt_key "topic", 0%nat).
Proof.
  destruct (activeRequests_are_owned (service := example_service) shared_trace
              (example_run shared_trace)) as (_ & _ & Hempty); [vm_compute; reflexivity|].
  destruct (activeRequests_are_owned (service := example_service) (take 2 shared_trace)
              (example_run (take 2 shared_trace))) as (Howned & _ & _);
    [vm_compute; reflexivity|].
  split; [|split; [vm_compute; reflexivity|]].
  - apply Hempty. intros c cs Hc.
    destruct c as [|[|c]]; vm_compute in Hc; [injection Hc as <-..|discriminate];
      reflexivity.
  - apply Howned. vm_compute. reflexivity.
Defined.

Lemma cache_holds_returned_responses_witness :
  let st := example_run (storing_trace ++ [RedisSetReply 0%nat None; Tick 600]) in
  redis st !! prompt_key "topic" = Some (store_text "text", 3600)
  /\ 3600 <= clock st + 3600
  /\ exists p response,
       requests st !! p = Some (prompt_key "topic", Some (Returned response))
       /\ store_text "text" = store_text response.
Proof.
  intros st. split; [vm_compute; reflexivity|].
  apply (cache_holds_returned_responses (service := example_service)
           (storing_trace ++ [RedisSetReply 0%nat None; Tick 600]) st).
  - vm_compute. reflexivity.
  - vm_compute. reflexivity.
Defined.

Lemma performGeneration_retry_count_witness :
  performGeneration (service := no_attempt_service) (answers "text")
  = (Thrown "Generation failed after -1 attempts: No attempts made", [])
  /\ performGeneration (service := zero_retries_service) refuses
     = (Thrown "Generation failed after 3 attempts: refused 2", [1000; 2000]).
Proof.
  split.
  - refine (proj1 (performGeneration_retry_count (service := no_attempt_service)
                     (answers "text")) (-1) _ _); [reflexivity|lia].
  - refine (proj2 (performGeneration_retry_count (service := zero_retries_service)
                     refuses) (fun i => "refused " +:+ pretty i) _ _).
    + reflexivity.
    + intros i Hi. reflexivity.
Defined.

End OllamaBrokerFacts.

(** ** The project's name, language and status *)

Module WorkflowProjectFacts.
Import Js JsString JsStringFacts WorkflowManager WorkflowProject.

(** X18. The name [sanitizeProjectName] makes of a topic has at most 50
    characters, all of them lower-case letters, digits or underscores, and
    never two underscores in a row; sanitizing it again changes nothing. *)
Theorem sanitizeProjectName_safe topic :
  let name := sanitizeProjectName topic in
  (String.length name <= 50)%nat
  /\ sall is_name_char name = true
  /\ includes name "__" = false
  /\ sanitizeProjectName name = name.
Proof.
  assert (Hlength : (String.length (sanitizeProjectName topic) <= 50)%nat)
    by apply stake_length.
  assert (Hchars : sall is_name_char (sanitizeProjectName topic) = true).
  { apply sall_stake, sall_squeeze; [done|]. apply sall_smap.
    intros c. unfold is_name_char.
    destruct (is_lower c || is_digit c) eqn:H; [by rewrite H|done]. }
  assert (Hruns : includes (sanitizeProjectName topic) "__" = false)
    by apply includes_stake, includes_squeeze_underscore.
  cbv zeta. repeat (split; [done|]).
  set (name := sanitizeProjectName topic) in *. unfold sanitizeProjectName.
  assert (toLowerCase name = name) as ->.
  { apply (smap_id is_name_char); [|done]. intros c Hc. apply lower_word.
    unfold is_name_char in Hc. by rewrite Hc. }
  assert (smap (fun c => if is_lower c || is_digit c then c else underscore) name = name)
    as ->.
  { apply (smap_id is_name_char); [|done]. intros c. unfold is_name_char.
    destruct (is_lower c || is_digit c); [done|]. simpl. intros Hc.
    by apply is_underscore_eq in Hc. }
  rewrite squeeze_underscore_id by done. by apply stake_all.
Qed.

(** A decision table: name the answer, then settle each line. *)
Ltac table :=
  eexists; (split; [reflexivity|]); (split; [set_solver|]);
  repeat first [ done | split | intros [? ?] | intro ].

(** X19. [detectLanguage] goes by the first group of keywords that the
    serialized technical details mention, whatever the case: python, numpy
    or pandas give python whatever else is mentioned; then javascript, node
    or react give javascript, so that typescript is only detected when none
    of those is mentioned; java is detected when java is mentioned and none
    of the keywords before it; then c++ or cpp give cpp; python is also the
    answer when no keyword is found. When [technicalDetails] is missing the
    function throws. *)
Theorem detectLanguage_precedence text :
  detectLanguage None
  = Thrown "Cannot read properties of undefined (reading 'toLowerCase')"
  /\ detectLanguage (Some (toLowerCase text)) = detectLanguage (Some text)
  /\ exists language,
       detectLanguage (Some text) = Returned language
       /\ language ∈ ["python"; "javascript"; "typescript"; "java"; "cpp"]
       /\ (mentions text ["python"; "numpy"; "pandas"] = true -> language = "python")
       /\ (language = "javascript"
           <-> mentions text ["javascript"; "node"; "react"] = true
               /\ mentions text ["python"; "numpy"; "pandas"] = false)
       /\ (language = "typescript"
           <-> mentions text ["typescript"] = true
               /\ mentions text ["python"; "numpy"; "pandas"; "javascript"; "node"; "react"]
                  = false)
       /\ (language = "java"
           <-> mentions text ["java"] = true
               /\ mentions text ["python"; "numpy"; "pandas"; "javascript"; "node"; "react";
                                 "typescript"] = false)
       /\ (language = "cpp"
           <-> mentions text ["c++"; "cpp"] = true
               /\ mentions text ["python"; "numpy"; "pandas"; "javascript"; "node"; "react";
                                 "typescript"; "java"] = false).
Proof.
  split; [done|]. split.
  { unfold detectLanguage, lowered. by rewrite toLowerCase_twice. }
  unfold detectLanguage, lowered, mentions. cbn [existsb].
  generalize (toLowerCase text). intros content.
  destruct (includes content "python"), (includes content "numpy"),
    (includes content "pandas"); cbn [orb]; try by table.
  destruct (includes content "javascript"), (includes content "node"),
    (includes content "react"); cbn [orb andb negb]; try by table.
  destruct (includes content "typescript"); cbn [orb andb negb]; try by table.
  destruct (includes content "java"); cbn [orb andb negb]; try by table.
  destruct (includes content "c++"), (includes content "cpp"); cbn [orb andb negb];
    by table.
Qed.


(** *** getDevelopmentStatus *)



End WorkflowProjectFacts.

(** ** The research orchestrator *)

Module ResearchOrchestratorFacts.
Import Js JsString JsStringFacts ResearchOrchestrator.

(** *** deduplicatePapers *)

Lemma see_keys key paper seen :
  (see key paper seen).*1
  = if bool_decide (key ∈ seen.*1) then seen.*1 else seen.*1 ++ [key].
Proof.
  induction seen as [|[k q] seen IH]; cbn [see].
  - rewrite bool_decide_eq_false_2; [done|]. apply not_elem_of_nil.
  - destruct (String.eqb k key) eqn:Hk; rewrite !fmap_cons; cbn [fst].
    + apply String.eqb_eq in Hk as ->. rewrite bool_decide_eq_true_2; [done|]. constructor.
    + apply String.eqb_neq in Hk. rewrite IH.
      destruct (bool_decide (key ∈ seen.*1)) eqn:Hin.
      * apply bool_decide_eq_true in Hin. rewrite bool_decide_eq_true_2; [done|].
        by constructor.
      * apply bool_decide_eq_false in Hin. rewrite bool_decide_eq_false_2; [done|].
        intros Hin'. apply elem_of_cons in Hin' as [->|]; done.
Qed.

Lemma see_absent key paper seen :
  key ∉ seen.*1 -> see key paper seen = seen ++ [(key, paper)].
Proof.
  induction seen as [|[k q] seen IH]; cbn [see]; [done|]. rewrite fmap_cons. intros Hkey.
  apply not_elem_of_cons in Hkey as [Hne Hkey]. cbn [fst] in Hne.
  destruct (String.eqb k key) eqn:Hk; [apply String.eqb_eq in Hk; congruence|].
  by rewrite IH.
Qed.

Lemma see_elem key paper seen k q :
  (k, q) ∈ see key paper seen -> (k, q) ∈ seen \/ (k = key /\ q = paper).
Proof.
  induction seen as [|[k' q'] seen IH]; simpl.
  - intros [= -> ->]%list_elem_of_singleton. by right.
  - destruct (String.eqb k' key) eqn:Hk.
    + apply String.eqb_eq in Hk as ->.
      intros [Heq|Hin]%elem_of_cons; [|left; by constructor].
      destruct (hasFullText paper && negb (hasFullText q')); simplify_eq;
        [by right|left; constructor].
    + intros [Heq|Hin]%elem_of_cons; [simplify_eq; left; constructor|].
      destruct (IH Hin) as [?|?]; [left; by constructor|by right].
Qed.

Lemma see_kept key paper seen k q :
  (k, q) ∈ seen ->
  exists q', (k, q') ∈ see key paper seen
             /\ (hasFullText q = true -> hasFullText q' = true).
Proof.
  induction seen as [|[k' q'] seen IH]; simpl; [by intros ?%elem_of_nil|].
  intros [Heq|Hin]%elem_of_cons.
  - simplify_eq. destruct (String.eqb k' key).
    + eexists. split; [constructor|].
      destruct (hasFullText paper) eqn:Hp, (hasFullText q') eqn:Hq; simpl; done.
    + eexists. split; [constructor|done].
  - destruct (String.eqb k' key).
    + exists q. split; [by constructor|done].
    + destruct (IH Hin) as (q'' & Hin' & Htext). exists q''. split; [by constructor|done].
Qed.

Lemma see_new key paper seen :
  exists q', (key, q') ∈ see key paper seen
             /\ (hasFullText paper = true -> hasFullText q' = true).
Proof.
  induction seen as [|[k' q'] seen IH]; simpl.
  - exists paper. split; [constructor|done].
  - destruct (String.eqb k' key) eqn:Hk.
    + apply String.eqb_eq in Hk as ->. eexists. split; [constructor|].
      intros Hp. rewrite Hp. simpl. by destruct (hasFullText q') eqn:Hq.
    + destruct IH as (q'' & Hin & Htext). exists q''. split; [by constructor|done].
Qed.

Lemma represents_see seen processed paper :
  Represents seen processed ->
  Represents (see (getPaperKey paper) paper seen) (processed ++ [paper]).
Proof.
  intros (Hnodup & Hseen & Hall). split; [|split].
  - rewrite see_keys. destruct (bool_decide _) eqn:Hin; [done|].
    apply bool_decide_eq_false in Hin. apply NoDup_app. split; [done|].
    split; [|apply NoDup_singleton]. by intros k Hk ->%list_elem_of_singleton.
  - intros k q [Hin | [-> ->]]%see_elem.
    + destruct (Hseen k q Hin). split; [done|]. apply elem_of_app. by left.
    + split; [done|]. apply elem_of_app. right. constructor.
  - intros p [Hp | ->%list_elem_of_singleton]%elem_of_app.
    + destruct (Hall p Hp) as (q & Hq & Htext).
      destruct (see_kept (getPaperKey paper) paper seen _ _ Hq) as (q' & Hq' & Htext').
      exists q'. split; [done|]. auto.
    + apply see_new.
Qed.

Lemma represents_papers papers :
  Represents (foldl (fun seen paper => see (getPaperKey paper) paper seen) [] papers) papers.
Proof.
  induction papers as [|paper papers IH] using rev_ind.
  - split; [constructor|]. split; intros *; by intros ?%elem_of_nil.
  - rewrite foldl_app. simpl. by apply represents_see.
Qed.

Lemma distinct_papers_seen papers : forall seen,
  NoDup (seen.*1 ++ (getPaperKey <$> papers)) ->
  foldl (fun seen paper => see (getPaperKey paper) paper seen) seen papers
  = seen ++ ((fun paper => (getPaperKey paper, paper)) <$> papers).
Proof.
  induction papers as [|paper papers IH]; intros seen Hnodup; simpl.
  - by rewrite app_nil_r.
  - rewrite fmap_cons in Hnodup.
    assert (getPaperKey paper ∉ seen.*1) as Hnew.
    { apply NoDup_app in Hnodup as (_ & Hdisjoint & _). intros Hin.
      apply (Hdisjoint _ Hin). constructor. }
    rewrite see_absent by done. rewrite IH.
    + by rewrite <- app_assoc.
    + rewrite fmap_app. simpl. rewrite <- app_assoc. simpl.
      apply NoDup_app in Hnodup as (H1 & H2 & H3).
      apply NoDup_app. split; [done|]. split; [|done].
      intros k Hk Hin. by apply (H2 k Hk).
Qed.

Lemma seen_keys papers : forall seen,
  (foldl (fun seen paper => see (getPaperKey paper) paper seen) seen papers).*1
  = foldl (fun keys key => if bool_decide (key ∈ keys) then keys else keys ++ [key])
          seen.*1 (getPaperKey <$> papers).
Proof.
  induction papers as [|paper papers IH]; intros seen; [done|].
  rewrite fmap_cons. cbn [foldl]. by rewrite IH, see_keys.
Qed.

(** X22. [deduplicatePapers] keeps one paper for each key, an input paper, in
    the order in which the keys first occur. Every input paper has its key
    represented, and by a paper with a full text if any paper with that key
    has one. Papers whose keys are already distinct come back unchanged, so
    deduplicating twice is the same as once. *)
Theorem deduplicatePapers_one_per_key papers :
  let unique := deduplicatePapers papers in
  NoDup (getPaperKey <$> unique)
  /\ getPaperKey <$> unique = firsts [] (getPaperKey <$> papers)
  /\ (forall paper, paper ∈ unique -> paper ∈ papers)
  /\ (forall paper, paper ∈ papers ->
        exists kept, kept ∈ unique
                     /\ getPaperKey kept = getPaperKey paper
                     /\ (hasFullText paper = true -> hasFullText kept = true))
  /\ (NoDup (getPaperKey <$> papers) -> unique = papers)
  /\ deduplicatePapers unique = unique.
Proof.
  assert (Hdistinct : forall l, NoDup (getPaperKey <$> l) -> deduplicatePapers l = l).
  { intros l Hl. unfold deduplicatePapers. rewrite distinct_papers_seen by done. simpl.
    rewrite <- list_fmap_compose. by rewrite list_fmap_id. }
  destruct (represents_papers papers) as (Hnodup & Hseen & Hall).
  unfold deduplicatePapers in *.
  set (seen := foldl _ [] papers) in *.
  assert (Hkeys : getPaperKey <$> seen.*2 = seen.*1).
  { rewrite <- list_fmap_compose. apply list_fmap_ext. intros i [k q] Hi. simpl.
    apply (Hseen k q). by eapply list_elem_of_lookup_2. }
  assert (Hunique : NoDup (getPaperKey <$> seen.*2)) by (by rewrite Hkeys).
  cbv zeta. split; [done|]. split; [|split; [|split; [|split]]].
  - rewrite Hkeys. subst seen. rewrite seen_keys. by rewrite (foldl_firsts _ [] []).
  - intros paper Hin. apply list_elem_of_fmap in Hin as ([k q] & -> & Hin).
    by apply (Hseen k q).
  - intros paper Hin. destruct (Hall paper Hin) as (q & Hq & Htext).
    exists q. split; [apply list_elem_of_fmap; by exists (getPaperKey paper, q)|].
    split; [by apply (Hseen _ _ Hq)|done].
  - apply Hdistinct.
  - by apply Hdistinct.
Qed.

(** *** getPaperKey *)

Lemma kept_lower c :
  negb (is_word (lower c) || is_space (lower c))
  || (is_space (lower c) || is_title_char (lower c)) = true.
Proof. by each_char c. Qed.

Lemma title_char_cases c :
  is_title_char c = true ->
  lower c = c
  /\ is_word c || is_space c = true
  /\ negb (is_space c) || Ascii.eqb c space = true.
Proof. by each_char c. Qed.

Lemma normalizedTitle_shape title :
  let n := normalizedTitle title in
  sall is_title_char n = true
  /\ spaced is_space n = true
  /\ starts is_space n = false
  /\ trimEnd n = n.
Proof.
  unfold normalizedTitle, trim.
  set (kept := sfilter _ (toLowerCase title)).
  assert (Hkept : sall (fun c => is_space c || is_title_char c) kept = true).
  { subst kept. apply sall_sfilter. unfold toLowerCase. apply sall_smap. intros c.
    apply kept_lower. }
  cbv zeta. split; [|split; [|split]].
  - apply trimEnd_sall, trimStart_sall. by apply sall_squeezed.
  - apply trimEnd_spaced, trimStart_spaced. by apply spaced_squeeze.
  - apply trimEnd_starts, trimStart_starts.
  - apply trimEnd_idempotent.
Qed.

(** X23. For a title whose UTF-16 code units are all below 256 (the
    strings of this development; [toLowerCase] is modelled on them only),
    the title part of a paper's key is made of lower-case letters, digits,
    underscores and single spaces, with no space at either end. It does
    not depend on the case of the title; and a title that is already
    normalized is its own key. *)
Theorem normalizedTitle_insensitive title :
  let n := normalizedTitle title in
  sall is_title_char n = true
  /\ includes n "  " = false
  /\ starts is_space n = false
  /\ trimEnd n = n
  /\ normalizedTitle (toLowerCase title) = n
  /\ normalizedTitle n = n
  /\ (forall p q,
        normalizedTitle (ResearchOrchestrator.title p)
        = normalizedTitle (ResearchOrchestrator.title q) ->
        toLowerCase <$> head (authors p) = toLowerCase <$> head (authors q) ->
        year p = year q ->
        getPaperKey p = getPaperKey q).
Proof.
  destruct (normalizedTitle_shape title) as (Hchars & Hspaced & Hstart & Hend).
  cbv zeta. split; [done|].
  split; [|split; [done|split; [done|split; [|split]]]].
  4: { intros p q Htitle Hauthor Hyear. unfold getPaperKey. rewrite Htitle, Hyear.
       destruct (authors p), (authors q); simpl in Hauthor; congruence. }
  - by apply includes_spaced.
  - unfold normalizedTitle. by rewrite toLowerCase_twice.
  - unfold normalizedTitle at 1, trim.
    set (n := normalizedTitle title) in *.
    assert (toLowerCase n = n) as ->.
    { apply (smap_id is_title_char); [|done]. intros c Hc. by apply title_char_cases. }
    rewrite sfilter_id.
    2: { eapply sall_impl; [|exact Hchars]. intros c Hc. by apply title_char_cases. }
    rewrite squeeze_id; [|done|].
    2: { eapply sall_impl; [|exact Hchars]. intros c Hc. by apply title_char_cases. }
    by rewrite trimStart_id.
Qed.

(** *** extractKeywords and createSearchQueries *)

Lemma elem_of_filter (p : string -> bool) l x : x ∈ List.filter p l <-> x ∈ l /\ p x = true.
Proof. rewrite !list_elem_of_In. apply filter_In. Qed.

(** X24. The keywords of a text are the pieces between its runs of white
    space, lower-cased, that are made of at least four letters and nothing
    else, and are not one of ten words: the seventeen other stop words of
    the source are shorter than four letters and never decide. The case of
    the text does not matter. *)
Theorem extractKeywords_words text :
  extractKeywords (toLowerCase text) = extractKeywords text
  /\ forall word,
       word ∈ extractKeywords text
       <-> word ∈ split (toLowerCase text)
           /\ (4 <= String.length word)%nat
           /\ sall is_lower word = true
           /\ word ∉ ["which"; "been"; "have"; "were"; "will"; "with"; "could"; "what";
                      "when"; "where"].
Proof.
  split; [unfold extractKeywords; by rewrite toLowerCase_twice|].
  intros word. unfold extractKeywords. rewrite elem_of_filter. unfold is_keyword.
  split.
  - intros (Hin & [[Hlen Hstop]%andb_true_iff [_ Hletters]%andb_true_iff]%andb_true_iff).
    apply Nat.ltb_lt in Hlen. apply negb_true_iff, bool_decide_eq_false in Hstop.
    repeat (split; [done|]). intros Hten. apply Hstop. unfold stopWords.
    repeat (apply elem_of_cons in Hten as [->|Hten]; [set_solver|]).
    by apply elem_of_nil in Hten.
  - intros (Hin & Hlen & Hletters & Hten). split; [done|].
    apply andb_true_iff. split; [apply andb_true_iff; split|].
    + apply Nat.ltb_lt. lia.
    + apply negb_true_iff, bool_decide_eq_false. intros Hstop. unfold stopWords in Hstop.
      repeat (apply elem_of_cons in Hstop as [->|Hstop];
              [first [ simpl in Hlen; lia | apply Hten; set_solver ]|]).
      by apply elem_of_nil in Hstop.
    + rewrite Hletters, andb_true_r. destruct word; [simpl in Hlen; lia|done].
Qed.

Lemma questionQuery_length question : (length (questionQuery question) <= 1)%nat.
Proof. unfold questionQuery. destruct (2 <? _)%nat; simpl; lia. Qed.

Lemma bind_length {A B : Type} (f : A -> list B) l :
  (forall x, (length (f x) <= 1)%nat) -> (length (l ≫= f) <= length l)%nat.
Proof.
  intros Hf. induction l as [|x l IH]; [done|].
  rewrite bind_cons, length_app. specialize (Hf x). simpl. lia.
Qed.

(** X25. The search queries start with the plan's topic; then come, for each
    research question with more than two keywords, its keywords joined by
    spaces, and then every key paper's title in double quotes; a query that
    has occurred before is left out. So the list is never empty, has no
    duplicates, and has at most one query per question and per paper
    besides the topic. *)
Theorem createSearchQueries_queries plan :
  let queries := createSearchQueries plan in
  head queries = Some (planTopic plan)
  /\ NoDup queries
  /\ (length queries <= 1 + length (researchQuestions plan) + length (keyPapers plan))%nat
  /\ forall query,
       query ∈ queries
       <-> query = planTopic plan
           \/ (exists question,
                 question ∈ researchQuestions plan
                 /\ (2 < length (extractKeywords question))%nat
                 /\ query = join " " (extractKeywords question))
           \/ (exists title, title ∈ keyPapers plan /\ query = quoted title).
Proof.
  unfold createSearchQueries. cbv zeta. split; [done|]. split; [apply firsts_NoDup|].
  split.
  - etrans; [apply firsts_length|]. rewrite !length_app, length_fmap. simpl.
    pose proof (bind_length questionQuery (researchQuestions plan) questionQuery_length).
    lia.
  - intros query. rewrite firsts_elem, !elem_of_app, list_elem_of_singleton,
      list_elem_of_bind, list_elem_of_fmap.
    split.
    + intros [[->|[(question & Hq & Hin)|(title & -> & Hin)]] _]; [by left| |by eauto].
      right. left. exists question. split; [done|]. unfold questionQuery in Hq.
      destruct (2 <? length (extractKeywords question))%nat eqn:Hlen;
        [|by apply elem_of_nil in Hq].
      apply Nat.ltb_lt in Hlen. by apply list_elem_of_singleton in Hq.
    + intros [->|[(question & Hin & Hlen & ->)|(title & Hin & ->)]];
        (split; [|apply not_elem_of_nil]); [by left| |by eauto].
      right. left. exists question. split; [|done]. unfold questionQuery.
      apply Nat.ltb_lt in Hlen. rewrite Hlen. constructor.
Qed.

End ResearchOrchestratorFacts.

(** ** The request handler: sessions and workflows *)

Module MCPResearchFacts.
Import Js MCPHandler MCPResearch.

Local Arguments WorkflowManager.startDevelopment : simpl never.

Local Arguments WorkflowManager.refineResearch : simpl never.

Local Arguments WorkflowManager.createResearchPlan : simpl never.

Local Arguments WorkflowManager.updateStageProgress : simpl never.

(** X26. [startResearch] changes the session only once the questions have
    been generated: then the session is in the clarification stage, its
    topic is still its own (the questions are asked about the topic of the
    request), and one [research:progress] event with the questions is sent
    to the session's room. When the generation fails the error is thrown
    and neither the session nor the room sees anything. *)
Theorem startResearch_settles h message responseId questions session :
  sessions h !! startSessionId message = Some session ->
  let run := startResearch h message responseId questions in
  match WorkflowManager.outcome questions with
  | Returned qs =>
      exists envelope payload,
        run.2 = Returned envelope
        /\ get envelope "method" = Str (startMethod message)
        /\ get (get envelope "result") "questions" = qs
        /\ get (get envelope "result") "stage" = Str "clarification"
        /\ (stage <$> sessions run.1 !! startSessionId message)
           = Some WorkflowManager.CLARIFICATION
        /\ (topic <$> sessions run.1 !! startSessionId message) = Some (topic session)
        /\ broadcasts run.1
           = broadcasts h ++ [(startSessionId message, "research:progress", payload)]
        /\ get payload "questions" = qs
  | Thrown e =>
      run.2 = Thrown e
      /\ sessions run.1 = sessions h
      /\ broadcasts run.1 = broadcasts h
  end.
Proof.
  intros Hsession. unfold startResearch. rewrite Hsession.
  unfold WorkflowManager.generateClarificationQuestions, WorkflowManager.await.
  destruct (WorkflowManager.outcome questions) as [qs|e]; cbn [fst snd]; [|done].
  eexists _, _. split; [reflexivity|]. unfold response. cbn.
  repeat first [ rewrite lookup_insert_eq | rewrite lookup_insert_ne by done ]; cbn.
  repeat first [ rewrite lookup_insert_eq | rewrite lookup_insert_ne by done ]; cbn.
  done.
Qed.

(** X27. A clarification request that fails has still recorded its answers:
    they are appended to the session before anything is awaited, and on
    the plan path the session has moved to the research stage as well. A
    client that sends the same answers again after the error has them
    counted twice. *)
Theorem handleClarification_failure_keeps_answers h message responseId followUp saved plan
    session e :
  sessions h !! sessionId message = Some session ->
  (handleClarification h message responseId followUp saved plan).2 = Thrown e ->
  let accumulated := clarifications session ++ answers message in
  sessions (handleClarification h message responseId followUp saved plan).1
  = <[sessionId message :=
        (if (length accumulated <? 2)%nat then set_clarifications accumulated session
         else set_stage WorkflowManager.RESEARCH (set_clarifications accumulated session))]>
      (sessions h).
Proof.
  intros Hsession. unfold handleClarification. rewrite Hsession. cbn [clarifications
    set_clarifications]. destruct (length _ <? 2)%nat.
  - unfold WorkflowManager.generateFollowUpQuestions, WorkflowManager.await.
    by destruct (WorkflowManager.outcome followUp).
  - destruct (WorkflowManager.createResearchPlan _ _ _ _ _) as [m1 [p|e']]; by cbn.
Qed.

(** X28. The research that a clarification request starts in the background
    is asked for the handler's session id, while the plan was stored by
    the manager under a key of its own, [session_<now>]. Unless the
    manager already holds a workflow under the session's id, the research
    therefore finds none: no listener is registered, the call throws
    ["Workflow not found"], and the only workflow the request leaves is
    the one under the manager's key. *)
Theorem background_research_finds_no_workflow h message responseId followUp saved plan
    session researchPlan :
  sessions h !! sessionId message = Some session ->
  (2 <= length (clarifications session ++ answers message))%nat ->
  WorkflowManager.outcome plan = Returned researchPlan ->
  WorkflowManager.workflows (manager h) !! sessionId message = None ->
  sessionId message <> WorkflowManager.newSessionId (manager h) ->
  let m' := manager (handleClarification h message responseId followUp saved plan).1 in
  WorkflowManager.workflows m' !! sessionId message = None
  /\ is_Some (WorkflowManager.workflows m' !! WorkflowManager.newSessionId (manager h))
  /\ WorkflowManager.crawlListeners m' = WorkflowManager.crawlListeners (manager h)
  /\ forall crawls results,
       WorkflowManager.executeResearch m' (sessionId message) crawls results
       = (m', Thrown "Workflow not found").
Proof.
  intros Hsession Hmany Hplan Hnone Hkey. unfold handleClarification. rewrite Hsession.
  cbn [clarifications set_clarifications set_stage topic].
  apply Nat.ltb_ge in Hmany. rewrite Hmany.
  set (accumulated := clarifications session ++ answers message) in *.
  destruct (WorkflowManagerFacts.perform_log (manager h)
              (WorkflowManager.CreateResearchPlan (topic session) accumulated saved plan))
    as (m0 & Hm0 & Hlog).
  cbn [WorkflowManager.perform WorkflowManager.prepared] in Hm0, Hlog.
  assert (Hlisteners :
            WorkflowManager.crawlListeners
              (WorkflowManager.createResearchPlan (manager h) (topic session) accumulated
                 saved plan).1
            = WorkflowManager.crawlListeners (manager h)).
  { unfold WorkflowManager.createResearchPlan, WorkflowManager.await.
    destruct (WorkflowManager.outcome saved); cbn [fst snd]; [|done].
    destruct (WorkflowManager.outcome plan); cbn [fst snd];
      repeat (rewrite WorkflowManagerFacts.updateStageProgress_listeners; cbn); done. }
  destruct (WorkflowManager.createResearchPlan (manager h) (topic session) accumulated
              saved plan) as [m1 created]. cbn [fst snd] in *.
  assert (Hw1 : WorkflowManager.workflows m1 !! sessionId message = None).
  { destruct (Hlog (sessionId message)) as (mus & -> & _). rewrite Hm0.
    by rewrite lookup_insert_ne, Hnone. }
  assert (Hnew : is_Some (WorkflowManager.workflows m1
                            !! WorkflowManager.newSessionId (manager h))).
  { destruct (Hlog (WorkflowManager.newSessionId (manager h))) as (mus & -> & _).
    rewrite Hm0, lookup_insert_eq. by eexists. }
  assert (Hthrows : forall crawls results,
            WorkflowManager.executeResearch m1 (sessionId message) crawls results
            = (m1, Thrown "Workflow not found")).
  { intros crawls results.
    unfold WorkflowManager.executeResearch, WorkflowManager.executeResearch_begin.
    by rewrite Hw1. }
  destruct created as [p|e]; cbv beta iota zeta;
    unfold WorkflowManager.executeResearch_begin; rewrite ?Hw1;
    cbn [default manager fst snd]; done.
Qed.

(** X29. [approveResearch] refines the research only for a rejection that
    comes with feedback, and then leaves the session as it is. Every other
    request, an approval as well as a rejection without feedback, puts the
    session in the development stage before development is started, so it
    stays there when [startDevelopment] throws; the handler throws exactly
    when [startDevelopment] does. *)
Theorem approveResearch_paths h message responseId refined env session :
  sessions h !! approveSessionId message = Some session ->
  let run := approveResearch h message responseId refined env in
  (truthy (approved message) = false -> truthy (feedback message) = true ->
   sessions run.1 = sessions h
   /\ manager run.1
      = (WorkflowManager.refineResearch (manager h) (approveSessionId message) refined).1
   /\ (forall e,
         run.2 = Thrown e
         <-> (WorkflowManager.refineResearch (manager h) (approveSessionId message)
                refined).2 = Thrown e)
   /\ (forall envelope,
         run.2 = Returned envelope ->
         get (get envelope "result") "status" = Str "refining"))
  /\ (truthy (approved message) = true \/ truthy (feedback message) = false ->
      sessions run.1
      = <[approveSessionId message := set_stage WorkflowManager.DEVELOPMENT session]>
          (sessions h)
      /\ manager run.1
         = (WorkflowManager.startDevelopment (manager h) (approveSessionId message) env).1
      /\ (forall e,
            run.2 = Thrown e
            <-> (WorkflowManager.startDevelopment (manager h) (approveSessionId message)
                   env).2 = Thrown e)
      /\ (forall envelope,
            run.2 = Returned envelope ->
            get (get envelope "result") "stage" = Str "development")).
Proof.
  intros Hsession. unfold approveResearch. rewrite Hsession. split.
  - intros -> ->. cbn [negb andb].
    destruct (WorkflowManager.refineResearch _ _ _) as [m1 [[]|e']]; cbn [fst snd].
    + split; [done|]. split; [done|]. split; [intros e0; split; congruence|].
      intros envelope [= <-]. unfold response. cbn.
      repeat first [ rewrite lookup_insert_eq | rewrite lookup_insert_ne by done ]; cbn.
      by repeat first [ rewrite lookup_insert_eq | rewrite lookup_insert_ne by done ].
    + split; [done|]. split; [done|]. split; [intros e0; split; congruence|].
      by intros envelope [=].
  - intros Hcase.
    assert (negb (truthy (approved message)) && truthy (feedback message) = false) as ->.
    { destruct Hcase as [-> | ->]; [done|apply andb_false_r]. }
    destruct (WorkflowManager.startDevelopment _ _ _) as [m1 [[]|e']]; cbn [fst snd].
    + split; [done|]. split; [done|]. split; [intros e0; split; congruence|].
      intros envelope [= <-]. unfold response. cbn.
      repeat first [ rewrite lookup_insert_eq | rewrite lookup_insert_ne by done ]; cbn.
      by repeat first [ rewrite lookup_insert_eq | rewrite lookup_insert_ne by done ].
    + split; [done|]. split; [done|]. split; [intros e0; split; congruence|].
      by intros envelope [=].
Qed.

Lemma startResearch_settles_witness :
  let run := startResearch created start_request "r-1" questions_reply in
  exists envelope payload,
    run.2 = Returned envelope
    /\ get envelope "method" = Str "research.start"
    /\ get (get envelope "result") "questions" = strings ["Which metric?"]
    /\ get (get envelope "result") "stage" = Str "clarification"
    /\ (stage <$> sessions run.1 !! "s-1") = Some WorkflowManager.CLARIFICATION
    /\ (topic <$> sessions run.1 !! "s-1") = Some "edge caching for CDNs"
    /\ broadcasts run.1 = [("s-1", "research:progress", payload)]
    /\ get payload "questions" = strings ["Which metric?"].
Proof.
  destruct (sessions created !! "s-1") as [session|] eqn:Hsession;
    [|vm_compute in Hsession; discriminate].
  pose proof (startResearch_settles created start_request "r-1" questions_reply session
                Hsession) as Hrun.
  vm_compute in Hsession. injection Hsession as <-. exact Hrun.
Defined.

Lemma handleClarification_failure_keeps_answers_witness :
  let failed := handleClarification asked first_answer "r-1" refusing saved_reply plan_reply in
  let again :=
    handleClarification failed.1 first_answer "r-2" questions_reply saved_reply plan_reply in
  failed.2 = Thrown "connect ECONNREFUSED"
  /\ (clarifications <$> sessions failed.1 !! "s-1") = Some ["latency matters most"]
  /\ (clarifications <$> sessions again.1 !! "s-1")
     = Some ["latency matters most"; "latency matters most"]
  /\ (stage <$> sessions again.1 !! "s-1") = Some WorkflowManager.RESEARCH.
Proof.
  intros failed again.
  destruct (sessions asked !! "s-1") as [session|] eqn:Hsession;
    [|vm_compute in Hsession; discriminate].
  pose proof (handleClarification_failure_keeps_answers asked first_answer "r-1"
                refusing saved_reply plan_reply session "connect ECONNREFUSED" Hsession
                eq_refl)
    as Hkept.
  fold failed in Hkept. split; [reflexivity|]. split.
  - rewrite Hkept. vm_compute in Hsession. injection Hsession as <-. reflexivity.
  - split; vm_compute; reflexivity.
Defined.

Lemma background_research_finds_no_workflow_witness :
  let once :=
    handleClarification asked first_answer "r-1" questions_reply saved_reply plan_reply in
  let twice :=
    handleClarification once.1 second_answer "r-2" questions_reply saved_reply plan_reply in
  WorkflowManager.workflows (manager twice.1) !! "s-1" = None
  /\ is_Some (WorkflowManager.workflows (manager twice.1) !! "session_3")
  /\ WorkflowManager.crawlListeners (manager twice.1) = []
  /\ WorkflowManager.executeResearch (manager twice.1) "s-1" 4 plan_reply
     = (manager twice.1, Thrown "Workflow not found").
Proof.
  intros once twice.
  destruct (sessions once.1 !! "s-1") as [session|] eqn:Hsession;
    [|vm_compute in Hsession; discriminate].
  destruct (background_research_finds_no_workflow once.1 second_answer "r-2"
              questions_reply saved_reply plan_reply session
              (Object {[ "topic" := Str "edge caching for CDNs" ]}) Hsession)
    as (Hnone & Hnew & Hlisteners & Hthrows).
  - vm_compute in Hsession. injection Hsession as <-. vm_compute. lia.
  - reflexivity.
  - vm_compute. reflexivity.
  - vm_compute. discriminate.
  - fold twice in Hnone, Hnew, Hlisteners, Hthrows.
    split; [exact Hnone|]. split; [exact Hnew|]. split; [exact Hlisteners|apply Hthrows].
Defined.

Lemma approveResearch_paths_witness :
  let silent := approveResearch asked silent_rejection "r-1" refusing
                  WorkflowRuns.second_run_passes in
  let spoken := approveResearch asked rejection "r-1" refusing
                  WorkflowRuns.second_run_passes in
  (stage <$> sessions silent.1 !! "s-1") = Some WorkflowManager.DEVELOPMENT
  /\ silent.2 = Thrown "Workflow not found"
  /\ (stage <$> sessions spoken.1 !! "s-1") = Some WorkflowManager.CLARIFICATION
  /\ spoken.2 = Thrown "Workflow not found".
Proof.
  intros silent spoken.
  destruct (sessions asked !! "s-1") as [session|] eqn:Hsession;
    [|vm_compute in Hsession; discriminate].
  destruct (approveResearch_paths asked silent_rejection "r-1" refusing
              WorkflowRuns.second_run_passes session Hsession) as [_ Hsilent].
  destruct (approveResearch_paths asked rejection "r-1" refusing
              WorkflowRuns.second_run_passes session Hsession) as [Hspoken _].
  destruct Hsilent as (Hs1 & _ & Hs2 & _); [by right|].
  destruct Hspoken as (Hp1 & _ & Hp2 & _); [done..|].
  fold silent in Hs1, Hs2. fold spoken in Hp1, Hp2.
  split; [rewrite Hs1; vm_compute in Hsession; injection Hsession as <-; reflexivity|].
  split; [apply Hs2; vm_compute; reflexivity|].
  split; [rewrite Hp1; vm_compute; reflexivity|].
  apply Hp2. vm_compute. reflexivity.
Defined.

End MCPResearchFacts.
